(** * cloud-automation: the resource managers and the orchestrator

    A shallow embedding of [src/cloud_automation]: the four in-memory
    resource managers ([ec2_manager.py], [s3_manager.py], [rds_manager.py],
    [lambda_manager.py]) and the orchestrator ([aws_automation.py]).

    Conventions of the embedding.
    - A Python method is a computation [Py S A]: it receives the state [S]
      it touches and either returns a value with the new state or raises.
      Dictionary subscripts and [list.remove] are the places where the
      source can raise; they are modelled as fallible primitives, so that
      "this method never raises" is a theorem and not a typing accident.
    - Registries ([Dict[str, Dict[str, Any]]]) are [gmap string R] for a
      record [R] holding the fields of the inner dictionary.  The iteration
      order of a registry is not tracked: Python lists a dictionary in
      insertion order, listings here are given in the order of
      [map_to_list], and no statement below depends on the order of a
      listing.
    - [datetime.now] and the [random] module are ambient: the state
      [Ambient] holds the two sources and how far each has been read.
    - The getters and [list_objects] hand out the stored dictionary or list
      itself; this sharing is not tracked, a getter returns the value.
    - Dictionaries are kept by value, one per record.  The code stores the
      dictionary object it is given ([tags or {}], [metadata or {}],
      [environment]) and [tag_instance] updates the stored object in place,
      so that records which were given one and the same dictionary object
      change together; the embedding describes callers that hand a
      dictionary object to one call only, and the numbered properties below
      do not rely on the tags, environment or metadata of one record being
      untouched by a [tag_instance] on another.
    - Arguments have their declared types, and a dictionary of keyword
      arguments carries the arguments that the signature requires.
    - Logging is not modelled. *)

From stdpp Require Import gmap strings list fin_maps pretty.
From Stdlib Require Import ZArith.

Open Scope string_scope.

(* ===================================================================== *)
(** * The Python runtime the managers run on *)
(* ===================================================================== *)

Inductive exn : Type :=
| KeyError (key : string)
| ValueError (what : string).

Inductive outcome (S A : Type) : Type :=
| Return (a : A) (s : S)
| Raise (e : exn).

Arguments Return {S A} a s.
Arguments Raise {S A} e.

Definition Py (S A : Type) : Type := S -> outcome S A.

Definition ret {S A : Type} (a : A) : Py S A := fun s => Return a s.

Definition bind {S A B : Type} (m : Py S A) (k : A -> Py S B) : Py S B :=
  fun s => match m s with
           | Return a s' => k a s'
           | Raise e => Raise e
           end.

Definition raise {S A : Type} (e : exn) : Py S A := fun _ => Raise e.

Definition get_state {S : Type} : Py S S := fun s => Return s s.

Notation "x <- m ;; k" := (bind m (fun x => k))
  (at level 100, m at next level, right associativity).
Notation "m ;;; k" := (bind m (fun _ => k))
  (at level 100, right associativity).

(** [for x in xs: body x], where the loop body threads a local [acc]. *)
Fixpoint for_each {S A B : Type} (body : B -> A -> Py S B) (acc : B) (xs : list A)
  : Py S B :=
  match xs with
  | [] => ret acc
  | x :: xs' => acc' <- body acc x ;; for_each body acc' xs'
  end.

(** Running a computation on one component of a pair of states. *)
Definition on_fst {S T A : Type} (m : Py S A) : Py (S * T) A :=
  fun st => match m (fst st) with
            | Return a s' => Return a (s', snd st)
            | Raise e => Raise e
            end.

Definition on_snd {S T A : Type} (m : Py T A) : Py (S * T) A :=
  fun st => match m (snd st) with
            | Return a t' => Return a (fst st, t')
            | Raise e => Raise e
            end.

(** [d[k]]: raises [KeyError] when the key is absent. *)
Definition getitem {S V : Type} (d : gmap string V) (k : string) : Py S V :=
  match d !! k with
  | Some v => ret v
  | None => raise (KeyError k)
  end.

(** [l.remove(x)]: drops the first element equal to [x], raises
    [ValueError] when there is none. *)
Fixpoint list_remove {A : Type} `{EqDecision A} (x : A) (l : list A)
  : option (list A) :=
  match l with
  | [] => None
  | y :: l' => if decide (y = x) then Some l'
               else match list_remove x l' with
                    | Some r => Some (y :: r)
                    | None => None
                    end
  end.

Definition remove {S A : Type} `{EqDecision A} (x : A) (l : list A) : Py S (list A) :=
  match list_remove x l with
  | Some l' => ret l'
  | None => raise (ValueError "list.remove(x): x not in list")
  end.

(** [list(d.values())], up to the order of the list. *)
Definition values {V : Type} (d : gmap string V) : list V := (map_to_list d).*2.

(** Truthiness of the optional arguments the managers test with [if x:],
    [x or default]. *)
Definition truthy_str (s : string) : bool := negb (String.eqb s "").
Definition truthy_int (z : Z) : bool := negb (z =? 0)%Z.

(** [tags or {}], [metadata or {}]: [None] and the empty dictionary both
    give the empty dictionary. *)
Definition or_empty_dict (d : option (gmap string string)) : gmap string string :=
  default ∅ d.

Definition or_empty_list (l : option (list string)) : list string :=
  default [] l.

(** ** The ambient clock and random generator *)

Record Ambient : Type := mkAmbient {
  wall_clock : nat -> string;   (* the n-th reading of the UTC clock, ISO-8601 *)
  ticks : nat;                  (* readings taken so far *)
  generator : nat -> N;         (* the n-th raw number of the generator *)
  draws : nat                   (* numbers drawn so far *)
}.

(** [datetime.now(timezone.utc).isoformat()]. *)
Definition utc_now : Py Ambient string :=
  fun a => Return (wall_clock a (ticks a))
                  (mkAmbient (wall_clock a) (S (ticks a)) (generator a) (draws a)).

(** One draw of the generator, reduced to [0 .. n-1]. *)
Definition randbelow (n : N) : Py Ambient N :=
  fun a => Return (generator a (draws a) mod n)%N
                  (mkAmbient (wall_clock a) (ticks a) (generator a) (S (draws a))).

(** [random.randint(lo, hi)]. *)
Definition randint (lo hi : Z) : Py Ambient Z :=
  r <- randbelow (Z.to_N (hi - lo + 1)) ;;
  ret (lo + Z.of_N r)%Z.

Definition char_at (population : string) (i : N) : Ascii.ascii :=
  default Ascii.zero (String.get (N.to_nat i) population).

(** [''.join(random.choices(population, k=k))]. *)
Fixpoint choices (population : string) (k : nat) : Py Ambient string :=
  match k with
  | O => ret ""
  | S k' =>
      i <- randbelow (N.of_nat (String.length population)) ;;
      rest <- choices population k' ;;
      ret (String (char_at population i) rest)
  end.

(** [string.hexdigits] and [string.hexdigits.lower()]. *)
Definition hexdigits : string := "0123456789abcdefABCDEF".
Definition hexdigits_lower : string := "0123456789abcdefabcdef".

(* ===================================================================== *)
(** * ec2_manager.py *)
(* ===================================================================== *)

Module EC2.

(** The dictionary [instance_info] built by [create_instance]. *)
Record Instance : Type := mkInstance {
  instance_id : string;
  instance_type : string;
  ami_id : string;
  key_name : option string;
  security_groups : list string;
  tags : gmap string string;
  state : string;
  launch_time : string;
  public_ip : string;
  private_ip : string
}.

Record EC2Manager : Type := mkEC2Manager {
  simulation_mode : bool;
  instances : gmap string Instance
}.

(** [EC2Manager(simulation_mode=...)]. *)
Definition init (simulation_mode : bool) : EC2Manager :=
  mkEC2Manager simulation_mode ∅.

(** [self.instances[k] = info]. *)
Definition setitem (k : string) (info : Instance) : Py EC2Manager unit :=
  fun self => Return tt (mkEC2Manager (simulation_mode self) (<[k := info]> (instances self))).

(** [info["state"] = s]. *)
Definition set_state (s : string) (i : Instance) : Instance :=
  mkInstance (instance_id i) (instance_type i) (ami_id i) (key_name i)
             (security_groups i) (tags i) s (launch_time i) (public_ip i)
             (private_ip i).

(** [info["tags"].update(t)]: the keys of [t] win.  The update is in place;
    here it reaches this record only (see the conventions). *)
Definition update_tags (t : gmap string string) (i : Instance) : Instance :=
  mkInstance (instance_id i) (instance_type i) (ami_id i) (key_name i)
             (security_groups i) (t ∪ tags i) (state i) (launch_time i)
             (public_ip i) (private_ip i).

(** The arguments of a call of [create_instance], defaults filled in. *)
Record create_args : Type := mkCreateArgs {
  arg_instance_type : string;
  arg_ami_id : string;
  arg_key_name : option string;
  arg_security_groups : option (list string);
  arg_tags : option (gmap string string)
}.

Definition _generate_instance_id : Py Ambient string :=
  random_part <- choices hexdigits_lower 17 ;;
  ret ("i-" +:+ random_part).

Definition create_instance (a : create_args) : Py (Ambient * EC2Manager) string :=
  instance_id <- on_fst _generate_instance_id ;;
  launch_time <- on_fst utc_now ;;
  p1 <- on_fst (randint 0 255) ;;
  p2 <- on_fst (randint 0 255) ;;
  p3 <- on_fst (randint 0 255) ;;
  q1 <- on_fst (randint 0 255) ;;
  q2 <- on_fst (randint 0 255) ;;
  let instance_info :=
    mkInstance instance_id (arg_instance_type a) (arg_ami_id a) (arg_key_name a)
               (or_empty_list (arg_security_groups a))
               (or_empty_dict (arg_tags a))
               "running" launch_time
               ("54." +:+ pretty p1 +:+ "." +:+ pretty p2 +:+ "." +:+ pretty p3)
               ("10.0." +:+ pretty q1 +:+ "." +:+ pretty q2) in
  on_snd (setitem instance_id instance_info) ;;;
  ret instance_id.

(** A dictionary of keyword arguments for [create_instance]: [None] is a
    key that is absent.  Keys the signature does not name are swallowed by
    its [**kwargs] and play no part. *)
Record kwargs : Type := mkKwargs {
  kw_instance_type : option string;
  kw_ami_id : option string;
  kw_key_name : option string;
  kw_security_groups : option (list string);
  kw_tags : option (gmap string string)
}.

(** The defaults of the signature of [create_instance]. *)
Definition bind_kwargs (config : kwargs) : create_args :=
  mkCreateArgs (default "t2.micro" (kw_instance_type config))
               (default "ami-default" (kw_ami_id config))
               (kw_key_name config) (kw_security_groups config) (kw_tags config).

(** [self.create_instance( **config )]. *)
Definition create_instance_kw (config : kwargs) : Py (Ambient * EC2Manager) string :=
  create_instance (bind_kwargs config).

Definition terminate_instance (instance_id : string) : Py EC2Manager bool :=
  self <- get_state ;;
  if bool_decide (is_Some (instances self !! instance_id)) then
    info <- getitem (instances self) instance_id ;;
    setitem instance_id (set_state "terminated" info) ;;;
    ret true
  else ret false.

Definition stop_instance (instance_id : string) : Py EC2Manager bool :=
  self <- get_state ;;
  if bool_decide (is_Some (instances self !! instance_id)) then
    info <- getitem (instances self) instance_id ;;
    if String.eqb (state info) "running" then
      setitem instance_id (set_state "stopped" info) ;;;
      ret true
    else ret false
  else ret false.

Definition start_instance (instance_id : string) : Py EC2Manager bool :=
  self <- get_state ;;
  if bool_decide (is_Some (instances self !! instance_id)) then
    info <- getitem (instances self) instance_id ;;
    if String.eqb (state info) "stopped" then
      setitem instance_id (set_state "running" info) ;;;
      ret true
    else ret false
  else ret false.

(** [self.instances.get(instance_id)]. *)
Definition get_instance_info (instance_id : string) : Py EC2Manager (option Instance) :=
  self <- get_state ;;
  ret (instances self !! instance_id).

Definition list_instances (state_filter : option string) : Py EC2Manager (list Instance) :=
  self <- get_state ;;
  match state_filter with
  | Some s =>
      if truthy_str s then
        ret (filter (fun info => state info = s) (values (instances self)))
      else ret (values (instances self))
  | None => ret (values (instances self))
  end.

Definition tag_instance (instance_id : string) (t : gmap string string) : Py EC2Manager bool :=
  self <- get_state ;;
  if bool_decide (is_Some (instances self !! instance_id)) then
    info <- getitem (instances self) instance_id ;;
    setitem instance_id (update_tags t info) ;;;
    ret true
  else ret false.

End EC2.

(* ===================================================================== *)
(** * s3_manager.py *)
(* ===================================================================== *)

Module S3.

(** The dictionary [object_info] built by [put_object]. *)
Record Object : Type := mkObject {
  key : string;
  size : Z;
  metadata : gmap string string;
  last_modified : string;
  etag : string
}.

#[global] Instance Object_eq_dec : EqDecision Object.
Proof. solve_decision. Defined.

(** The dictionary [bucket_info] built by [create_bucket]. *)
Record Bucket : Type := mkBucket {
  bucket_name : string;
  region : string;
  acl : string;
  versioning : bool;
  encryption : bool;
  tags : gmap string string;
  creation_date : string;
  objects : list Object;
  size_bytes : Z
}.

Record S3Manager : Type := mkS3Manager {
  simulation_mode : bool;
  buckets : gmap string Bucket
}.

Definition init (simulation_mode : bool) : S3Manager :=
  mkS3Manager simulation_mode ∅.

(** [self.buckets[k] = b]. *)
Definition setitem (k : string) (b : Bucket) : Py S3Manager unit :=
  fun self => Return tt (mkS3Manager (simulation_mode self) (<[k := b]> (buckets self))).

(** [del self.buckets[k]]: raises [KeyError] when the key is absent. *)
Definition delitem (k : string) : Py S3Manager unit :=
  fun self =>
    match buckets self !! k with
    | Some _ => Return tt (mkS3Manager (simulation_mode self) (delete k (buckets self)))
    | None => Raise (KeyError k)
    end.

(** [bucket["objects"] = objs]. *)
Definition set_objects (objs : list Object) (b : Bucket) : Bucket :=
  mkBucket (bucket_name b) (region b) (acl b) (versioning b) (encryption b)
           (tags b) (creation_date b) objs (size_bytes b).

(** [bucket["size_bytes"] = n]. *)
Definition set_size_bytes (n : Z) (b : Bucket) : Bucket :=
  mkBucket (bucket_name b) (region b) (acl b) (versioning b) (encryption b)
           (tags b) (creation_date b) (objects b) n.

(** [bucket["versioning"] = v]. *)
Definition set_versioning (v : bool) (b : Bucket) : Bucket :=
  mkBucket (bucket_name b) (region b) (acl b) v (encryption b)
           (tags b) (creation_date b) (objects b) (size_bytes b).

(** The arguments of a call of [create_bucket], defaults filled in. *)
Record create_args : Type := mkCreateArgs {
  arg_bucket_name : string;
  arg_region : string;
  arg_acl : string;
  arg_versioning : bool;
  arg_encryption : bool;
  arg_tags : option (gmap string string)
}.

Definition create_bucket (a : create_args) : Py (Ambient * S3Manager) string :=
  self <- on_snd get_state ;;
  if bool_decide (is_Some (buckets self !! arg_bucket_name a)) then
    ret (arg_bucket_name a)
  else
    creation_date <- on_fst utc_now ;;
    let bucket_info :=
      mkBucket (arg_bucket_name a) (arg_region a) (arg_acl a) (arg_versioning a)
               (arg_encryption a) (or_empty_dict (arg_tags a)) creation_date [] 0 in
    on_snd (setitem (arg_bucket_name a) bucket_info) ;;;
    ret (arg_bucket_name a).

(** A dictionary of keyword arguments for [create_bucket]: [bucket_name] is
    required, [None] is a key that is absent. *)
Record kwargs : Type := mkKwargs {
  kw_bucket_name : string;
  kw_region : option string;
  kw_acl : option string;
  kw_versioning : option bool;
  kw_encryption : option bool;
  kw_tags : option (gmap string string)
}.

(** The defaults of the signature of [create_bucket]. *)
Definition bind_kwargs (config : kwargs) : create_args :=
  mkCreateArgs (kw_bucket_name config)
               (default "us-east-1" (kw_region config))
               (default "private" (kw_acl config))
               (default false (kw_versioning config))
               (default true (kw_encryption config))
               (kw_tags config).

(** [self.create_bucket( **config )]. *)
Definition create_bucket_kw (config : kwargs) : Py (Ambient * S3Manager) string :=
  create_bucket (bind_kwargs config).

Definition delete_bucket (bucket_name : string) (force : bool) : Py S3Manager bool :=
  self <- get_state ;;
  if negb (bool_decide (is_Some (buckets self !! bucket_name))) then ret false
  else
    bucket <- getitem (buckets self) bucket_name ;;
    if negb (bool_decide (objects bucket = [])) && negb force then ret false
    else
      delitem bucket_name ;;;
      ret true.

Definition put_object (bucket_name key body : string)
    (metadata : option (gmap string string)) : Py (Ambient * S3Manager) bool :=
  self <- on_snd get_state ;;
  if negb (bool_decide (is_Some (buckets self !! bucket_name))) then ret false
  else
    last_modified <- on_fst utc_now ;;
    tag <- on_fst (randint 100000 999999) ;;
    let object_info :=
      mkObject key (Z.of_nat (String.length body)) (or_empty_dict metadata)
               last_modified ("etag-" +:+ pretty tag) in
    bucket <- getitem (buckets self) bucket_name ;;
    (* Remove existing object with same key *)
    let bucket := set_objects (filter (fun obj => S3.key obj <> key) (objects bucket)) bucket in
    (* Add new object *)
    let bucket := set_objects (objects bucket ++ [object_info]) bucket in
    let bucket := set_size_bytes (size_bytes bucket + size object_info) bucket in
    on_snd (setitem bucket_name bucket) ;;;
    ret true.

(** The loop of [delete_object]: the first object whose key is [key]. *)
Definition first_with_key (key : string) (objs : list Object) : option Object :=
  List.find (fun obj => String.eqb (S3.key obj) key) objs.

Definition delete_object (bucket_name key : string) : Py S3Manager bool :=
  self <- get_state ;;
  if negb (bool_decide (is_Some (buckets self !! bucket_name))) then ret false
  else
    bucket <- getitem (buckets self) bucket_name ;;
    match first_with_key key (objects bucket) with
    | Some obj =>
        let bucket := set_size_bytes (size_bytes bucket - size obj) bucket in
        objs <- remove obj (objects bucket) ;;
        setitem bucket_name (set_objects objs bucket) ;;;
        ret true
    | None => ret false
    end.

Definition list_buckets : Py S3Manager (list Bucket) :=
  self <- get_state ;;
  ret (values (buckets self)).

Definition list_objects (bucket_name prefix : string) : Py S3Manager (list Object) :=
  self <- get_state ;;
  if negb (bool_decide (is_Some (buckets self !! bucket_name))) then ret []
  else
    bucket <- getitem (buckets self) bucket_name ;;
    if truthy_str prefix then
      ret (filter (fun obj => String.prefix prefix (S3.key obj) = true) (objects bucket))
    else ret (objects bucket).

(** [self.buckets.get(bucket_name)]. *)
Definition get_bucket_info (bucket_name : string) : Py S3Manager (option Bucket) :=
  self <- get_state ;;
  ret (buckets self !! bucket_name).

Definition enable_versioning (bucket_name : string) : Py S3Manager bool :=
  self <- get_state ;;
  if bool_decide (is_Some (buckets self !! bucket_name)) then
    bucket <- getitem (buckets self) bucket_name ;;
    setitem bucket_name (set_versioning true bucket) ;;;
    ret true
  else ret false.

End S3.

(* ===================================================================== *)
(** * rds_manager.py *)
(* ===================================================================== *)

Module RDS.

(** The dictionary [instance_info] built by [create_instance].  The master
    password is an argument of the call but is not stored. *)
Record DBInstance : Type := mkDBInstance {
  db_instance_identifier : string;
  engine : string;
  engine_version : string;
  instance_class : string;
  allocated_storage : Z;
  db_name : string;
  master_username : string;
  multi_az : bool;
  backup_retention_period : Z;
  tags : gmap string string;
  status : string;
  endpoint : string;
  port : Z;
  creation_time : string
}.

Record RDSManager : Type := mkRDSManager {
  simulation_mode : bool;
  instances : gmap string DBInstance
}.

Definition init (simulation_mode : bool) : RDSManager :=
  mkRDSManager simulation_mode ∅.

(** [self.instances[k] = info]. *)
Definition setitem (k : string) (info : DBInstance) : Py RDSManager unit :=
  fun self => Return tt (mkRDSManager (simulation_mode self) (<[k := info]> (instances self))).

(** [del self.instances[k]]: raises [KeyError] when the key is absent. *)
Definition delitem (k : string) : Py RDSManager unit :=
  fun self =>
    match instances self !! k with
    | Some _ => Return tt (mkRDSManager (simulation_mode self) (delete k (instances self)))
    | None => Raise (KeyError k)
    end.

(** [info["status"] = s]. *)
Definition set_status (s : string) (i : DBInstance) : DBInstance :=
  mkDBInstance (db_instance_identifier i) (engine i) (engine_version i)
               (instance_class i) (allocated_storage i) (db_name i)
               (master_username i) (multi_az i) (backup_retention_period i)
               (tags i) s (endpoint i) (port i) (creation_time i).

(** [info["instance_class"] = c]. *)
Definition set_instance_class (c : string) (i : DBInstance) : DBInstance :=
  mkDBInstance (db_instance_identifier i) (engine i) (engine_version i)
               c (allocated_storage i) (db_name i)
               (master_username i) (multi_az i) (backup_retention_period i)
               (tags i) (status i) (endpoint i) (port i) (creation_time i).

(** [info["allocated_storage"] = n]. *)
Definition set_allocated_storage (n : Z) (i : DBInstance) : DBInstance :=
  mkDBInstance (db_instance_identifier i) (engine i) (engine_version i)
               (instance_class i) n (db_name i)
               (master_username i) (multi_az i) (backup_retention_period i)
               (tags i) (status i) (endpoint i) (port i) (creation_time i).

(** [info["backup_retention_period"] = n]. *)
Definition set_backup_retention_period (n : Z) (i : DBInstance) : DBInstance :=
  mkDBInstance (db_instance_identifier i) (engine i) (engine_version i)
               (instance_class i) (allocated_storage i) (db_name i)
               (master_username i) (multi_az i) n
               (tags i) (status i) (endpoint i) (port i) (creation_time i).

(** The arguments of a call of [create_instance], defaults filled in. *)
Record create_args : Type := mkCreateArgs {
  arg_db_instance_identifier : string;
  arg_engine : string;
  arg_engine_version : string;
  arg_instance_class : string;
  arg_allocated_storage : Z;
  arg_db_name : option string;
  arg_master_username : string;
  arg_master_password : string;
  arg_multi_az : bool;
  arg_backup_retention_period : Z;
  arg_tags : option (gmap string string)
}.

(** [db_name or db_instance_identifier]. *)
Definition db_name_or (db_name : option string) (fallback : string) : string :=
  match db_name with
  | Some n => if truthy_str n then n else fallback
  | None => fallback
  end.

Definition create_instance (a : create_args) : Py (Ambient * RDSManager) string :=
  self <- on_snd get_state ;;
  if bool_decide (is_Some (instances self !! arg_db_instance_identifier a)) then
    ret (arg_db_instance_identifier a)
  else
    n <- on_fst (randint 100000 999999) ;;
    let endpoint :=
      arg_db_instance_identifier a +:+ "." +:+ pretty n +:+ ".us-east-1.rds.amazonaws.com" in
    creation_time <- on_fst utc_now ;;
    let instance_info :=
      mkDBInstance (arg_db_instance_identifier a) (arg_engine a) (arg_engine_version a)
                   (arg_instance_class a) (arg_allocated_storage a)
                   (db_name_or (arg_db_name a) (arg_db_instance_identifier a))
                   (arg_master_username a) (arg_multi_az a)
                   (arg_backup_retention_period a) (or_empty_dict (arg_tags a))
                   "available" endpoint
                   (if String.eqb (arg_engine a) "mysql" then 3306 else 5432)
                   creation_time in
    on_snd (setitem (arg_db_instance_identifier a) instance_info) ;;;
    ret (arg_db_instance_identifier a).

(** A dictionary of keyword arguments for [create_instance]:
    [db_instance_identifier] is required, [None] is a key that is absent. *)
Record kwargs : Type := mkKwargs {
  kw_db_instance_identifier : string;
  kw_engine : option string;
  kw_engine_version : option string;
  kw_instance_class : option string;
  kw_allocated_storage : option Z;
  kw_db_name : option string;
  kw_master_username : option string;
  kw_master_password : option string;
  kw_multi_az : option bool;
  kw_backup_retention_period : option Z;
  kw_tags : option (gmap string string)
}.

(** The defaults of the signature of [create_instance]. *)
Definition bind_kwargs (config : kwargs) : create_args :=
  mkCreateArgs (kw_db_instance_identifier config)
               (default "mysql" (kw_engine config))
               (default "8.0" (kw_engine_version config))
               (default "db.t3.micro" (kw_instance_class config))
               (default 20%Z (kw_allocated_storage config))
               (kw_db_name config)
               (default "admin" (kw_master_username config))
               (default "changeme" (kw_master_password config))
               (default false (kw_multi_az config))
               (default 7%Z (kw_backup_retention_period config))
               (kw_tags config).

(** [self.create_instance( **config )]. *)
Definition create_instance_kw (config : kwargs) : Py (Ambient * RDSManager) string :=
  create_instance (bind_kwargs config).

Definition delete_instance (db_instance_identifier : string)
    (skip_final_snapshot : bool) (final_snapshot_identifier : option string)
  : Py RDSManager bool :=
  self <- get_state ;;
  if negb (bool_decide (is_Some (instances self !! db_instance_identifier))) then ret false
  else
    info <- getitem (instances self) db_instance_identifier ;;
    setitem db_instance_identifier (set_status "deleting" info) ;;;
    (* In simulation, we can delete immediately *)
    delitem db_instance_identifier ;;;
    ret true.

Definition stop_instance (db_instance_identifier : string) : Py RDSManager bool :=
  self <- get_state ;;
  if bool_decide (is_Some (instances self !! db_instance_identifier)) then
    info <- getitem (instances self) db_instance_identifier ;;
    if String.eqb (status info) "available" then
      setitem db_instance_identifier (set_status "stopped" info) ;;;
      ret true
    else ret false
  else ret false.

Definition start_instance (db_instance_identifier : string) : Py RDSManager bool :=
  self <- get_state ;;
  if bool_decide (is_Some (instances self !! db_instance_identifier)) then
    info <- getitem (instances self) db_instance_identifier ;;
    if String.eqb (status info) "stopped" then
      setitem db_instance_identifier (set_status "available" info) ;;;
      ret true
    else ret false
  else ret false.

Definition create_snapshot (db_instance_identifier snapshot_identifier : string)
  : Py RDSManager (option string) :=
  self <- get_state ;;
  if negb (bool_decide (is_Some (instances self !! db_instance_identifier))) then ret None
  else ret (Some snapshot_identifier).

(** [self.instances.get(db_instance_identifier)]. *)
Definition get_instance_info (db_instance_identifier : string)
  : Py RDSManager (option DBInstance) :=
  self <- get_state ;;
  ret (instances self !! db_instance_identifier).

Definition list_instances (engine_filter : option string) : Py RDSManager (list DBInstance) :=
  self <- get_state ;;
  match engine_filter with
  | Some e =>
      if truthy_str e then
        ret (filter (fun info => engine info = e) (values (instances self)))
      else ret (values (instances self))
  | None => ret (values (instances self))
  end.

Definition modify_instance (db_instance_identifier : string)
    (instance_class : option string) (allocated_storage : option Z)
    (backup_retention_period : option Z) : Py RDSManager bool :=
  self <- get_state ;;
  if negb (bool_decide (is_Some (instances self !! db_instance_identifier))) then ret false
  else
    instance <- getitem (instances self) db_instance_identifier ;;
    let instance :=
      match instance_class with
      | Some c => if truthy_str c then set_instance_class c instance else instance
      | None => instance
      end in
    let instance :=
      match allocated_storage with
      | Some n => if truthy_int n then set_allocated_storage n instance else instance
      | None => instance
      end in
    let instance :=
      match backup_retention_period with
      | Some n => set_backup_retention_period n instance
      | None => instance
      end in
    setitem db_instance_identifier instance ;;;
    ret true.

End RDS.

(* ===================================================================== *)
(** * lambda_manager.py *)
(* ===================================================================== *)

(** A value of a dictionary typed [Dict[str, Any]]: the payload handed to
    [invoke_function] and the dictionary it returns. *)
#[local] Unset Elimination Schemes.
Inductive pyval : Type :=
| PyNone
| PyBool (b : bool)
| PyInt (z : Z)
| PyStr (s : string)
| PyList (l : list pyval)
| PyDict (d : list (string * pyval)).
#[local] Set Elimination Schemes.

Module Lambda.

(** The dictionary [function_info] built by [create_function]. *)
Record Function : Type := mkFunction {
  function_name : string;
  function_arn : string;
  runtime : string;
  handler : string;
  role : string;
  description : string;
  timeout : Z;
  memory_size : Z;
  environment : gmap string string;
  tags : gmap string string;
  code_size : Z;
  code_sha256 : string;
  last_modified : string;
  version : string;
  state : string;
  invocations : Z
}.

Record LambdaManager : Type := mkLambdaManager {
  simulation_mode : bool;
  functions : gmap string Function
}.

Definition init (simulation_mode : bool) : LambdaManager :=
  mkLambdaManager simulation_mode ∅.

(** [self.functions[k] = f]. *)
Definition setitem (k : string) (f : Function) : Py LambdaManager unit :=
  fun self => Return tt (mkLambdaManager (simulation_mode self) (<[k := f]> (functions self))).

(** [del self.functions[k]]: raises [KeyError] when the key is absent. *)
Definition delitem (k : string) : Py LambdaManager unit :=
  fun self =>
    match functions self !! k with
    | Some _ => Return tt (mkLambdaManager (simulation_mode self) (delete k (functions self)))
    | None => Raise (KeyError k)
    end.

(** [function["invocations"] = n]. *)
Definition set_invocations (n : Z) (f : Function) : Function :=
  mkFunction (function_name f) (function_arn f) (runtime f) (handler f) (role f)
             (description f) (timeout f) (memory_size f) (environment f) (tags f)
             (code_size f) (code_sha256 f) (last_modified f) (version f) (state f) n.

(** [function["code_size"] = n; function["code_sha256"] = h;
    function["last_modified"] = t]. *)
Definition set_code (n : Z) (h t : string) (f : Function) : Function :=
  mkFunction (function_name f) (function_arn f) (runtime f) (handler f) (role f)
             (description f) (timeout f) (memory_size f) (environment f) (tags f)
             n h t (version f) (state f) (invocations f).

(** [function["timeout"] = x; function["memory_size"] = y;
    function["environment"] = e; function["last_modified"] = t]. *)
Definition set_configuration (x y : Z) (e : gmap string string) (t : string)
    (f : Function) : Function :=
  mkFunction (function_name f) (function_arn f) (runtime f) (handler f) (role f)
             (description f) x y e (tags f)
             (code_size f) (code_sha256 f) t (version f) (state f) (invocations f).

(** The arguments of a call of [create_function], defaults filled in. *)
Record create_args : Type := mkCreateArgs {
  arg_function_name : string;
  arg_runtime : string;
  arg_handler : string;
  arg_role : string;
  arg_code : option string;
  arg_description : string;
  arg_timeout : Z;
  arg_memory_size : Z;
  arg_environment : option (gmap string string);
  arg_tags : option (gmap string string)
}.

(** [len(code) if code else otherwise]. *)
Definition len_code_or (code : option string) (otherwise : Z) : Z :=
  match code with
  | Some c => if truthy_str c then Z.of_nat (String.length c) else otherwise
  | None => otherwise
  end.

(** [f"sha256-{''.join(random.choices(string.hexdigits, k=64))}"]. *)
Definition fresh_sha256 : Py Ambient string :=
  digest <- choices hexdigits 64 ;;
  ret ("sha256-" +:+ digest).

Definition create_function (a : create_args) : Py (Ambient * LambdaManager) string :=
  self <- on_snd get_state ;;
  if bool_decide (is_Some (functions self !! arg_function_name a)) then
    ret (arg_function_name a)
  else
    let function_arn :=
      "arn:aws:lambda:us-east-1:123456789012:function:" +:+ arg_function_name a in
    code_sha256 <- on_fst fresh_sha256 ;;
    last_modified <- on_fst utc_now ;;
    let function_info :=
      mkFunction (arg_function_name a) function_arn (arg_runtime a) (arg_handler a)
                 (arg_role a) (arg_description a) (arg_timeout a) (arg_memory_size a)
                 (or_empty_dict (arg_environment a)) (or_empty_dict (arg_tags a))
                 (len_code_or (arg_code a) 1024) code_sha256 last_modified
                 "$LATEST" "Active" 0 in
    on_snd (setitem (arg_function_name a) function_info) ;;;
    ret (arg_function_name a).

(** A dictionary of keyword arguments for [create_function]:
    [function_name] is required, [None] is a key that is absent. *)
Record kwargs : Type := mkKwargs {
  kw_function_name : string;
  kw_runtime : option string;
  kw_handler : option string;
  kw_role : option string;
  kw_code : option string;
  kw_description : option string;
  kw_timeout : option Z;
  kw_memory_size : option Z;
  kw_environment : option (gmap string string);
  kw_tags : option (gmap string string)
}.

(** The defaults of the signature of [create_function]. *)
Definition bind_kwargs (config : kwargs) : create_args :=
  mkCreateArgs (kw_function_name config)
               (default "python3.9" (kw_runtime config))
               (default "index.handler" (kw_handler config))
               (default "arn:aws:iam::123456789012:role/lambda-role" (kw_role config))
               (kw_code config)
               (default "" (kw_description config))
               (default 3%Z (kw_timeout config))
               (default 128%Z (kw_memory_size config))
               (kw_environment config) (kw_tags config).

(** [self.create_function( **config )]. *)
Definition create_function_kw (config : kwargs) : Py (Ambient * LambdaManager) string :=
  create_function (bind_kwargs config).

Definition delete_function (function_name : string) : Py LambdaManager bool :=
  self <- get_state ;;
  if negb (bool_decide (is_Some (functions self !! function_name))) then ret false
  else
    delitem function_name ;;;
    ret true.

(** [payload or {}]. *)
Definition payload_or_empty (payload : option (list (string * pyval))) : pyval :=
  PyDict (default [] payload).

Definition invoke_function (function_name : string)
    (payload : option (list (string * pyval))) (invocation_type : string)
  : Py LambdaManager pyval :=
  self <- get_state ;;
  if negb (bool_decide (is_Some (functions self !! function_name))) then
    ret (PyDict [("error", PyStr "Function not found")])
  else
    function <- getitem (functions self) function_name ;;
    setitem function_name (set_invocations (invocations function + 1) function) ;;;
    let result :=
      PyDict [("status_code", PyInt 200);
              ("executed_version", PyStr "$LATEST");
              ("payload",
               PyDict [("message", PyStr "Function executed successfully (simulated)");
                       ("input", payload_or_empty payload)])] in
    ret result.

Definition update_function_code (function_name : string) (code : option string)
  : Py (Ambient * LambdaManager) bool :=
  self <- on_snd get_state ;;
  if negb (bool_decide (is_Some (functions self !! function_name))) then ret false
  else
    function <- getitem (functions self) function_name ;;
    let n := len_code_or code (code_size function) in
    h <- on_fst fresh_sha256 ;;
    t <- on_fst utc_now ;;
    on_snd (setitem function_name (set_code n h t function)) ;;;
    ret true.

Definition update_function_configuration (function_name : string)
    (timeout memory_size : option Z) (environment : option (gmap string string))
  : Py (Ambient * LambdaManager) bool :=
  self <- on_snd get_state ;;
  if negb (bool_decide (is_Some (functions self !! function_name))) then ret false
  else
    function <- getitem (functions self) function_name ;;
    t <- on_fst utc_now ;;
    on_snd (setitem function_name
              (set_configuration (default (Lambda.timeout function) timeout)
                                 (default (Lambda.memory_size function) memory_size)
                                 (default (Lambda.environment function) environment)
                                 t function)) ;;;
    ret true.

(** [self.functions.get(function_name)]. *)
Definition get_function_info (function_name : string) : Py LambdaManager (option Function) :=
  self <- get_state ;;
  ret (functions self !! function_name).

Definition list_functions : Py LambdaManager (list Function) :=
  self <- get_state ;;
  ret (values (functions self)).

Definition add_permission (function_name statement_id action principal : string)
  : Py LambdaManager bool :=
  self <- get_state ;;
  if negb (bool_decide (is_Some (functions self !! function_name))) then ret false
  else ret true.

End Lambda.

(* ===================================================================== *)
(** * aws_automation.py *)
(* ===================================================================== *)

Module AWS.

(** The orchestrator and its four managers.  [self.config] (the YAML file
    read by [_load_config]) is read by no method and is left out. *)
Record AWSAutomation : Type := mkAWSAutomation {
  simulation_mode : bool;
  ec2 : EC2.EC2Manager;
  s3 : S3.S3Manager;
  rds : RDS.RDSManager;
  lambda_mgr : Lambda.LambdaManager
}.

(** [AWSAutomation(simulation_mode=...)]. *)
Definition init (simulation_mode : bool) : AWSAutomation :=
  mkAWSAutomation simulation_mode (EC2.init simulation_mode) (S3.init simulation_mode)
                  (RDS.init simulation_mode) (Lambda.init simulation_mode).

(** A method of [self.ec2], [self.s3], [self.rds], [self.lambda_mgr] run
    from the orchestrator. *)
Definition on_ec2 {A : Type} (m : Py (Ambient * EC2.EC2Manager) A)
  : Py (Ambient * AWSAutomation) A :=
  fun st =>
    let self := snd st in
    match m (fst st, ec2 self) with
    | Return a (amb, mgr) =>
        Return a (amb, mkAWSAutomation (simulation_mode self) mgr (s3 self) (rds self)
                                       (lambda_mgr self))
    | Raise e => Raise e
    end.

Definition on_s3 {A : Type} (m : Py (Ambient * S3.S3Manager) A)
  : Py (Ambient * AWSAutomation) A :=
  fun st =>
    let self := snd st in
    match m (fst st, s3 self) with
    | Return a (amb, mgr) =>
        Return a (amb, mkAWSAutomation (simulation_mode self) (ec2 self) mgr (rds self)
                                       (lambda_mgr self))
    | Raise e => Raise e
    end.

Definition on_rds {A : Type} (m : Py (Ambient * RDS.RDSManager) A)
  : Py (Ambient * AWSAutomation) A :=
  fun st =>
    let self := snd st in
    match m (fst st, rds self) with
    | Return a (amb, mgr) =>
        Return a (amb, mkAWSAutomation (simulation_mode self) (ec2 self) (s3 self) mgr
                                       (lambda_mgr self))
    | Raise e => Raise e
    end.

Definition on_lambda {A : Type} (m : Py (Ambient * Lambda.LambdaManager) A)
  : Py (Ambient * AWSAutomation) A :=
  fun st =>
    let self := snd st in
    match m (fst st, lambda_mgr self) with
    | Return a (amb, mgr) =>
        Return a (amb, mkAWSAutomation (simulation_mode self) (ec2 self) (s3 self)
                                       (rds self) mgr)
    | Raise e => Raise e
    end.

(** The argument of [provision_infrastructure]: a dictionary with up to
    four recognised keys, [None] for a key that is absent. *)
Record infrastructure_config : Type := mkConfig {
  cfg_ec2 : option (list EC2.kwargs);
  cfg_s3 : option (list S3.kwargs);
  cfg_rds : option (list RDS.kwargs);
  cfg_lambda : option (list Lambda.kwargs)
}.

(** [results[k].append(v)]. *)
Definition append_to {S : Type} (k v : string) (results : gmap string (list string))
  : Py S (gmap string (list string)) :=
  l <- getitem results k ;;
  ret (<[k := (l ++ [v])%list]> results).

(** [results[k] += 1]. *)
Definition increment {S : Type} (k : string) (results : gmap string Z)
  : Py S (gmap string Z) :=
  n <- getitem results k ;;
  ret (<[k := (n + 1)%Z]> results).

Definition provision_infrastructure (infrastructure_config : infrastructure_config)
  : Py (Ambient * AWSAutomation) (gmap string (list string)) :=
  let results : gmap string (list string) :=
    <["ec2_instances" := []]> (<["s3_buckets" := []]> (<["rds_instances" := []]>
      (<["lambda_functions" := []]> ∅))) in
  (* Provision EC2 instances *)
  results <-
    match cfg_ec2 infrastructure_config with
    | Some configs =>
        for_each (fun results ec2_config =>
                    instance_id <- on_ec2 (EC2.create_instance_kw ec2_config) ;;
                    append_to "ec2_instances" instance_id results)
                 results configs
    | None => ret results
    end ;;
  (* Provision S3 buckets *)
  results <-
    match cfg_s3 infrastructure_config with
    | Some configs =>
        for_each (fun results s3_config =>
                    bucket_name <- on_s3 (S3.create_bucket_kw s3_config) ;;
                    append_to "s3_buckets" bucket_name results)
                 results configs
    | None => ret results
    end ;;
  (* Provision RDS instances *)
  results <-
    match cfg_rds infrastructure_config with
    | Some configs =>
        for_each (fun results rds_config =>
                    db_instance_id <- on_rds (RDS.create_instance_kw rds_config) ;;
                    append_to "rds_instances" db_instance_id results)
                 results configs
    | None => ret results
    end ;;
  (* Provision Lambda functions *)
  results <-
    match cfg_lambda infrastructure_config with
    | Some configs =>
        for_each (fun results lambda_config =>
                    function_name <- on_lambda (Lambda.create_function_kw lambda_config) ;;
                    append_to "lambda_functions" function_name results)
                 results configs
    | None => ret results
    end ;;
  ret results.

(** [resource_ids.get(k, [])]. *)
Definition get_or_empty (resource_ids : gmap string (list string)) (k : string)
  : list string :=
  default [] (resource_ids !! k).

Definition destroy_infrastructure (resource_ids : gmap string (list string))
  : Py (Ambient * AWSAutomation) (gmap string Z) :=
  let results : gmap string Z :=
    <["ec2_terminated" := 0%Z]> (<["s3_deleted" := 0%Z]> (<["rds_deleted" := 0%Z]>
      (<["lambda_deleted" := 0%Z]> ∅))) in
  (* Terminate EC2 instances *)
  results <-
    for_each (fun results instance_id =>
                ok <- on_ec2 (on_snd (EC2.terminate_instance instance_id)) ;;
                if ok : bool then increment "ec2_terminated" results else ret results)
             results (get_or_empty resource_ids "ec2_instances") ;;
  (* Delete S3 buckets *)
  results <-
    for_each (fun results bucket_name =>
                ok <- on_s3 (on_snd (S3.delete_bucket bucket_name false)) ;;
                if ok : bool then increment "s3_deleted" results else ret results)
             results (get_or_empty resource_ids "s3_buckets") ;;
  (* Delete RDS instances *)
  results <-
    for_each (fun results db_instance_id =>
                ok <- on_rds (on_snd (RDS.delete_instance db_instance_id true None)) ;;
                if ok : bool then increment "rds_deleted" results else ret results)
             results (get_or_empty resource_ids "rds_instances") ;;
  (* Delete Lambda functions *)
  results <-
    for_each (fun results function_name =>
                ok <- on_lambda (on_snd (Lambda.delete_function function_name)) ;;
                if ok : bool then increment "lambda_deleted" results else ret results)
             results (get_or_empty resource_ids "lambda_functions") ;;
  ret results.

(** The dictionary returned by [get_infrastructure_status]. *)
Record status : Type := mkStatus {
  ec2_instances : list EC2.Instance;
  s3_buckets : list S3.Bucket;
  rds_instances : list RDS.DBInstance;
  lambda_functions : list Lambda.Function
}.

Definition get_infrastructure_status : Py (Ambient * AWSAutomation) status :=
  e <- on_ec2 (on_snd (EC2.list_instances None)) ;;
  b <- on_s3 (on_snd S3.list_buckets) ;;
  d <- on_rds (on_snd (RDS.list_instances None)) ;;
  f <- on_lambda (on_snd Lambda.list_functions) ;;
  ret (mkStatus e b d f).

End AWS.

(* ===================================================================== *)
(** * Vocabulary of the properties *)
(* ===================================================================== *)

(** The state after [m], for computations known to return; the state is
    left as it was if [m] raises. *)
Definition exec {S A : Type} (m : Py S A) (s : S) : S :=
  match m s with
  | Return _ s' => s'
  | Raise _ => s
  end.

(** The current state of a compute instance and the current status of a
    database instance, [None] for an identifier that is not registered. *)
Definition ec2_state_of (m : EC2.EC2Manager) (id : string) : option string :=
  EC2.state <$> EC2.instances m !! id.

Definition rds_status_of (m : RDS.RDSManager) (id : string) : option string :=
  RDS.status <$> RDS.instances m !! id.

(** [self.instances = d] on either manager. *)
Definition ec2_with (d : gmap string EC2.Instance) (m : EC2.EC2Manager) : EC2.EC2Manager :=
  EC2.mkEC2Manager (EC2.simulation_mode m) d.

Definition rds_with (d : gmap string RDS.DBInstance) (m : RDS.RDSManager) : RDS.RDSManager :=
  RDS.mkRDSManager (RDS.simulation_mode m) d.

Section LifeCycle.

(** A manager [M] with a registry of records [R] that carry a state. *)
Context {M R : Type}.
Variable registry : M -> gmap string R.
Variable with_registry : gmap string R -> M -> M.
Variable state : R -> string.
Variable set_state : string -> R -> R.

(** [op] is the transition [from -> to]: it returns [True] exactly when the
    record is registered in state [from], and then only that record's state
    changes, to [to]; otherwise it returns [False] and nothing changes. *)
Definition transition (from to : string) (op : string -> Py M bool) : Prop :=
  forall (m : M) (id : string),
    exists (b : bool) (m' : M),
      op id m = Return b m' /\
      (b = true <-> state <$> registry m !! id = Some from) /\
      (b = true ->
         exists info, registry m !! id = Some info /\
                      m' = with_registry (<[id := set_state to info]> (registry m)) m /\
                      state <$> registry m' !! id = Some to) /\
      (b = false -> m' = m).

End LifeCycle.

(** The fields of a database record that [modify_instance] has no
    parameter for. *)
Definition rds_same_other_fields (a b : RDS.DBInstance) : Prop :=
  RDS.db_instance_identifier a = RDS.db_instance_identifier b /\
  RDS.engine a = RDS.engine b /\
  RDS.engine_version a = RDS.engine_version b /\
  RDS.db_name a = RDS.db_name b /\
  RDS.master_username a = RDS.master_username b /\
  RDS.multi_az a = RDS.multi_az b /\
  RDS.tags a = RDS.tags b /\
  RDS.status a = RDS.status b /\
  RDS.endpoint a = RDS.endpoint b /\
  RDS.port a = RDS.port b /\
  RDS.creation_time a = RDS.creation_time b.

(** ** Sample inputs *)

(** A clock that advances by one second per reading and a generator whose
    numbers do not repeat with the period of the digits. *)
Definition sample_ambient : Ambient :=
  mkAmbient (fun n => "2024-01-01T00:00:" +:+ pretty n +:+ "+00:00") 0
            (fun n => N.of_nat (n + n / 22)) 0.

(** The same clock with a generator that counts 0, 1, 2, ...: the 22
    numbers drawn for one compute instance bring the generator back to
    where it picks the same 17 digits for the next one. *)
Definition counting_ambient : Ambient :=
  mkAmbient (fun n => "2024-01-01T00:00:" +:+ pretty n +:+ "+00:00") 0
            (fun n => N.of_nat n) 0.

Definition sample_bucket : S3.kwargs :=
  S3.mkKwargs "test-bucket" None None None None None.

(** [create_bucket("test-bucket")] then
    [put_object("test-bucket", "file.txt", "content")]. *)
Definition sample_s3 : S3.S3Manager :=
  snd (exec (S3.put_object "test-bucket" "file.txt" "content" None)
         (exec (S3.create_bucket_kw sample_bucket) (sample_ambient, S3.init true))).

Definition sample_instance_kw : EC2.kwargs :=
  EC2.mkKwargs (Some "t2.micro") None None None None.

(** One compute instance, created and then stopped. *)
Definition sample_ec2 : EC2.EC2Manager :=
  exec (EC2.stop_instance "i-0123456789abcdefa")
    (snd (exec (EC2.create_instance_kw sample_instance_kw) (sample_ambient, EC2.init true))).

Definition sample_db_kw : RDS.kwargs :=
  RDS.mkKwargs "test-db" (Some "mysql") None None None None None None None None None.

(** [create_instance("test-db", engine="mysql")]. *)
Definition sample_rds : RDS.RDSManager :=
  snd (exec (RDS.create_instance_kw sample_db_kw) (sample_ambient, RDS.init true)).

(** ** Batches *)

(** The results of [f] on each element of [xs], in order: what a loop
    [for x in xs: ... f(x) ...] computes when only the results of [f] are
    kept. *)
Fixpoint map_each {S A B : Type} (f : A -> Py S B) (xs : list A) : Py S (list B) :=
  match xs with
  | [] => ret []
  | x :: xs' => b <- f x ;; bs <- map_each f xs' ;; ret (b :: bs)
  end.

(** How many calls of a batch returned [True]. *)
Definition count_true (oks : list bool) : Z :=
  Z.of_nat (length (filter (fun ok => ok = true) oks)).

(** The orchestrator with one of its managers replaced. *)
Definition set_ec2 (m : EC2.EC2Manager) (w : AWS.AWSAutomation) : AWS.AWSAutomation :=
  AWS.mkAWSAutomation (AWS.simulation_mode w) m (AWS.s3 w) (AWS.rds w) (AWS.lambda_mgr w).

Definition set_s3 (m : S3.S3Manager) (w : AWS.AWSAutomation) : AWS.AWSAutomation :=
  AWS.mkAWSAutomation (AWS.simulation_mode w) (AWS.ec2 w) m (AWS.rds w) (AWS.lambda_mgr w).

Definition set_rds (m : RDS.RDSManager) (w : AWS.AWSAutomation) : AWS.AWSAutomation :=
  AWS.mkAWSAutomation (AWS.simulation_mode w) (AWS.ec2 w) (AWS.s3 w) m (AWS.lambda_mgr w).

Definition set_lambda (m : Lambda.LambdaManager) (w : AWS.AWSAutomation) : AWS.AWSAutomation :=
  AWS.mkAWSAutomation (AWS.simulation_mode w) (AWS.ec2 w) (AWS.s3 w) (AWS.rds w) m.

(** The dictionaries returned by [provision_infrastructure] and
    [destroy_infrastructure]. *)
Definition provision_results (e s r l : list string) : gmap string (list string) :=
  <["ec2_instances" := e]> (<["s3_buckets" := s]> (<["rds_instances" := r]>
    (<["lambda_functions" := l]> ∅))).

Definition destroy_results (e s r l : Z) : gmap string Z :=
  <["ec2_terminated" := e]> (<["s3_deleted" := s]> (<["rds_deleted" := r]>
    (<["lambda_deleted" := l]> ∅))).

(** What a batch of deletions leaves of the record under [id], when only
    the records that are [deletable] can be deleted. *)
Definition survivor {R : Type} (deletable : R -> bool) (d : gmap string R) (id : string)
  : option R :=
  match d !! id with
  | Some r => if deletable r then None else Some r
  | None => None
  end.

(** ** Records and the calls that built them *)

(** The record carries the arguments of the call of [create_instance] and
    starts in state running. *)
Definition ec2_record_of (a : EC2.create_args) (i : EC2.Instance) : Prop :=
  EC2.instance_type i = EC2.arg_instance_type a /\
  EC2.ami_id i = EC2.arg_ami_id a /\
  EC2.key_name i = EC2.arg_key_name a /\
  EC2.security_groups i = or_empty_list (EC2.arg_security_groups a) /\
  EC2.tags i = or_empty_dict (EC2.arg_tags a) /\
  EC2.state i = "running".

(** The record carries the arguments of the call of [create_bucket] and
    holds no object. *)
Definition s3_record_of (a : S3.create_args) (b : S3.Bucket) : Prop :=
  S3.bucket_name b = S3.arg_bucket_name a /\
  S3.region b = S3.arg_region a /\
  S3.acl b = S3.arg_acl a /\
  S3.versioning b = S3.arg_versioning a /\
  S3.encryption b = S3.arg_encryption a /\
  S3.tags b = or_empty_dict (S3.arg_tags a) /\
  S3.objects b = [] /\
  S3.size_bytes b = 0%Z.

(** The record carries the arguments of the call of [create_instance] and
    starts available. *)
Definition rds_record_of (a : RDS.create_args) (i : RDS.DBInstance) : Prop :=
  RDS.db_instance_identifier i = RDS.arg_db_instance_identifier a /\
  RDS.engine i = RDS.arg_engine a /\
  RDS.engine_version i = RDS.arg_engine_version a /\
  RDS.instance_class i = RDS.arg_instance_class a /\
  RDS.allocated_storage i = RDS.arg_allocated_storage a /\
  RDS.db_name i = RDS.db_name_or (RDS.arg_db_name a) (RDS.arg_db_instance_identifier a) /\
  RDS.master_username i = RDS.arg_master_username a /\
  RDS.multi_az i = RDS.arg_multi_az a /\
  RDS.backup_retention_period i = RDS.arg_backup_retention_period a /\
  RDS.tags i = or_empty_dict (RDS.arg_tags a) /\
  RDS.status i = "available" /\
  RDS.port i = (if String.eqb (RDS.arg_engine a) "mysql" then 3306 else 5432)%Z.

(** The record carries the arguments of the call of [create_function] and
    has not been invoked. *)
Definition lambda_record_of (a : Lambda.create_args) (f : Lambda.Function) : Prop :=
  Lambda.function_name f = Lambda.arg_function_name a /\
  Lambda.function_arn f
    = "arn:aws:lambda:us-east-1:123456789012:function:" +:+ Lambda.arg_function_name a /\
  Lambda.runtime f = Lambda.arg_runtime a /\
  Lambda.handler f = Lambda.arg_handler a /\
  Lambda.role f = Lambda.arg_role a /\
  Lambda.description f = Lambda.arg_description a /\
  Lambda.timeout f = Lambda.arg_timeout a /\
  Lambda.memory_size f = Lambda.arg_memory_size a /\
  Lambda.environment f = or_empty_dict (Lambda.arg_environment a) /\
  Lambda.tags f = or_empty_dict (Lambda.arg_tags a) /\
  Lambda.code_size f = Lambda.len_code_or (Lambda.arg_code a) 1024 /\
  Lambda.version f = "$LATEST" /\
  Lambda.state f = "Active" /\
  Lambda.invocations f = 0%Z.

Definition s3_with (d : gmap string S3.Bucket) (m : S3.S3Manager) : S3.S3Manager :=
  S3.mkS3Manager (S3.simulation_mode m) d.

Definition lambda_with (d : gmap string Lambda.Function) (m : Lambda.LambdaManager)
  : Lambda.LambdaManager :=
  Lambda.mkLambdaManager (Lambda.simulation_mode m) d.

(** The records a registry holds under the identifier [id]. *)
Definition records_under {R : Type} (id : string) (d : gmap string R) : list R :=
  (filter (fun kv => kv.1 = id) (map_to_list d)).*2.

Section KeyedCreate.

(** A manager whose records are created under an identifier that the
    caller supplies with the arguments [C] of the call. *)
Context {M R C : Type}.
Variable registry : M -> gmap string R.
Variable create : C -> Py (Ambient * M) string.
Variable ident : C -> string.
Variable record_of : C -> R -> Prop.

(** Two calls of [create] with the same identifier, one after the other:
    both return the identifier; the second call changes nothing, neither
    the registry nor the clock or generator; the registry then holds
    exactly one record under the identifier; and when the identifier was
    not registered before the first call, that record is the one built
    from the first call's arguments and the registry has grown by one. *)
Definition idempotent_create : Prop :=
  forall (a1 a2 : C) (amb : Ambient) (m : M),
    ident a2 = ident a1 ->
    exists (amb1 : Ambient) (m1 : M) (r : R),
      create a1 (amb, m) = Return (ident a1) (amb1, m1) /\
      create a2 (amb1, m1) = Return (ident a1) (amb1, m1) /\
      records_under (ident a1) (registry m1) = [r] /\
      (registry m !! ident a1 = None ->
         record_of a1 r /\ size (registry m1) = S (size (registry m))).

End KeyedCreate.

Definition sample_bucket_args : S3.create_args :=
  S3.mkCreateArgs "test-bucket" "us-west-2" "private" true true None.

Definition other_bucket_args : S3.create_args :=
  S3.mkCreateArgs "test-bucket" "eu-west-1" "public-read" false false None.

(** ** Provisioning, then destroying what was provisioned *)

(** [destroy_infrastructure] is called on the very dictionary that
    [provision_infrastructure] returned for [cfg] on a fresh orchestrator,
    nothing happening in between; [post] is a statement about that
    dictionary, the counts returned and the orchestrator at the end. *)
Definition after_round_trip (cfg : AWS.infrastructure_config) (amb : Ambient)
    (mode : bool)
    (post : gmap string (list string) -> gmap string Z -> AWS.AWSAutomation -> Prop)
  : Prop :=
  exists ids st1 counts st2,
    AWS.provision_infrastructure cfg (amb, AWS.init mode) = Return ids st1 /\
    AWS.destroy_infrastructure ids st1 = Return counts st2 /\
    post ids counts (snd st2).

(** The same two calls as one computation. *)
Definition round_trip (cfg : AWS.infrastructure_config)
  : Py (Ambient * AWS.AWSAutomation) (gmap string (list string) * gmap string Z) :=
  ids <- AWS.provision_infrastructure cfg ;;
  counts <- AWS.destroy_infrastructure ids ;;
  ret (ids, counts).

(** What [observe] sees of the value and the state a computation returns. *)
Definition observed {S A B : Type} (observe : A -> S -> B) (o : outcome S A) : option B :=
  match o with
  | Return a s => Some (observe a s)
  | Raise _ => None
  end.

(** Each count is the length of the kind's identifier list. *)
Definition counts_are_lengths (ids : gmap string (list string)) (counts : gmap string Z)
  : Prop :=
  counts !! "ec2_terminated"
    = Some (Z.of_nat (length (AWS.get_or_empty ids "ec2_instances"))) /\
  counts !! "s3_deleted"
    = Some (Z.of_nat (length (AWS.get_or_empty ids "s3_buckets"))) /\
  counts !! "rds_deleted"
    = Some (Z.of_nat (length (AWS.get_or_empty ids "rds_instances"))) /\
  counts !! "lambda_deleted"
    = Some (Z.of_nat (length (AWS.get_or_empty ids "lambda_functions"))).

Definition all_registries_empty (w : AWS.AWSAutomation) : Prop :=
  EC2.instances (AWS.ec2 w) = ∅ /\
  S3.buckets (AWS.s3 w) = ∅ /\
  RDS.instances (AWS.rds w) = ∅ /\
  Lambda.functions (AWS.lambda_mgr w) = ∅.

(** The property as the specification words it. *)
Definition fan_in_as_stated (ids : gmap string (list string)) (counts : gmap string Z)
    (w : AWS.AWSAutomation) : Prop :=
  counts_are_lengths ids counts /\ all_registries_empty w.

(** What holds instead: the compute count is always the length of the
    list, the other counts are when the identifiers of the kind are
    pairwise distinct; the three registries whose delete removes the record
    are empty, and the compute registry holds the provisioned instances and
    no other, each terminated. *)
Definition fan_in (cfg : AWS.infrastructure_config)
    (ids : gmap string (list string)) (counts : gmap string Z) (w : AWS.AWSAutomation)
  : Prop :=
  let e := AWS.get_or_empty ids "ec2_instances" in
  let s := AWS.get_or_empty ids "s3_buckets" in
  let r := AWS.get_or_empty ids "rds_instances" in
  let l := AWS.get_or_empty ids "lambda_functions" in
  (length e = length (default [] (AWS.cfg_ec2 cfg)) /\
   s = map S3.kw_bucket_name (default [] (AWS.cfg_s3 cfg)) /\
   r = map RDS.kw_db_instance_identifier (default [] (AWS.cfg_rds cfg)) /\
   l = map Lambda.kw_function_name (default [] (AWS.cfg_lambda cfg))) /\
  (counts !! "ec2_terminated" = Some (Z.of_nat (length e)) /\
   (NoDup s -> counts !! "s3_deleted" = Some (Z.of_nat (length s))) /\
   (NoDup r -> counts !! "rds_deleted" = Some (Z.of_nat (length r))) /\
   (NoDup l -> counts !! "lambda_deleted" = Some (Z.of_nat (length l)))) /\
  (S3.buckets (AWS.s3 w) = ∅ /\
   RDS.instances (AWS.rds w) = ∅ /\
   Lambda.functions (AWS.lambda_mgr w) = ∅) /\
  (forall id, is_Some (EC2.instances (AWS.ec2 w) !! id) <-> id ∈ e) /\
  (forall id, id ∈ e -> ec2_state_of (AWS.ec2 w) id = Some "terminated").

Definition no_kwargs : EC2.kwargs := EC2.mkKwargs None None None None None.

Definition bucket_named (name : string) : S3.kwargs :=
  S3.mkKwargs name None None None None None.

Definition database_named (id : string) : RDS.kwargs :=
  RDS.mkKwargs id None None None None None None None None None None.

Definition function_named (name : string) : Lambda.kwargs :=
  Lambda.mkKwargs name None None None None None None None None None.

(** Two compute instances, one bucket, one database, one function. *)
Definition sample_config : AWS.infrastructure_config :=
  AWS.mkConfig (Some [sample_instance_kw; no_kwargs]) (Some [bucket_named "test-bucket"])
               (Some [database_named "test-db"]) (Some [function_named "test-function"]).

(** One compute instance, and the same bucket name twice. *)
Definition repeating_config : AWS.infrastructure_config :=
  AWS.mkConfig (Some [no_kwargs]) (Some [bucket_named "test-bucket"; bucket_named "test-bucket"])
               None None.

(** ** Provisioning *)

(** The identifiers [ids] are pairwise distinct and none of them is a key
    of the registry [before]. *)
Definition new_identifiers {R : Type} (ids : list string) (before : gmap string R) : Prop :=
  NoDup ids /\ forall k, k ∈ ids -> before !! k = None.

(** The registry has [n] more records than it had. *)
Definition grown_by {R : Type} (n : nat) (before after : gmap string R) : Prop :=
  size after = size before + n.

(** Every registry has grown by the length of its kind's input list. *)
Definition registries_grown (cfg : AWS.infrastructure_config) (w w' : AWS.AWSAutomation)
  : Prop :=
  grown_by (length (default [] (AWS.cfg_ec2 cfg)))
           (EC2.instances (AWS.ec2 w)) (EC2.instances (AWS.ec2 w')) /\
  grown_by (length (default [] (AWS.cfg_s3 cfg)))
           (S3.buckets (AWS.s3 w)) (S3.buckets (AWS.s3 w')) /\
  grown_by (length (default [] (AWS.cfg_rds cfg)))
           (RDS.instances (AWS.rds w)) (RDS.instances (AWS.rds w')) /\
  grown_by (length (default [] (AWS.cfg_lambda cfg)))
           (Lambda.functions (AWS.lambda_mgr w)) (Lambda.functions (AWS.lambda_mgr w')).

(** The identifiers that the caller supplies are pairwise distinct within
    each kind. *)
Definition distinct_supplied_identifiers (cfg : AWS.infrastructure_config) : Prop :=
  NoDup (map S3.kw_bucket_name (default [] (AWS.cfg_s3 cfg))) /\
  NoDup (map RDS.kw_db_instance_identifier (default [] (AWS.cfg_rds cfg))) /\
  NoDup (map Lambda.kw_function_name (default [] (AWS.cfg_lambda cfg))).

(** [provision_infrastructure] returns, and [post] holds of the dictionary
    it returns, the orchestrator before and the orchestrator after. *)
Definition after_provision (cfg : AWS.infrastructure_config)
    (st : Ambient * AWS.AWSAutomation)
    (post : gmap string (list string) -> AWS.AWSAutomation -> AWS.AWSAutomation -> Prop)
  : Prop :=
  exists ids st',
    AWS.provision_infrastructure cfg st = Return ids st' /\
    post ids (snd st) (snd st').

(** The growth of the registries as the specification words it: distinct
    caller-supplied identifiers are all that is assumed. *)
Definition fan_out_as_stated (cfg : AWS.infrastructure_config)
    (st : Ambient * AWS.AWSAutomation) : Prop :=
  distinct_supplied_identifiers cfg ->
  after_provision cfg st (fun _ w w' => registries_grown cfg w w').

(** The four batches of creations, in the order compute, storage,
    database, function: each runs on its own manager, starting with the
    clock and generator as the batch before it left them. *)
Definition kinds_in_order (cfg : AWS.infrastructure_config) (amb : Ambient)
    (w : AWS.AWSAutomation) (e s r l : list string) (amb' : Ambient)
    (w' : AWS.AWSAutomation) : Prop :=
  exists amb1 amb2 amb3,
    map_each EC2.create_instance_kw (default [] (AWS.cfg_ec2 cfg)) (amb, AWS.ec2 w)
      = Return e (amb1, AWS.ec2 w') /\
    map_each S3.create_bucket_kw (default [] (AWS.cfg_s3 cfg)) (amb1, AWS.s3 w)
      = Return s (amb2, AWS.s3 w') /\
    map_each RDS.create_instance_kw (default [] (AWS.cfg_rds cfg)) (amb2, AWS.rds w)
      = Return r (amb3, AWS.rds w') /\
    map_each Lambda.create_function_kw (default [] (AWS.cfg_lambda cfg))
      (amb3, AWS.lambda_mgr w) = Return l (amb', AWS.lambda_mgr w').

(** The i-th compute identifier names the record built from the i-th
    parameter map. *)
Definition compute_in_input_order (configs : list EC2.kwargs) (ids : list string)
    (after : gmap string EC2.Instance) : Prop :=
  Forall2 (fun id c =>
             exists info, after !! id = Some info /\
                          EC2.instance_id info = id /\
                          ec2_record_of (EC2.bind_kwargs c) info)
          ids configs.

(** A bucket is provisioned, then this configuration: two compute
    instances and the same bucket again. *)
Definition again_config : AWS.infrastructure_config :=
  AWS.mkConfig (Some [no_kwargs; no_kwargs]) (Some [bucket_named "test-bucket"]) None None.

Definition provisioned_once : Ambient * AWS.AWSAutomation :=
  exec (AWS.provision_infrastructure
          (AWS.mkConfig None (Some [bucket_named "test-bucket"]) None None))
       (counting_ambient, AWS.init true).

(** ** The size of a bucket *)

(** The sum of the byte lengths of the objects. *)
Definition total_size (objs : list S3.Object) : Z :=
  foldr (fun obj acc => (S3.size obj + acc)%Z) 0%Z objs.

(** The recorded size of the bucket is the sum of the byte lengths of the
    objects it holds. *)
Definition size_is_total (b : S3.Bucket) : Prop :=
  S3.size_bytes b = total_size (S3.objects b).

(** The objects stored under [key]. *)
Definition stored_under (key : string) (objs : list S3.Object) : list S3.Object :=
  filter (fun obj => S3.key obj = key) objs.

(** [create_bucket("test-bucket")], then
    [put_object("test-bucket", "file.txt", "Hello")], then
    [put_object("test-bucket", "file.txt", "Hello World")]. *)
Definition overwriting_puts : Py (Ambient * S3.S3Manager) bool :=
  S3.create_bucket_kw sample_bucket ;;;
  S3.put_object "test-bucket" "file.txt" "Hello" None ;;;
  S3.put_object "test-bucket" "file.txt" "Hello World" None.

(** What the registry records for the bucket, and what its objects add up
    to: [size_bytes], the sum of the sizes, the number of objects. *)
Definition size_report (name : string) (m : S3.S3Manager) : option (Z * Z * nat) :=
  (fun b => (S3.size_bytes b, total_size (S3.objects b), length (S3.objects b)))
    <$> S3.buckets m !! name.

(** ** Every call of every manager *)

(** A call of a public method of one of the four managers, with its
    arguments. *)
Inductive call : Type :=
| Ec2_create_instance (a : EC2.create_args)
| Ec2_terminate_instance (instance_id : string)
| Ec2_stop_instance (instance_id : string)
| Ec2_start_instance (instance_id : string)
| Ec2_get_instance_info (instance_id : string)
| Ec2_list_instances (state : option string)
| Ec2_tag_instance (instance_id : string) (tags : gmap string string)
| S3_create_bucket (a : S3.create_args)
| S3_delete_bucket (bucket_name : string) (force : bool)
| S3_put_object (bucket_name key body : string) (metadata : option (gmap string string))
| S3_delete_object (bucket_name key : string)
| S3_list_buckets
| S3_list_objects (bucket_name prefix : string)
| S3_get_bucket_info (bucket_name : string)
| S3_enable_versioning (bucket_name : string)
| Rds_create_instance (a : RDS.create_args)
| Rds_delete_instance (id : string) (skip_final_snapshot : bool)
    (final_snapshot_identifier : option string)
| Rds_stop_instance (id : string)
| Rds_start_instance (id : string)
| Rds_create_snapshot (id snapshot_identifier : string)
| Rds_get_instance_info (id : string)
| Rds_list_instances (engine : option string)
| Rds_modify_instance (id : string) (instance_class : option string)
    (allocated_storage backup_retention_period : option Z)
| Lambda_create_function (a : Lambda.create_args)
| Lambda_delete_function (function_name : string)
| Lambda_invoke_function (function_name : string)
    (payload : option (list (string * pyval))) (invocation_type : string)
| Lambda_update_function_code (function_name : string) (code : option string)
| Lambda_update_function_configuration (function_name : string)
    (timeout memory_size : option Z) (environment : option (gmap string string))
| Lambda_get_function_info (function_name : string)
| Lambda_list_functions
| Lambda_add_permission (function_name statement_id action principal : string).

(** What a call returns. *)
Inductive answer : Type :=
| Bool (b : bool)
| Str (s : string)
| OptStr (o : option string)
| InstanceInfo (o : option EC2.Instance)
| BucketInfo (o : option S3.Bucket)
| DBInstanceInfo (o : option RDS.DBInstance)
| FunctionInfo (o : option Lambda.Function)
| Instances (l : list EC2.Instance)
| Buckets (l : list S3.Bucket)
| Objects (l : list S3.Object)
| DBInstances (l : list RDS.DBInstance)
| Functions (l : list Lambda.Function)
| Dict (v : pyval).

(** The call, run on the manager it belongs to. *)
Definition run (c : call) : Py (Ambient * AWS.AWSAutomation) answer :=
  match c with
  | Ec2_create_instance a =>
      x <- AWS.on_ec2 (EC2.create_instance a) ;; ret (Str x)
  | Ec2_terminate_instance id =>
      x <- AWS.on_ec2 (on_snd (EC2.terminate_instance id)) ;; ret (Bool x)
  | Ec2_stop_instance id =>
      x <- AWS.on_ec2 (on_snd (EC2.stop_instance id)) ;; ret (Bool x)
  | Ec2_start_instance id =>
      x <- AWS.on_ec2 (on_snd (EC2.start_instance id)) ;; ret (Bool x)
  | Ec2_get_instance_info id =>
      x <- AWS.on_ec2 (on_snd (EC2.get_instance_info id)) ;; ret (InstanceInfo x)
  | Ec2_list_instances state =>
      x <- AWS.on_ec2 (on_snd (EC2.list_instances state)) ;; ret (Instances x)
  | Ec2_tag_instance id tags =>
      x <- AWS.on_ec2 (on_snd (EC2.tag_instance id tags)) ;; ret (Bool x)
  | S3_create_bucket a =>
      x <- AWS.on_s3 (S3.create_bucket a) ;; ret (Str x)
  | S3_delete_bucket name force =>
      x <- AWS.on_s3 (on_snd (S3.delete_bucket name force)) ;; ret (Bool x)
  | S3_put_object name key body metadata =>
      x <- AWS.on_s3 (S3.put_object name key body metadata) ;; ret (Bool x)
  | S3_delete_object name key =>
      x <- AWS.on_s3 (on_snd (S3.delete_object name key)) ;; ret (Bool x)
  | S3_list_buckets =>
      x <- AWS.on_s3 (on_snd S3.list_buckets) ;; ret (Buckets x)
  | S3_list_objects name prefix =>
      x <- AWS.on_s3 (on_snd (S3.list_objects name prefix)) ;; ret (Objects x)
  | S3_get_bucket_info name =>
      x <- AWS.on_s3 (on_snd (S3.get_bucket_info name)) ;; ret (BucketInfo x)
  | S3_enable_versioning name =>
      x <- AWS.on_s3 (on_snd (S3.enable_versioning name)) ;; ret (Bool x)
  | Rds_create_instance a =>
      x <- AWS.on_rds (RDS.create_instance a) ;; ret (Str x)
  | Rds_delete_instance id skip snap =>
      x <- AWS.on_rds (on_snd (RDS.delete_instance id skip snap)) ;; ret (Bool x)
  | Rds_stop_instance id =>
      x <- AWS.on_rds (on_snd (RDS.stop_instance id)) ;; ret (Bool x)
  | Rds_start_instance id =>
      x <- AWS.on_rds (on_snd (RDS.start_instance id)) ;; ret (Bool x)
  | Rds_create_snapshot id snap =>
      x <- AWS.on_rds (on_snd (RDS.create_snapshot id snap)) ;; ret (OptStr x)
  | Rds_get_instance_info id =>
      x <- AWS.on_rds (on_snd (RDS.get_instance_info id)) ;; ret (DBInstanceInfo x)
  | Rds_list_instances engine =>
      x <- AWS.on_rds (on_snd (RDS.list_instances engine)) ;; ret (DBInstances x)
  | Rds_modify_instance id cls storage retention =>
      x <- AWS.on_rds (on_snd (RDS.modify_instance id cls storage retention)) ;;
      ret (Bool x)
  | Lambda_create_function a =>
      x <- AWS.on_lambda (Lambda.create_function a) ;; ret (Str x)
  | Lambda_delete_function name =>
      x <- AWS.on_lambda (on_snd (Lambda.delete_function name)) ;; ret (Bool x)
  | Lambda_invoke_function name payload invocation_type =>
      x <- AWS.on_lambda (on_snd (Lambda.invoke_function name payload invocation_type)) ;;
      ret (Dict x)
  | Lambda_update_function_code name code =>
      x <- AWS.on_lambda (Lambda.update_function_code name code) ;; ret (Bool x)
  | Lambda_update_function_configuration name timeout memory_size environment =>
      x <- AWS.on_lambda
             (Lambda.update_function_configuration name timeout memory_size environment) ;;
      ret (Bool x)
  | Lambda_get_function_info name =>
      x <- AWS.on_lambda (on_snd (Lambda.get_function_info name)) ;; ret (FunctionInfo x)
  | Lambda_list_functions =>
      x <- AWS.on_lambda (on_snd Lambda.list_functions) ;; ret (Functions x)
  | Lambda_add_permission name statement_id action principal =>
      x <- AWS.on_lambda (on_snd (Lambda.add_permission name statement_id action principal)) ;;
      ret (Bool x)
  end.

(** The identifier is not a key of the registry. *)
Definition unknown {R : Type} (d : gmap string R) (id : string) : bool :=
  negb (bool_decide (is_Some (d !! id))).

(** The two ways a call fails: the identifier it names is not found, or the
    state of the resource does not allow the operation (stopping what is
    not running, starting what is not stopped, deleting without force a
    bucket that holds objects, deleting an object that the bucket does not
    hold).  Creations and listings of a whole registry never fail. *)
Definition fails (c : call) (w : AWS.AWSAutomation) : bool :=
  match c with
  | Ec2_create_instance _ | Ec2_list_instances _ => false
  | Ec2_terminate_instance id | Ec2_get_instance_info id | Ec2_tag_instance id _ =>
      unknown (EC2.instances (AWS.ec2 w)) id
  | Ec2_stop_instance id =>
      negb (bool_decide (ec2_state_of (AWS.ec2 w) id = Some "running"))
  | Ec2_start_instance id =>
      negb (bool_decide (ec2_state_of (AWS.ec2 w) id = Some "stopped"))
  | S3_create_bucket _ | S3_list_buckets => false
  | S3_delete_bucket name force =>
      match S3.buckets (AWS.s3 w) !! name with
      | Some b => negb (bool_decide (S3.objects b = [])) && negb force
      | None => true
      end
  | S3_delete_object name key =>
      match S3.buckets (AWS.s3 w) !! name with
      | Some b => negb (bool_decide (key ∈ map S3.key (S3.objects b)))
      | None => true
      end
  | S3_put_object name _ _ _ | S3_list_objects name _ | S3_get_bucket_info name
  | S3_enable_versioning name =>
      unknown (S3.buckets (AWS.s3 w)) name
  | Rds_create_instance _ | Rds_list_instances _ => false
  | Rds_stop_instance id =>
      negb (bool_decide (rds_status_of (AWS.rds w) id = Some "available"))
  | Rds_start_instance id =>
      negb (bool_decide (rds_status_of (AWS.rds w) id = Some "stopped"))
  | Rds_delete_instance id _ _ | Rds_create_snapshot id _ | Rds_get_instance_info id
  | Rds_modify_instance id _ _ _ =>
      unknown (RDS.instances (AWS.rds w)) id
  | Lambda_create_function _ | Lambda_list_functions => false
  | Lambda_delete_function name | Lambda_invoke_function name _ _
  | Lambda_update_function_code name _ | Lambda_update_function_configuration name _ _ _
  | Lambda_get_function_info name | Lambda_add_permission name _ _ _ =>
      unknown (Lambda.functions (AWS.lambda_mgr w)) name
  end.

(** The answer is [False], [None] or empty. *)
Definition false_none_or_empty (a : answer) : bool :=
  match a with
  | Bool b => negb b
  | Str s => String.eqb s ""
  | OptStr o => bool_decide (o = None)
  | InstanceInfo None | BucketInfo None | DBInstanceInfo None | FunctionInfo None => true
  | InstanceInfo (Some _) | BucketInfo (Some _) | DBInstanceInfo (Some _)
  | FunctionInfo (Some _) => false
  | Instances [] | Buckets [] | Objects [] | DBInstances [] | Functions [] => true
  | Instances (_ :: _) | Buckets (_ :: _) | Objects (_ :: _) | DBInstances (_ :: _)
  | Functions (_ :: _) => false
  | Dict PyNone | Dict (PyBool false) | Dict (PyList []) | Dict (PyDict []) => true
  | Dict _ => false
  end.

(** The dictionary that [invoke_function] returns for a function that is
    not registered. *)
Definition function_not_found : pyval :=
  PyDict [("error", PyStr "Function not found")].

(** Failure signalling as the specification words it: a call that fails
    returns [False], [None] or an empty value. *)
Definition signals_as_stated (c : call) (st : Ambient * AWS.AWSAutomation) : Prop :=
  exists a st',
    run c st = Return a st' /\
    (fails c (snd st) = true -> false_none_or_empty a = true).

(** Failure signalling as the code has it: [invoke_function] answers with
    the dictionary [function_not_found], every other call with [False],
    [None] or an empty list; and a call that returns a boolean returns
    [True] exactly when it does not fail. *)
Definition signals (c : call) (st : Ambient * AWS.AWSAutomation) : Prop :=
  exists a st',
    run c st = Return a st' /\
    (fails c (snd st) = true ->
       match c with
       | Lambda_invoke_function _ _ _ => a = Dict function_not_found
       | _ => false_none_or_empty a = true
       end) /\
    (forall b, a = Bool b -> b = negb (fails c (snd st))).

(** Every identifier of the batch that could be deleted has been: the
    listed compute instances that were registered are terminated, the
    listed buckets that were registered and empty are gone, and so are the
    listed database instances and functions. *)
Definition batch_completed (resource_ids : gmap string (list string))
    (w w' : AWS.AWSAutomation) : Prop :=
  (forall id, id ∈ AWS.get_or_empty resource_ids "ec2_instances" ->
     is_Some (EC2.instances (AWS.ec2 w) !! id) ->
     ec2_state_of (AWS.ec2 w') id = Some "terminated") /\
  (forall name b, name ∈ AWS.get_or_empty resource_ids "s3_buckets" ->
     S3.buckets (AWS.s3 w) !! name = Some b -> S3.objects b = [] ->
     S3.buckets (AWS.s3 w') !! name = None) /\
  (forall id, id ∈ AWS.get_or_empty resource_ids "rds_instances" ->
     RDS.instances (AWS.rds w') !! id = None) /\
  (forall name, name ∈ AWS.get_or_empty resource_ids "lambda_functions" ->
     Lambda.functions (AWS.lambda_mgr w') !! name = None).

(** ** Objects and scripts of object calls *)

(** The keys of the objects, in the order of the list. *)
Definition object_keys (objs : list S3.Object) : list string := map S3.key objs.

(** The fields of a bucket that the object calls have no business with. *)
Definition same_bucket_settings (a b : S3.Bucket) : Prop :=
  S3.bucket_name a = S3.bucket_name b /\
  S3.region a = S3.region b /\
  S3.acl a = S3.acl b /\
  S3.versioning a = S3.versioning b /\
  S3.encryption a = S3.encryption b /\
  S3.tags a = S3.tags b /\
  S3.creation_date a = S3.creation_date b.

(** One call on the objects of a bucket. *)
Inductive object_call : Type :=
| PutObject (key body : string) (metadata : option (gmap string string))
| DeleteObject (key : string).

Definition run_object_call (bucket_name : string) (c : object_call)
  : Py (Ambient * S3.S3Manager) bool :=
  match c with
  | PutObject key body metadata => S3.put_object bucket_name key body metadata
  | DeleteObject key => on_snd (S3.delete_object bucket_name key)
  end.

(** The keys that the calls of a script put, in order. *)
Definition put_keys (script : list object_call) : list string :=
  omap (fun c => match c with
                 | PutObject key _ _ => Some key
                 | DeleteObject _ => None
                 end) script.

(** No two objects share a key, no size is negative, and the recorded size
    is at least the sum of the sizes. *)
Definition bucket_sound (b : S3.Bucket) : Prop :=
  NoDup (object_keys (S3.objects b)) /\
  Forall (fun obj => (0 <= S3.size obj)%Z) (S3.objects b) /\
  (total_size (S3.objects b) <= S3.size_bytes b)%Z.

(** No call of the script puts a key that the bucket holds or that an
    earlier call of the script has put. *)
Definition puts_are_new (script : list object_call) (b : S3.Bucket) : Prop :=
  NoDup (put_keys script) /\
  forall k, k ∈ put_keys script -> k ∉ object_keys (S3.objects b).

Definition overwriting_script : list object_call :=
  [PutObject "a.txt" "xy" None; DeleteObject "file.txt"; PutObject "a.txt" "z" None].

Definition new_keys_script : list object_call :=
  [PutObject "a.txt" "xy" None; DeleteObject "file.txt"; PutObject "b.txt" "z" None].

(** ** Calls that change nothing *)

(** [s] starts with [p]: what [s.startswith(p)] tests. *)
Definition starts_with (p s : string) : Prop := exists rest, s = p +:+ rest.

(** The getters, the listings, [create_snapshot] and [add_permission]. *)
Definition read_only (c : call) : bool :=
  match c with
  | Ec2_get_instance_info _ | Ec2_list_instances _
  | S3_list_buckets | S3_list_objects _ _ | S3_get_bucket_info _
  | Rds_create_snapshot _ _ | Rds_get_instance_info _ | Rds_list_instances _
  | Lambda_get_function_info _ | Lambda_list_functions
  | Lambda_add_permission _ _ _ _ => true
  | _ => false
  end.

(** The orchestrator built by [AWSAutomation()] around the sample
    managers. *)
Definition sample_world : AWS.AWSAutomation :=
  set_rds sample_rds (set_s3 sample_s3 (set_ec2 sample_ec2 (AWS.init true))).

(** ** The manager a call belongs to *)

Inductive service : Type := Ec2Service | S3Service | RdsService | LambdaService.

#[global] Instance service_eq_dec : EqDecision service.
Proof. solve_decision. Defined.

Definition service_of (c : call) : service :=
  match c with
  | Ec2_create_instance _ | Ec2_terminate_instance _ | Ec2_stop_instance _
  | Ec2_start_instance _ | Ec2_get_instance_info _ | Ec2_list_instances _
  | Ec2_tag_instance _ _ => Ec2Service
  | S3_create_bucket _ | S3_delete_bucket _ _ | S3_put_object _ _ _ _
  | S3_delete_object _ _ | S3_list_buckets | S3_list_objects _ _
  | S3_get_bucket_info _ | S3_enable_versioning _ => S3Service
  | Rds_create_instance _ | Rds_delete_instance _ _ _ | Rds_stop_instance _
  | Rds_start_instance _ | Rds_create_snapshot _ _ | Rds_get_instance_info _
  | Rds_list_instances _ | Rds_modify_instance _ _ _ _ => RdsService
  | _ => LambdaService
  end.

(** The managers that the call does not belong to are the same in both
    orchestrators. *)
Definition same_other_managers (c : call) (w w' : AWS.AWSAutomation) : Prop :=
  AWS.simulation_mode w' = AWS.simulation_mode w /\
  (service_of c <> Ec2Service -> AWS.ec2 w' = AWS.ec2 w) /\
  (service_of c <> S3Service -> AWS.s3 w' = AWS.s3 w) /\
  (service_of c <> RdsService -> AWS.rds w' = AWS.rds w) /\
  (service_of c <> LambdaService -> AWS.lambda_mgr w' = AWS.lambda_mgr w).

(** [tag_instance], the one call that updates a dictionary in place. *)
Definition updates_in_place (c : call) : bool :=
  match c with
  | Ec2_tag_instance _ _ => true
  | _ => false
  end.

(** ** The life of a compute instance *)

Definition is_ec2_create (c : call) : bool :=
  match c with
  | Ec2_create_instance _ => true
  | _ => false
  end.

(** The fields of a compute record that no method touches after
    [create_instance]: all of them but the state and the tags. *)
Definition ec2_same_fixed_fields (a b : EC2.Instance) : Prop :=
  EC2.instance_id a = EC2.instance_id b /\
  EC2.instance_type a = EC2.instance_type b /\
  EC2.ami_id a = EC2.ami_id b /\
  EC2.key_name a = EC2.key_name b /\
  EC2.security_groups a = EC2.security_groups b /\
  EC2.launch_time a = EC2.launch_time b /\
  EC2.public_ip a = EC2.public_ip b /\
  EC2.private_ip a = EC2.private_ip b.


(** The sample compute instance, started again. *)
Definition running_ec2 : EC2.EC2Manager :=
  exec (EC2.start_instance "i-0123456789abcdefa") sample_ec2.

(** The sample compute instance, terminated, in an orchestrator. *)
Definition terminated_world : AWS.AWSAutomation :=
  set_ec2 (exec (EC2.terminate_instance "i-0123456789abcdefa") sample_ec2) sample_world.

(** Calls of every manager, none of them [create_instance] of the compute
    manager. *)
Definition busy_script : list call :=
  [Ec2_start_instance "i-0123456789abcdefa";
   Ec2_tag_instance "i-0123456789abcdefa" {["Name" := "web"]};
   S3_put_object "test-bucket" "a.txt" "xy" None;
   Ec2_stop_instance "i-0123456789abcdefa";
   Rds_stop_instance "test-db";
   Ec2_terminate_instance "i-0123456789abcdefa"].

(** ** Generated values *)

(** Every character of [s] is one of [population]. *)
Definition chars_from (population s : string) : Prop :=
  Forall (fun c => c ∈ String.list_ascii_of_string population)
         (String.list_ascii_of_string s).

(** The clock read [t] more times and the generator drawn [d] more times. *)
Definition advanced (t d : nat) (amb : Ambient) : Ambient :=
  mkAmbient (wall_clock amb) (t + ticks amb) (generator amb) (d + draws amb).

Definition octet (z : Z) : Prop := (0 <= z <= 255)%Z.

(** ** Listings *)

(** The optional filter of [list_instances] lets the value [x] through:
    no filter and the empty string let everything through. *)
Definition selected (filter : option string) (x : string) : Prop :=
  match filter with
  | Some s => s = "" \/ x = s
  | None => True
  end.

(** ** Functions *)

(** The dictionary that [invoke_function] returns for a registered
    function. *)
Definition invocation_result (payload : option (list (string * pyval))) : pyval :=
  PyDict [("status_code", PyInt 200);
          ("executed_version", PyStr "$LATEST");
          ("payload",
           PyDict [("message", PyStr "Function executed successfully (simulated)");
                   ("input", Lambda.payload_or_empty payload)])].

(** The fields of a function record that neither update method assigns. *)
Definition lambda_same_identity (a b : Lambda.Function) : Prop :=
  Lambda.function_name a = Lambda.function_name b /\
  Lambda.function_arn a = Lambda.function_arn b /\
  Lambda.runtime a = Lambda.runtime b /\
  Lambda.handler a = Lambda.handler b /\
  Lambda.role a = Lambda.role b /\
  Lambda.description a = Lambda.description b /\
  Lambda.tags a = Lambda.tags b /\
  Lambda.version a = Lambda.version b /\
  Lambda.state a = Lambda.state b /\
  Lambda.invocations a = Lambda.invocations b.

Definition sample_function_kw : Lambda.kwargs :=
  Lambda.mkKwargs "test-fn" None None None (Some "print(1)") None None None None None.

(** [create_function("test-fn", code="print(1)")]. *)
Definition sample_lambda : Lambda.LambdaManager :=
  snd (exec (Lambda.create_function_kw sample_function_kw)
         (sample_ambient, Lambda.init true)).

(** Three invocations: no payload, an empty payload and a dry run with a
    payload. *)
Definition sample_invocations : list (option (list (string * pyval)) * string) :=
  [(None, "RequestResponse"); (Some [], "Event");
   (Some [("key", PyStr "value")], "DryRun")].

(** The argument of the later of two calls when it is given, that of the
    earlier call otherwise. *)
Definition later_or {A : Type} (later earlier : option A) : option A :=
  match later with
  | Some x => Some x
  | None => earlier
  end.

(** Arguments of creations under identifiers that the sample managers do
    not hold. *)
Definition scratch_bucket_args : S3.create_args := S3.bind_kwargs (bucket_named "scratch").
Definition scratch_db_args : RDS.create_args := RDS.bind_kwargs (database_named "scratch-db").
Definition scratch_function_args : Lambda.create_args :=
  Lambda.bind_kwargs (function_named "scratch-fn").

(** ** Destroying *)

(** The identifiers of the list that the registry holds, repeats kept. *)
Definition registered_among {R : Type} (d : gmap string R) (ids : list string)
  : list string :=
  filter (fun id => is_Some (d !! id)) ids.

(** Identifiers for [destroy_infrastructure] on the sample orchestrator:
    the sample instance twice, the sample bucket, which holds an object, the
    sample database and a function that is not registered. *)
Definition sample_resource_ids : gmap string (list string) :=
  provision_results ["i-0123456789abcdefa"; "i-0123456789abcdefa"] ["test-bucket"]
    ["test-db"] ["missing-fn"].

(** ** Well-formed registries *)

(** A compute record is filed under its own identifier and is in one of
    the three states of the life cycle. *)
Definition ec2_record_ok (id : string) (info : EC2.Instance) : Prop :=
  EC2.instance_id info = id /\
  EC2.state info ∈ ["running"; "stopped"; "terminated"].

(** A bucket is filed under its own name and is sound. *)
Definition s3_record_ok (name : string) (b : S3.Bucket) : Prop :=
  S3.bucket_name b = name /\ bucket_sound b.

(** A database record is filed under its own identifier, is available or
    stopped, and listens on the port of its engine. *)
Definition rds_record_ok (id : string) (i : RDS.DBInstance) : Prop :=
  RDS.db_instance_identifier i = id /\
  RDS.status i ∈ ["available"; "stopped"] /\
  RDS.port i = (if String.eqb (RDS.engine i) "mysql" then 3306 else 5432)%Z.

(** A function record is filed under its own name, carries the name in its
    resource name, is the active latest version, and has counted no negative
    number of invocations or bytes. *)
Definition lambda_record_ok (name : string) (f : Lambda.Function) : Prop :=
  Lambda.function_name f = name /\
  Lambda.function_arn f = "arn:aws:lambda:us-east-1:123456789012:function:" +:+ name /\
  Lambda.version f = "$LATEST" /\
  Lambda.state f = "Active" /\
  (0 <= Lambda.invocations f)%Z /\
  (0 <= Lambda.code_size f)%Z.

Definition well_formed (w : AWS.AWSAutomation) : Prop :=
  map_Forall ec2_record_ok (EC2.instances (AWS.ec2 w)) /\
  map_Forall s3_record_ok (S3.buckets (AWS.s3 w)) /\
  map_Forall rds_record_ok (RDS.instances (AWS.rds w)) /\
  map_Forall lambda_record_ok (Lambda.functions (AWS.lambda_mgr w)).

(** What a client can ask of the orchestrator: a call of a manager, or one
    of the three methods of the orchestrator itself. *)
Inductive request : Type :=
| Call (c : call)
| Provision (infrastructure_config : AWS.infrastructure_config)
| Destroy (resource_ids : gmap string (list string))
| Status.

(** The request, served, its answer dropped. *)
Definition serve (r : request) : Py (Ambient * AWS.AWSAutomation) unit :=
  match r with
  | Call c => run c ;;; ret tt
  | Provision infrastructure_config =>
      AWS.provision_infrastructure infrastructure_config ;;; ret tt
  | Destroy resource_ids => AWS.destroy_infrastructure resource_ids ;;; ret tt
  | Status => AWS.get_infrastructure_status ;;; ret tt
  end.

(** A session: provisioning, object traffic, life-cycle calls, a status
    report and two destructions. *)
Definition sample_session : list request :=
  [Provision sample_config;
   Call (S3_put_object "test-bucket" "a.txt" "xy" None);
   Call (S3_put_object "test-bucket" "a.txt" "z" None);
   Call (Lambda_invoke_function "test-function" None "Event");
   Call (Rds_stop_instance "test-db");
   Call (Rds_modify_instance "test-db" (Some "") (Some 0%Z) (Some 0%Z));
   Status;
   Destroy sample_resource_ids;
   Destroy sample_resource_ids].

(** ** The life of a bucket *)

(** The call is [delete_bucket] on the bucket [name]. *)
Definition is_bucket_removal (name : string) (c : call) : bool :=
  match c with
  | S3_delete_bucket n _ => String.eqb n name
  | _ => false
  end.

(** The name, region, access control list, encryption flag and creation
    date are the same, and versioning has not been switched off. *)
Definition bucket_settings_kept (b' b : S3.Bucket) : Prop :=
  S3.bucket_name b' = S3.bucket_name b /\
  S3.region b' = S3.region b /\
  S3.acl b' = S3.acl b /\
  S3.encryption b' = S3.encryption b /\
  S3.creation_date b' = S3.creation_date b /\
  (S3.versioning b = true -> S3.versioning b' = true).

(** Calls of every manager, none of them [delete_bucket] on the sample
    bucket or [tag_instance]. *)
Definition bucket_traffic : list call :=
  [S3_enable_versioning "test-bucket";
   S3_put_object "test-bucket" "a.txt" "xy" None;
   S3_create_bucket sample_bucket_args;
   S3_delete_object "test-bucket" "file.txt";
   S3_delete_bucket "other-bucket" true;
   Ec2_terminate_instance "i-0123456789abcdefa"].

(* ===================================================================== *)
(** * Evaluation of the manager methods *)
(* ===================================================================== *)

(** Each method is unfolded once into the cases of its guards; the
    properties below are read off these equations. *)



Ltac py_unfold :=
  unfold bind, ret, get_state, raise, getitem.

(** Splits on whether [k] is a key of [d], and runs the guard. *)
Ltac by_lookup d k x E :=
  destruct (d !! k) as [x|] eqn:E; cbn.

Lemma ec2_terminate_eval (m : EC2.EC2Manager) (id : string) :
  EC2.terminate_instance id m =
  match EC2.instances m !! id with
  | Some info =>
      Return true (ec2_with (<[id := EC2.set_state "terminated" info]> (EC2.instances m)) m)
  | None => Return false m
  end.
Proof.
  unfold EC2.terminate_instance. py_unfold.
  by_lookup (EC2.instances m) id info E; [|reflexivity].
  reflexivity.
Qed.

Lemma ec2_stop_eval (m : EC2.EC2Manager) (id : string) :
  EC2.stop_instance id m =
  match EC2.instances m !! id with
  | Some info =>
      if String.eqb (EC2.state info) "running"
      then Return true (ec2_with (<[id := EC2.set_state "stopped" info]> (EC2.instances m)) m)
      else Return false m
  | None => Return false m
  end.
Proof.
  unfold EC2.stop_instance. py_unfold.
  by_lookup (EC2.instances m) id info E; [|reflexivity].
  destruct (String.eqb _ _); reflexivity.
Qed.

Lemma ec2_start_eval (m : EC2.EC2Manager) (id : string) :
  EC2.start_instance id m =
  match EC2.instances m !! id with
  | Some info =>
      if String.eqb (EC2.state info) "stopped"
      then Return true (ec2_with (<[id := EC2.set_state "running" info]> (EC2.instances m)) m)
      else Return false m
  | None => Return false m
  end.
Proof.
  unfold EC2.start_instance. py_unfold.
  by_lookup (EC2.instances m) id info E; [|reflexivity].
  destruct (String.eqb _ _); reflexivity.
Qed.

Lemma rds_stop_eval (m : RDS.RDSManager) (id : string) :
  RDS.stop_instance id m =
  match RDS.instances m !! id with
  | Some info =>
      if String.eqb (RDS.status info) "available"
      then Return true (rds_with (<[id := RDS.set_status "stopped" info]> (RDS.instances m)) m)
      else Return false m
  | None => Return false m
  end.
Proof.
  unfold RDS.stop_instance. py_unfold.
  by_lookup (RDS.instances m) id info E; [|reflexivity].
  destruct (String.eqb _ _); reflexivity.
Qed.

Lemma rds_start_eval (m : RDS.RDSManager) (id : string) :
  RDS.start_instance id m =
  match RDS.instances m !! id with
  | Some info =>
      if String.eqb (RDS.status info) "stopped"
      then Return true (rds_with (<[id := RDS.set_status "available" info]> (RDS.instances m)) m)
      else Return false m
  | None => Return false m
  end.
Proof.
  unfold RDS.start_instance. py_unfold.
  by_lookup (RDS.instances m) id info E; [|reflexivity].
  destruct (String.eqb _ _); reflexivity.
Qed.

Lemma rds_delete_eval (m : RDS.RDSManager) (id : string) (skip : bool) (snap : option string) :
  RDS.delete_instance id skip snap m =
  match RDS.instances m !! id with
  | Some _ => Return true (rds_with (delete id (RDS.instances m)) m)
  | None => Return false m
  end.
Proof.
  unfold RDS.delete_instance. py_unfold.
  by_lookup (RDS.instances m) id info E; [|reflexivity].
  unfold RDS.delitem. cbn.
  rewrite lookup_insert_eq. cbn. by rewrite delete_insert_eq.
Qed.

Lemma s3_delete_bucket_eval (m : S3.S3Manager) (name : string) (force : bool) :
  S3.delete_bucket name force m =
  match S3.buckets m !! name with
  | Some bucket =>
      if negb (bool_decide (S3.objects bucket = [])) && negb force
      then Return false m
      else Return true (S3.mkS3Manager (S3.simulation_mode m) (delete name (S3.buckets m)))
  | None => Return false m
  end.
Proof.
  unfold S3.delete_bucket. py_unfold.
  by_lookup (S3.buckets m) name bucket E; [|reflexivity].
  destruct (_ && _); [reflexivity|].
  unfold S3.delitem. by rewrite E.
Qed.

Lemma lambda_delete_eval (m : Lambda.LambdaManager) (name : string) :
  Lambda.delete_function name m =
  match Lambda.functions m !! name with
  | Some _ =>
      Return true (Lambda.mkLambdaManager (Lambda.simulation_mode m)
                     (delete name (Lambda.functions m)))
  | None => Return false m
  end.
Proof.
  unfold Lambda.delete_function. py_unfold.
  by_lookup (Lambda.functions m) name f E; [|reflexivity].
  unfold Lambda.delitem. by rewrite E.
Qed.

(* ===================================================================== *)
(** * The stop/start state machine *)
(* ===================================================================== *)

Section LifeCycleFacts.

Context {M R : Type}.
Variable registry : M -> gmap string R.
Variable with_registry : gmap string R -> M -> M.
Variable state : R -> string.
Variable set_state : string -> R -> R.
Hypothesis state_set_state : forall s r, state (set_state s r) = s.
Hypothesis registry_with_registry : forall d m, registry (with_registry d m) = d.

(** A method guarded by "registered, and in state [from]" is the
    transition [from -> to]. *)
Lemma guarded_is_transition (from to : string) (op : string -> Py M bool) :
  (forall m id,
      op id m =
      match registry m !! id with
      | Some info =>
          if String.eqb (state info) from
          then Return true (with_registry (<[id := set_state to info]> (registry m)) m)
          else Return false m
      | None => Return false m
      end) ->
  transition registry with_registry state set_state from to op.
Proof.
  intros Hop m id. rewrite Hop.
  destruct (registry m !! id) as [info|] eqn:E.
  - destruct (String.eqb (state info) from) eqn:Q.
    + apply String.eqb_eq in Q. eexists _, _. split; [reflexivity|].
      split; [|split]; [|intros _|discriminate].
      * cbn. rewrite Q. done.
      * exists info. split; [done|]. split; [done|].
        rewrite registry_with_registry, lookup_insert_eq. cbn.
        by rewrite state_set_state.
    + apply String.eqb_neq in Q. eexists _, _. split; [reflexivity|].
      split; [|split]; [|discriminate|done].
      cbn. split; [discriminate|]. intros [=]. done.
  - eexists _, _. split; [reflexivity|].
    split; [|split]; [|discriminate|done].
    cbn. split; discriminate.
Qed.

End LifeCycleFacts.

(** C4. For compute and database instances, [stop_instance] returns [True]
    and sets the state to stopped exactly when the instance is registered in
    state running (compute) or available (database); [start_instance]
    returns [True] and sets the state back exactly when the state is
    stopped; in every other case, an unknown identifier included, the call
    returns [False] and leaves the manager as it was. *)
Theorem stop_start_state_machine :
  transition EC2.instances ec2_with EC2.state EC2.set_state
             "running" "stopped" EC2.stop_instance /\
  transition EC2.instances ec2_with EC2.state EC2.set_state
             "stopped" "running" EC2.start_instance /\
  transition RDS.instances rds_with RDS.status RDS.set_status
             "available" "stopped" RDS.stop_instance /\
  transition RDS.instances rds_with RDS.status RDS.set_status
             "stopped" "available" RDS.start_instance.
Proof.
  repeat split.
  - apply guarded_is_transition; [done | done | apply ec2_stop_eval].
  - apply guarded_is_transition; [done | done | apply ec2_start_eval].
  - apply guarded_is_transition; [done | done | apply rds_stop_eval].
  - apply guarded_is_transition; [done | done | apply rds_start_eval].
Qed.

(* ===================================================================== *)
(** * Deleting a bucket *)
(* ===================================================================== *)

(** C5. For a bucket that holds at least one object, [delete_bucket]
    without the force flag returns [False] and leaves the manager, hence the
    bucket record, its objects and its [size_bytes], as they were; with
    [force=True] it returns [True] and the bucket, with its objects, is no
    longer in the registry. *)
Theorem delete_bucket_safety (m : S3.S3Manager) (name : string) (bucket : S3.Bucket) :
  S3.buckets m !! name = Some bucket ->
  S3.objects bucket <> [] ->
  S3.delete_bucket name false m = Return false m /\
  exists m',
    S3.delete_bucket name true m = Return true m' /\
    S3.buckets m' = delete name (S3.buckets m) /\
    S3.get_bucket_info name m' = Return None m' /\
    (forall prefix, S3.list_objects name prefix m' = Return [] m').
Proof.
  intros Hreg Hobjs. rewrite !s3_delete_bucket_eval, Hreg.
  rewrite bool_decide_eq_false_2 by done. cbn.
  split; [reflexivity|].
  eexists. split; [reflexivity|]. split; [reflexivity|].
  assert (delete name (S3.buckets m) !! name = None) as Hgone
    by apply lookup_delete_eq.
  split.
  - unfold S3.get_bucket_info. py_unfold. cbn. by rewrite Hgone.
  - intros prefix. unfold S3.list_objects. py_unfold. cbn. by rewrite Hgone.
Qed.

Lemma delete_bucket_safety_witness :
  exists bucket,
    S3.buckets sample_s3 !! "test-bucket" = Some bucket /\
    S3.objects bucket <> [] /\
    S3.delete_bucket "test-bucket" false sample_s3 = Return false sample_s3 /\
    exists m',
      S3.delete_bucket "test-bucket" true sample_s3 = Return true m' /\
      S3.buckets m' = delete "test-bucket" (S3.buckets sample_s3) /\
      S3.get_bucket_info "test-bucket" m' = Return None m' /\
      (forall prefix, S3.list_objects "test-bucket" prefix m' = Return [] m').
Proof.
  eassert (S3.buckets sample_s3 !! "test-bucket" = Some _) as Hreg
    by (vm_compute; reflexivity).
  eexists. split; [exact Hreg|].
  split; [discriminate|].
  apply (delete_bucket_safety sample_s3 "test-bucket" _ Hreg).
  discriminate.
Defined.

(* ===================================================================== *)
(** * Terminated instances stay registered *)
(* ===================================================================== *)

Lemma elem_of_values {V : Type} (d : gmap string V) (k : string) (v : V) :
  d !! k = Some v -> v ∈ values d.
Proof.
  intros H. unfold values. apply list_elem_of_fmap.
  exists (k, v). split; [reflexivity|]. by apply elem_of_map_to_list.
Qed.

Lemma size_delete_registered {V : Type} (d : gmap string V) (k : string) (v : V) :
  d !! k = Some v -> size d = S (size (delete k d)).
Proof.
  intros H. pose proof (map_size_delete_Some k d (mk_is_Some _ _ H)).
  pose proof (map_size_ne_0_lookup_2 d k (mk_is_Some _ _ H)). lia.
Qed.

(** C7. [terminate_instance] on a registered identifier sets the state to
    terminated and keeps the record: [get_instance_info] still returns it
    and [list_instances] still lists it, and the registry has as many
    records as before.  The delete of the other three kinds removes the
    record: on a registered identifier [delete_instance] and
    [delete_function] return [True], and so does [delete_bucket] when the
    bucket is empty or [force] is given; the registry is then the old one
    without the identifier, one record smaller, and the getter finds
    nothing. *)
Theorem terminate_keeps_record (m : EC2.EC2Manager) (id : string) (info : EC2.Instance)
    (s : S3.S3Manager) (bucket_name : string) (force : bool) (bucket : S3.Bucket)
    (r : RDS.RDSManager) (db_id : string) (skip : bool) (snap : option string)
    (db : RDS.DBInstance)
    (f : Lambda.LambdaManager) (function_name : string) (fn : Lambda.Function) :
  EC2.instances m !! id = Some info ->
  S3.buckets s !! bucket_name = Some bucket ->
  S3.objects bucket = [] \/ force = true ->
  RDS.instances r !! db_id = Some db ->
  Lambda.functions f !! function_name = Some fn ->
  (exists m' info',
     EC2.terminate_instance id m = Return true m' /\
     EC2.get_instance_info id m' = Return (Some info') m' /\
     EC2.state info' = "terminated" /\
     info' = EC2.set_state "terminated" info /\
     (exists l, EC2.list_instances None m' = Return l m' /\ info' ∈ l) /\
     (exists l, EC2.list_instances (Some "terminated") m' = Return l m' /\ info' ∈ l) /\
     size (EC2.instances m') = size (EC2.instances m)) /\
  (exists s',
     S3.delete_bucket bucket_name force s = Return true s' /\
     S3.buckets s' = delete bucket_name (S3.buckets s) /\
     S3.get_bucket_info bucket_name s' = Return None s' /\
     size (S3.buckets s) = S (size (S3.buckets s'))) /\
  (exists r',
     RDS.delete_instance db_id skip snap r = Return true r' /\
     RDS.instances r' = delete db_id (RDS.instances r) /\
     RDS.get_instance_info db_id r' = Return None r' /\
     size (RDS.instances r) = S (size (RDS.instances r'))) /\
  (exists f',
     Lambda.delete_function function_name f = Return true f' /\
     Lambda.functions f' = delete function_name (Lambda.functions f) /\
     Lambda.get_function_info function_name f' = Return None f' /\
     size (Lambda.functions f) = S (size (Lambda.functions f'))).
Proof.
  intros Hreg Hbucket Hdeletable Hdb Hfn.
  split; [|split; [|split]].
  - rewrite ec2_terminate_eval, Hreg.
    eexists _, _. split; [reflexivity|].
    assert (<[id := EC2.set_state "terminated" info]> (EC2.instances m) !! id
            = Some (EC2.set_state "terminated" info)) as Hkept
      by apply lookup_insert_eq.
    split; [|split; [|split; [|split; [|split]]]].
    + unfold EC2.get_instance_info. py_unfold. cbn. by rewrite Hkept.
    + reflexivity.
    + reflexivity.
    + eexists. split; [reflexivity|]. by eapply elem_of_values.
    + eexists. split; [reflexivity|].
      apply list_elem_of_filter. split; [reflexivity|]. by eapply elem_of_values.
    + cbn. apply map_size_insert_Some. by rewrite Hreg.
  - rewrite s3_delete_bucket_eval, Hbucket.
    assert (negb (bool_decide (S3.objects bucket = [])) && negb force = false) as ->.
    { destruct Hdeletable as [Hempty| ->].
      - by rewrite bool_decide_eq_true_2.
      - apply andb_false_r. }
    eexists. split; [reflexivity|]. cbn [S3.buckets]. split; [reflexivity|].
    split; [|by eapply size_delete_registered].
    unfold S3.get_bucket_info. py_unfold. cbn. by rewrite lookup_delete_eq.
  - rewrite rds_delete_eval, Hdb.
    eexists. split; [reflexivity|]. cbn [RDS.instances rds_with]. split; [reflexivity|].
    split; [|by eapply size_delete_registered].
    unfold RDS.get_instance_info. py_unfold. cbn. by rewrite lookup_delete_eq.
  - rewrite lambda_delete_eval, Hfn.
    eexists. split; [reflexivity|]. cbn [Lambda.functions]. split; [reflexivity|].
    split; [|by eapply size_delete_registered].
    unfold Lambda.get_function_info. py_unfold. cbn. by rewrite lookup_delete_eq.
Qed.

Lemma terminate_keeps_record_witness :
  exists info bucket db fn,
    EC2.instances sample_ec2 !! "i-0123456789abcdefa" = Some info /\
    EC2.state info = "stopped" /\
    S3.buckets sample_s3 !! "test-bucket" = Some bucket /\
    S3.objects bucket <> [] /\
    RDS.instances sample_rds !! "test-db" = Some db /\
    Lambda.functions sample_lambda !! "test-fn" = Some fn /\
    (exists m' info',
       EC2.terminate_instance "i-0123456789abcdefa" sample_ec2 = Return true m' /\
       EC2.get_instance_info "i-0123456789abcdefa" m' = Return (Some info') m' /\
       EC2.state info' = "terminated" /\
       size (EC2.instances m') = size (EC2.instances sample_ec2)) /\
    (exists s',
       S3.delete_bucket "test-bucket" true sample_s3 = Return true s' /\
       S3.get_bucket_info "test-bucket" s' = Return None s' /\
       size (S3.buckets sample_s3) = S (size (S3.buckets s'))) /\
    (exists r',
       RDS.delete_instance "test-db" true None sample_rds = Return true r' /\
       RDS.get_instance_info "test-db" r' = Return None r' /\
       size (RDS.instances sample_rds) = S (size (RDS.instances r'))) /\
    (exists f',
       Lambda.delete_function "test-fn" sample_lambda = Return true f' /\
       Lambda.get_function_info "test-fn" f' = Return None f' /\
       size (Lambda.functions sample_lambda) = S (size (Lambda.functions f'))).
Proof.
  eassert (EC2.instances sample_ec2 !! "i-0123456789abcdefa" = Some _) as Hreg
    by (vm_compute; reflexivity).
  eassert (S3.buckets sample_s3 !! "test-bucket" = Some _) as Hbucket
    by (vm_compute; reflexivity).
  eassert (RDS.instances sample_rds !! "test-db" = Some _) as Hdb
    by (vm_compute; reflexivity).
  eassert (Lambda.functions sample_lambda !! "test-fn" = Some _) as Hfn
    by (vm_compute; reflexivity).
  eexists _, _, _, _. split; [exact Hreg|]. split; [reflexivity|].
  split; [exact Hbucket|]. split; [discriminate|]. split; [exact Hdb|].
  split; [exact Hfn|].
  destruct (terminate_keeps_record sample_ec2 "i-0123456789abcdefa" _
              sample_s3 "test-bucket" true _ sample_rds "test-db" true None _
              sample_lambda "test-fn" _ Hreg Hbucket (or_intror eq_refl) Hdb Hfn)
    as ((m' & info' & Hterm & Hget & Hstate & _ & _ & _ & Hsize)
        & (s' & Hs & _ & Hsget & Hssize)
        & (r' & Hr & _ & Hrget & Hrsize)
        & (f' & Hf & _ & Hfget & Hfsize)).
  split; [exists m', info'; split; [exact Hterm|]; split; [exact Hget|];
          split; [exact Hstate | exact Hsize]|].
  split; [exists s'; split; [exact Hs|]; split; [exact Hsget | exact Hssize]|].
  split; [exists r'; split; [exact Hr|]; split; [exact Hrget | exact Hrsize]|].
  exists f'. split; [exact Hf|]. split; [exact Hfget | exact Hfsize].
Defined.

(* ===================================================================== *)
(** * Modifying a database instance *)
(* ===================================================================== *)

Lemma rds_modify_eval (m : RDS.RDSManager) (id : string)
    (cls : option string) (storage retention : option Z) :
  RDS.modify_instance id cls storage retention m =
  match RDS.instances m !! id with
  | Some info =>
      let info1 :=
        match cls with
        | Some c => if truthy_str c then RDS.set_instance_class c info else info
        | None => info
        end in
      let info2 :=
        match storage with
        | Some n => if truthy_int n then RDS.set_allocated_storage n info1 else info1
        | None => info1
        end in
      let info3 :=
        match retention with
        | Some n => RDS.set_backup_retention_period n info2
        | None => info2
        end in
      Return true (rds_with (<[id := info3]> (RDS.instances m)) m)
  | None => Return false m
  end.
Proof.
  unfold RDS.modify_instance. py_unfold.
  by_lookup (RDS.instances m) id info E; reflexivity.
Qed.

(** C9. On a registered database instance [modify_instance] returns [True].
    An empty [instance_class] and an [allocated_storage] of 0 are ignored,
    like parameters that are omitted: the field keeps its value.  A
    [backup_retention_period] of 0 is applied, like any other value; only an
    omitted one leaves the field as it was.  Truthy values of the first two
    parameters are applied, and no other field or record changes. *)
Theorem modify_instance_falsy_values (m : RDS.RDSManager) (id : string)
    (info : RDS.DBInstance) (cls : option string) (storage retention : option Z) :
  RDS.instances m !! id = Some info ->
  exists m' info',
    RDS.modify_instance id cls storage retention m = Return true m' /\
    m' = rds_with (<[id := info']> (RDS.instances m)) m /\
    ((cls = None \/ cls = Some "") -> RDS.instance_class info' = RDS.instance_class info) /\
    (forall c, cls = Some c -> c <> "" -> RDS.instance_class info' = c) /\
    ((storage = None \/ storage = Some 0%Z) ->
       RDS.allocated_storage info' = RDS.allocated_storage info) /\
    (forall n, storage = Some n -> n <> 0%Z -> RDS.allocated_storage info' = n) /\
    (retention = Some 0%Z -> RDS.backup_retention_period info' = 0%Z) /\
    (forall n, retention = Some n -> RDS.backup_retention_period info' = n) /\
    (retention = None ->
       RDS.backup_retention_period info' = RDS.backup_retention_period info) /\
    rds_same_other_fields info' info.
Proof.
  intros Hreg. rewrite rds_modify_eval, Hreg. cbv zeta.
  eexists _, _. split; [reflexivity|]. split; [reflexivity|].
  assert (forall c : string, c <> "" -> truthy_str c = true) as Hstr.
  { intros c Hc. unfold truthy_str. apply negb_true_iff. by apply String.eqb_neq. }
  assert (forall n : Z, n <> 0%Z -> truthy_int n = true) as Hint.
  { intros n Hn. unfold truthy_int. apply negb_true_iff. by apply Z.eqb_neq. }
  repeat split.
  all: try (intros [-> | ->]); try (intros n -> Hn); try (intros n ->); try (intros ->).
  all: try rewrite (Hstr _ Hn); try rewrite (Hint _ Hn).
  all: cbn.
  all: repeat match goal with
         | |- context [match ?o with Some _ => _ | None => _ end] => destruct o; cbn
         | |- context [if ?b then _ else _] => destruct b; cbn
         end; reflexivity.
Qed.

Lemma modify_instance_falsy_values_witness :
  exists info,
    RDS.instances sample_rds !! "test-db" = Some info /\
    exists m' info',
      RDS.modify_instance "test-db" (Some "") (Some 0%Z) (Some 0%Z) sample_rds
        = Return true m' /\
      RDS.instances m' !! "test-db" = Some info' /\
      RDS.instance_class info' = "db.t3.micro" /\
      RDS.allocated_storage info' = 20%Z /\
      RDS.backup_retention_period info' = 0%Z.
Proof.
  eassert (RDS.instances sample_rds !! "test-db" = Some _) as Hreg
    by (vm_compute; reflexivity).
  eexists. split; [exact Hreg|].
  destruct (modify_instance_falsy_values sample_rds "test-db" _
              (Some "") (Some 0%Z) (Some 0%Z) Hreg)
    as (m' & info' & Hrun & Hm' & Hcls & _ & Hsto & _ & Hret & _).
  exists m', info'. split; [exact Hrun|].
  split; [rewrite Hm'; apply lookup_insert_eq|].
  split; [rewrite Hcls by auto; reflexivity|].
  split; [rewrite Hsto by auto; reflexivity|].
  auto.
Defined.

(* ===================================================================== *)
(** * Loops *)
(* ===================================================================== *)

(** A loop that appends each result to [results[key]] collects the results
    of [map_each]. *)
Lemma collect_loop {S C : Type} (create : C -> Py S string) (key : string)
    (configs : list C) :
  forall (results : gmap string (list string)) (l0 : list string) (s : S),
    results !! key = Some l0 ->
    for_each (fun results c => id <- create c ;; AWS.append_to key id results)
             results configs s =
    (ids <- map_each create configs ;; ret (<[key := (l0 ++ ids)%list]> results)) s.
Proof.
  induction configs as [|c configs IH]; intros results l0 s Hkey; cbn.
  - unfold bind, ret. cbn. rewrite app_nil_r. by rewrite insert_id.
  - unfold bind. destruct (create c s) as [id s1|e]; [|reflexivity].
    unfold AWS.append_to, getitem, bind. rewrite Hkey. cbn.
    rewrite (IH _ (l0 ++ [id])%list) by apply lookup_insert_eq.
    unfold bind. destruct (map_each create configs s1) as [ids s2|e]; [|reflexivity].
    cbn. by rewrite insert_insert_eq, <- app_assoc.
Qed.

Lemma count_true_cons (ok : bool) (oks : list bool) :
  count_true (ok :: oks) = ((if ok then 1 else 0) + count_true oks)%Z.
Proof.
  unfold count_true. destruct ok.
  - rewrite filter_cons_True by done. cbn [length]. lia.
  - rewrite filter_cons_False by done. lia.
Qed.

(** A loop that adds one to [results[key]] for each [True] counts the
    [True]s of [map_each]. *)
Lemma count_loop {S : Type} (delete : string -> Py S bool) (key : string)
    (ids : list string) :
  forall (results : gmap string Z) (n0 : Z) (s : S),
    results !! key = Some n0 ->
    for_each (fun results id =>
                ok <- delete id ;;
                if ok : bool then AWS.increment key results else ret results)
             results ids s =
    (oks <- map_each delete ids ;; ret (<[key := (n0 + count_true oks)%Z]> results)) s.
Proof.
  induction ids as [|id ids IH]; intros results n0 s Hkey; cbn.
  - unfold bind, ret. cbn. rewrite Z.add_0_r. by rewrite insert_id.
  - unfold bind. destruct (delete id s) as [[|] s1|e]; [| |reflexivity].
    + unfold AWS.increment, getitem, bind. rewrite Hkey. cbn.
      rewrite (IH _ (n0 + 1)%Z) by apply lookup_insert_eq.
      unfold bind. destruct (map_each delete ids s1) as [oks s2|e]; [|reflexivity].
      cbn. rewrite insert_insert_eq, count_true_cons. do 2 f_equal. lia.
    + cbn. rewrite (IH _ n0) by done.
      unfold bind. destruct (map_each delete ids s1) as [oks s2|e]; [|reflexivity].
      cbn. rewrite count_true_cons. do 2 f_equal.
Qed.



(** ** Running a manager's batch from the orchestrator *)

Section Lift.

Context {S T : Type}.
Variable lift : forall A : Type, Py T A -> Py S A.
Variable view : S -> T.
Variable update : T -> S -> S.
Hypothesis lift_eval :
  forall (A : Type) (m : Py T A) (s : S),
    lift A m s = match m (view s) with
                 | Return a t' => Return a (update t' s)
                 | Raise e => Raise e
                 end.
Hypothesis view_update : forall t s, view (update t s) = t.
Hypothesis update_update : forall t t' s, update t' (update t s) = update t' s.
Hypothesis update_view : forall s, update (view s) s = s.

Lemma lift_map_each {A B : Type} (f : A -> Py T B) (xs : list A) :
  forall s,
    map_each (fun x => lift B (f x)) xs s =
    match map_each f xs (view s) with
    | Return bs t' => Return bs (update t' s)
    | Raise e => Raise e
    end.
Proof.
  induction xs as [|x xs IH]; intros s; cbn.
  - unfold ret. by rewrite update_view.
  - unfold bind. rewrite lift_eval.
    destruct (f x (view s)) as [b t1|e]; [|reflexivity].
    rewrite IH, view_update.
    destruct (map_each f xs t1) as [bs t2|e]; [|reflexivity].
    cbn. by rewrite update_update.
Qed.

End Lift.

Lemma on_snd_map_each {S T A B : Type} (f : A -> Py T B) (xs : list A) (s : S) (t : T) :
  map_each (fun x => on_snd (f x)) xs (s, t) =
  match map_each f xs t with
  | Return bs t' => Return bs (s, t')
  | Raise e => Raise e
  end.
Proof.
  apply (lift_map_each (fun A m => @on_snd S T A m) snd (fun t' st => (fst st, t'))).
  - reflexivity.
  - reflexivity.
  - reflexivity.
  - by intros [].
Qed.

Lemma on_ec2_map_each {A B : Type} (f : A -> Py (Ambient * EC2.EC2Manager) B)
    (xs : list A) (amb : Ambient) (w : AWS.AWSAutomation) :
  map_each (fun x => AWS.on_ec2 (f x)) xs (amb, w) =
  match map_each f xs (amb, AWS.ec2 w) with
  | Return bs (amb', m') => Return bs (amb', set_ec2 m' w)
  | Raise e => Raise e
  end.
Proof.
  rewrite (lift_map_each (@AWS.on_ec2) (fun st => (fst st, AWS.ec2 (snd st)))
             (fun t st => (fst t, set_ec2 (snd t) (snd st)))).
  - cbn. by destruct (map_each f xs (amb, AWS.ec2 w)) as [bs []|].
  - intros C m s. unfold AWS.on_ec2. by destruct (m _) as [a []|].
  - by intros [] [].
  - reflexivity.
  - by intros [? []].
Qed.

Lemma on_s3_map_each {A B : Type} (f : A -> Py (Ambient * S3.S3Manager) B)
    (xs : list A) (amb : Ambient) (w : AWS.AWSAutomation) :
  map_each (fun x => AWS.on_s3 (f x)) xs (amb, w) =
  match map_each f xs (amb, AWS.s3 w) with
  | Return bs (amb', m') => Return bs (amb', set_s3 m' w)
  | Raise e => Raise e
  end.
Proof.
  rewrite (lift_map_each (@AWS.on_s3) (fun st => (fst st, AWS.s3 (snd st)))
             (fun t st => (fst t, set_s3 (snd t) (snd st)))).
  - cbn. by destruct (map_each f xs (amb, AWS.s3 w)) as [bs []|].
  - intros C m s. unfold AWS.on_s3. by destruct (m _) as [a []|].
  - by intros [] [].
  - reflexivity.
  - by intros [? []].
Qed.

Lemma on_rds_map_each {A B : Type} (f : A -> Py (Ambient * RDS.RDSManager) B)
    (xs : list A) (amb : Ambient) (w : AWS.AWSAutomation) :
  map_each (fun x => AWS.on_rds (f x)) xs (amb, w) =
  match map_each f xs (amb, AWS.rds w) with
  | Return bs (amb', m') => Return bs (amb', set_rds m' w)
  | Raise e => Raise e
  end.
Proof.
  rewrite (lift_map_each (@AWS.on_rds) (fun st => (fst st, AWS.rds (snd st)))
             (fun t st => (fst t, set_rds (snd t) (snd st)))).
  - cbn. by destruct (map_each f xs (amb, AWS.rds w)) as [bs []|].
  - intros C m s. unfold AWS.on_rds. by destruct (m _) as [a []|].
  - by intros [] [].
  - reflexivity.
  - by intros [? []].
Qed.

Lemma on_lambda_map_each {A B : Type} (f : A -> Py (Ambient * Lambda.LambdaManager) B)
    (xs : list A) (amb : Ambient) (w : AWS.AWSAutomation) :
  map_each (fun x => AWS.on_lambda (f x)) xs (amb, w) =
  match map_each f xs (amb, AWS.lambda_mgr w) with
  | Return bs (amb', m') => Return bs (amb', set_lambda m' w)
  | Raise e => Raise e
  end.
Proof.
  rewrite (lift_map_each (@AWS.on_lambda) (fun st => (fst st, AWS.lambda_mgr (snd st)))
             (fun t st => (fst t, set_lambda (snd t) (snd st)))).
  - cbn. by destruct (map_each f xs (amb, AWS.lambda_mgr w)) as [bs []|].
  - intros C m s. unfold AWS.on_lambda. by destruct (m _) as [a []|].
  - by intros [] [].
  - reflexivity.
  - by intros [? []].
Qed.

(* ===================================================================== *)
(** * Evaluation of the orchestrator *)
(* ===================================================================== *)

(** [provision_infrastructure] is the four batches of creations, in the
    order compute, storage, database, function, each on its own manager
    and each starting with the clock and generator as the previous one left
    them.  A key that is absent is an empty batch. *)
Lemma provision_eval (cfg : AWS.infrastructure_config) (amb : Ambient)
    (w : AWS.AWSAutomation) e s r l amb1 amb2 amb3 amb4 m1 m2 m3 m4 :
  map_each EC2.create_instance_kw (default [] (AWS.cfg_ec2 cfg)) (amb, AWS.ec2 w)
    = Return e (amb1, m1) ->
  map_each S3.create_bucket_kw (default [] (AWS.cfg_s3 cfg)) (amb1, AWS.s3 w)
    = Return s (amb2, m2) ->
  map_each RDS.create_instance_kw (default [] (AWS.cfg_rds cfg)) (amb2, AWS.rds w)
    = Return r (amb3, m3) ->
  map_each Lambda.create_function_kw (default [] (AWS.cfg_lambda cfg))
    (amb3, AWS.lambda_mgr w) = Return l (amb4, m4) ->
  AWS.provision_infrastructure cfg (amb, w) =
  Return (provision_results e s r l)
         (amb4, AWS.mkAWSAutomation (AWS.simulation_mode w) m1 m2 m3 m4).
Proof.
  intros He Hs Hr Hl. unfold AWS.provision_infrastructure.
  set (results0 := <["ec2_instances" := []]> _).
  assert (forall {S C : Type} (create : C -> Py S string) key configs results l0 st,
            results !! key = Some l0 ->
            match configs with
            | Some configs =>
                for_each (fun results c => id <- create c ;; AWS.append_to key id results)
                         results configs
            | None => ret results
            end st =
            (ids <- map_each create (default [] configs) ;;
             ret (<[key := (l0 ++ ids)%list]> results)) st) as Hloop.
  { intros S C create key [configs|] results l0 st Hkey; cbn.
    - by apply collect_loop.
    - unfold bind, ret. cbn. rewrite app_nil_r. by rewrite insert_id. }
  unfold bind at 1.
  rewrite (Hloop _ _ (fun c => AWS.on_ec2 (EC2.create_instance_kw c)) _ _ _ [])
    by reflexivity.
  unfold bind at 1. rewrite on_ec2_map_each, He. cbn.
  unfold bind at 1.
  rewrite (Hloop _ _ (fun c => AWS.on_s3 (S3.create_bucket_kw c)) _ _ _ [])
    by reflexivity.
  unfold bind at 1. rewrite on_s3_map_each. cbn. rewrite Hs. cbn.
  unfold bind at 1.
  rewrite (Hloop _ _ (fun c => AWS.on_rds (RDS.create_instance_kw c)) _ _ _ [])
    by reflexivity.
  unfold bind at 1. rewrite on_rds_map_each. cbn. rewrite Hr. cbn.
  unfold bind at 1.
  rewrite (Hloop _ _ (fun c => AWS.on_lambda (Lambda.create_function_kw c)) _ _ _ [])
    by reflexivity.
  unfold bind at 1. rewrite on_lambda_map_each. cbn. rewrite Hl.
  reflexivity.
Qed.

(** [destroy_infrastructure] is the four batches of deletions, each on its
    own manager, and counts the calls that returned [True].  The clock and
    the generator are not read. *)
Lemma destroy_eval (resource_ids : gmap string (list string)) (amb : Ambient)
    (w : AWS.AWSAutomation) oe os or ol m1 m2 m3 m4 :
  map_each EC2.terminate_instance (AWS.get_or_empty resource_ids "ec2_instances")
    (AWS.ec2 w) = Return oe m1 ->
  map_each (fun name => S3.delete_bucket name false)
    (AWS.get_or_empty resource_ids "s3_buckets") (AWS.s3 w) = Return os m2 ->
  map_each (fun id => RDS.delete_instance id true None)
    (AWS.get_or_empty resource_ids "rds_instances") (AWS.rds w) = Return or m3 ->
  map_each Lambda.delete_function (AWS.get_or_empty resource_ids "lambda_functions")
    (AWS.lambda_mgr w) = Return ol m4 ->
  AWS.destroy_infrastructure resource_ids (amb, w) =
  Return (destroy_results (count_true oe) (count_true os) (count_true or) (count_true ol))
         (amb, AWS.mkAWSAutomation (AWS.simulation_mode w) m1 m2 m3 m4).
Proof.
  intros He Hs Hr Hl. unfold AWS.destroy_infrastructure.
  unfold bind at 1.
  rewrite (count_loop (fun id => AWS.on_ec2 (on_snd (EC2.terminate_instance id)))
             _ _ _ 0%Z) by reflexivity.
  unfold bind at 1.
  rewrite (on_ec2_map_each (fun id => on_snd (EC2.terminate_instance id))).
  rewrite on_snd_map_each, He. cbn.
  unfold bind at 1.
  rewrite (count_loop (fun name => AWS.on_s3 (on_snd (S3.delete_bucket name false)))
             _ _ _ 0%Z) by reflexivity.
  unfold bind at 1.
  rewrite (on_s3_map_each (fun name => on_snd (S3.delete_bucket name false))).
  rewrite on_snd_map_each. cbn. rewrite Hs. cbn.
  unfold bind at 1.
  rewrite (count_loop (fun id => AWS.on_rds (on_snd (RDS.delete_instance id true None)))
             _ _ _ 0%Z) by reflexivity.
  unfold bind at 1.
  rewrite (on_rds_map_each (fun id => on_snd (RDS.delete_instance id true None))).
  rewrite on_snd_map_each. cbn. rewrite Hr. cbn.
  unfold bind at 1.
  rewrite (count_loop (fun name => AWS.on_lambda (on_snd (Lambda.delete_function name)))
             _ _ _ 0%Z) by reflexivity.
  unfold bind at 1.
  rewrite (on_lambda_map_each (fun name => on_snd (Lambda.delete_function name))).
  rewrite on_snd_map_each. cbn. rewrite Hl.
  reflexivity.
Qed.

(* ===================================================================== *)
(** * Batches of deletions *)
(* ===================================================================== *)

Lemma is_Some_insert_present {V : Type} (d : gmap string V) (k id : string) (v : V) :
  is_Some (d !! k) ->
  bool_decide (is_Some (<[k := v]> d !! id)) = bool_decide (is_Some (d !! id)).
Proof.
  intros Hk. apply bool_decide_ext. rewrite lookup_insert.
  case_decide; subst; [|done]. split; eauto.
Qed.

Lemma elem_of_cons_ne (k id : string) (ids : list string) :
  k <> id -> id ∈ k :: ids <-> id ∈ ids.
Proof.
  intros Hne. rewrite elem_of_cons. split; [|by right].
  intros [->|Hin]; [by destruct Hne | exact Hin].
Qed.

Lemma elem_of_cons_same (k : string) (ids : list string) : k ∈ k :: ids.
Proof. apply elem_of_cons. by left. Qed.

(** Terminating a batch: each call returns whether its identifier is
    registered, and the identifiers of the batch that are registered end up
    terminated; nothing else changes. *)
Lemma ec2_terminate_batch (ids : list string) :
  forall m : EC2.EC2Manager,
    exists m',
      map_each EC2.terminate_instance ids m =
        Return (map (fun id => bool_decide (is_Some (EC2.instances m !! id))) ids) m' /\
      EC2.simulation_mode m' = EC2.simulation_mode m /\
      forall id,
        EC2.instances m' !! id =
        if bool_decide (id ∈ ids)
        then EC2.set_state "terminated" <$> EC2.instances m !! id
        else EC2.instances m !! id.
Proof.
  induction ids as [|k ids IH]; intros m; cbn.
  - exists m. split; [reflexivity|]. split; [reflexivity|]. intros id.
    by rewrite bool_decide_eq_false_2 by apply not_elem_of_nil.
  - unfold bind. rewrite ec2_terminate_eval.
    destruct (EC2.instances m !! k) as [info|] eqn:E.
    + destruct (IH (ec2_with (<[k := EC2.set_state "terminated" info]> (EC2.instances m)) m))
        as (m' & -> & Hmode & Hlook).
      exists m'. split; [|split; [done|]].
      * cbn. do 2 f_equal. apply map_ext. intros id.
        apply is_Some_insert_present. by rewrite E.
      * intros id. rewrite Hlook. cbn. rewrite lookup_insert.
        destruct (decide (k = id)) as [<-|Hne].
        -- rewrite (bool_decide_eq_true_2 _ (elem_of_cons_same k ids)).
           rewrite E. by case_bool_decide.
        -- by rewrite (bool_decide_ext _ _ (elem_of_cons_ne k id ids Hne)).
    + destruct (IH m) as (m' & -> & Hmode & Hlook).
      exists m'. split; [done|]. split; [done|].
      intros id. rewrite Hlook.
      destruct (decide (k = id)) as [<-|Hne].
      * rewrite E. by repeat case_bool_decide.
      * by rewrite (bool_decide_ext _ _ (elem_of_cons_ne k id ids Hne)).
Qed.

Section DeleteBatch.

(** A manager whose delete removes a registered record when the record is
    [deletable], and otherwise changes nothing. *)
Context {M R : Type}.
Variable registry : M -> gmap string R.
Variable with_registry : gmap string R -> M -> M.
Variable deletable : R -> bool.
Variable delete_op : string -> Py M bool.
Hypothesis registry_with_registry : forall d m, registry (with_registry d m) = d.
Hypothesis delete_op_eval :
  forall id m,
    delete_op id m =
    match registry m !! id with
    | Some r => if deletable r
                then Return true (with_registry (delete id (registry m)) m)
                else Return false m
    | None => Return false m
    end.

(** A batch of deletions never raises; the records of the batch that were
    deletable are gone and every other record is as it was; the number of
    calls that returned [True] is the number of records removed. *)
Lemma delete_batch (ids : list string) :
  forall m : M,
    exists oks m',
      map_each delete_op ids m = Return oks m' /\
      (forall id,
          registry m' !! id =
          if bool_decide (id ∈ ids) then survivor deletable (registry m) id
          else registry m !! id) /\
      Z.of_nat (size (registry m)) = (Z.of_nat (size (registry m')) + count_true oks)%Z.
Proof.
  induction ids as [|k ids IH]; intros m; cbn.
  - exists [], m. split; [reflexivity|]. split; [|unfold count_true; cbn; lia].
    intros id. by rewrite bool_decide_eq_false_2 by apply not_elem_of_nil.
  - unfold bind. rewrite delete_op_eval. unfold survivor in *.
    destruct (registry m !! k) as [r|] eqn:E; [destruct (deletable r) eqn:D|].
    + destruct (IH (with_registry (delete k (registry m)) m)) as (oks & m' & -> & Hlook & Hsize).
      exists (true :: oks), m'. split; [reflexivity|].
      rewrite registry_with_registry in Hlook, Hsize. split.
      * intros id. rewrite Hlook. destruct (decide (k = id)) as [<-|Hne].
        -- rewrite (bool_decide_eq_true_2 _ (elem_of_cons_same k ids)).
           rewrite lookup_delete_eq, E, D. by case_bool_decide.
        -- rewrite (bool_decide_ext _ _ (elem_of_cons_ne k id ids Hne)).
           by rewrite lookup_delete_ne.
      * rewrite count_true_cons.
        pose proof (map_size_delete_Some k (registry m) (mk_is_Some _ _ E)).
        pose proof (map_size_ne_0_lookup_2 (registry m) k (mk_is_Some _ _ E)). lia.
    + destruct (IH m) as (oks & m' & -> & Hlook & Hsize).
      exists (false :: oks), m'. split; [reflexivity|]. split.
      * intros id. rewrite Hlook. destruct (decide (k = id)) as [<-|Hne].
        -- rewrite (bool_decide_eq_true_2 _ (elem_of_cons_same k ids)).
           rewrite E, D. by case_bool_decide.
        -- by rewrite (bool_decide_ext _ _ (elem_of_cons_ne k id ids Hne)).
      * rewrite count_true_cons. lia.
    + destruct (IH m) as (oks & m' & -> & Hlook & Hsize).
      exists (false :: oks), m'. split; [reflexivity|]. split.
      * intros id. rewrite Hlook. destruct (decide (k = id)) as [<-|Hne].
        -- rewrite (bool_decide_eq_true_2 _ (elem_of_cons_same k ids)).
           rewrite E. by case_bool_decide.
        -- by rewrite (bool_decide_ext _ _ (elem_of_cons_ne k id ids Hne)).
      * rewrite count_true_cons. lia.
Qed.

End DeleteBatch.

Lemma s3_delete_batch (ids : list string) (m : S3.S3Manager) :
  exists oks m',
    map_each (fun name => S3.delete_bucket name false) ids m = Return oks m' /\
    (forall name,
        S3.buckets m' !! name =
        if bool_decide (name ∈ ids)
        then survivor (fun b => bool_decide (S3.objects b = [])) (S3.buckets m) name
        else S3.buckets m !! name) /\
    Z.of_nat (size (S3.buckets m)) = (Z.of_nat (size (S3.buckets m')) + count_true oks)%Z.
Proof.
  apply (delete_batch S3.buckets (fun d m => S3.mkS3Manager (S3.simulation_mode m) d)).
  - done.
  - intros id m0. rewrite s3_delete_bucket_eval.
    destruct (S3.buckets m0 !! id) as [b|]; [|done].
    by destruct (bool_decide (S3.objects b = [])).
Qed.

Lemma rds_delete_batch (ids : list string) (m : RDS.RDSManager) :
  exists oks m',
    map_each (fun id => RDS.delete_instance id true None) ids m = Return oks m' /\
    (forall id,
        RDS.instances m' !! id =
        if bool_decide (id ∈ ids) then None else RDS.instances m !! id) /\
    Z.of_nat (size (RDS.instances m)) = (Z.of_nat (size (RDS.instances m')) + count_true oks)%Z.
Proof.
  destruct (delete_batch RDS.instances rds_with (fun _ => true)
              (fun id => RDS.delete_instance id true None)
              (fun _ _ => eq_refl) (fun id m0 => rds_delete_eval m0 id true None) ids m)
    as (oks & m' & Hrun & Hlook & Hsize).
  exists oks, m'. split; [done|]. split; [|done].
  intros id. rewrite Hlook. unfold survivor.
  case_bool_decide; [|done]. by destruct (RDS.instances m !! id).
Qed.

Lemma lambda_delete_batch (ids : list string) (m : Lambda.LambdaManager) :
  exists oks m',
    map_each Lambda.delete_function ids m = Return oks m' /\
    (forall name,
        Lambda.functions m' !! name =
        if bool_decide (name ∈ ids) then None else Lambda.functions m !! name) /\
    Z.of_nat (size (Lambda.functions m))
      = (Z.of_nat (size (Lambda.functions m')) + count_true oks)%Z.
Proof.
  destruct (delete_batch Lambda.functions
              (fun d m => Lambda.mkLambdaManager (Lambda.simulation_mode m) d)
              (fun _ => true) Lambda.delete_function
              (fun _ _ => eq_refl) (fun id m0 => lambda_delete_eval m0 id) ids m)
    as (oks & m' & Hrun & Hlook & Hsize).
  exists oks, m'. split; [done|]. split; [|done].
  intros id. rewrite Hlook. unfold survivor.
  case_bool_decide; [|done]. by destruct (Lambda.functions m !! id).
Qed.

(* ===================================================================== *)
(** * Creation *)
(* ===================================================================== *)

Lemma choices_returns (population : string) (k : nat) :
  forall amb, exists s amb', choices population k amb = Return s amb'.
Proof.
  induction k as [|k IH]; intros amb; cbn.
  - by eexists _, _.
  - unfold bind, randbelow.
    destruct (IH (mkAmbient (wall_clock amb) (ticks amb) (generator amb) (S (draws amb))))
      as (rest & amb' & ->).
    by eexists _, _.
Qed.



(** [create_instance] registers a new record under the identifier it
    generated, whatever the registry holds. *)
Lemma ec2_create_eval (a : EC2.create_args) (amb : Ambient) (m : EC2.EC2Manager) :
  exists info amb',
    EC2.create_instance a (amb, m) =
      Return (EC2.instance_id info)
             (amb', ec2_with (<[EC2.instance_id info := info]> (EC2.instances m)) m) /\
    ec2_record_of a info.
Proof.
  unfold EC2.create_instance, EC2._generate_instance_id.
  unfold bind at 1. unfold on_fst at 1. unfold bind at 1. cbn [fst snd].
  destruct (choices_returns hexdigits_lower 17 amb) as (part & amb1 & ->).
  cbn. eexists (EC2.mkInstance _ _ _ _ _ _ _ _ _ _), _.
  split; [reflexivity|]. by repeat split.
Qed.

Lemma s3_create_eval (a : S3.create_args) (amb : Ambient) (m : S3.S3Manager) :
  (forall b, S3.buckets m !! S3.arg_bucket_name a = Some b ->
     S3.create_bucket a (amb, m) = Return (S3.arg_bucket_name a) (amb, m)) /\
  (S3.buckets m !! S3.arg_bucket_name a = None ->
     exists b amb',
       S3.create_bucket a (amb, m) =
         Return (S3.arg_bucket_name a)
                (amb', s3_with (<[S3.arg_bucket_name a := b]> (S3.buckets m)) m) /\
       s3_record_of a b).
Proof.
  unfold S3.create_bucket. split.
  - intros b E. unfold bind, on_snd, get_state. cbn. by rewrite E.
  - intros E. unfold bind, on_snd, get_state. cbn. rewrite E. cbn.
    eexists _, _. split; [reflexivity|]. by repeat split.
Qed.

Lemma rds_create_eval (a : RDS.create_args) (amb : Ambient) (m : RDS.RDSManager) :
  (forall i, RDS.instances m !! RDS.arg_db_instance_identifier a = Some i ->
     RDS.create_instance a (amb, m) = Return (RDS.arg_db_instance_identifier a) (amb, m)) /\
  (RDS.instances m !! RDS.arg_db_instance_identifier a = None ->
     exists i amb',
       RDS.create_instance a (amb, m) =
         Return (RDS.arg_db_instance_identifier a)
                (amb', rds_with (<[RDS.arg_db_instance_identifier a := i]> (RDS.instances m)) m) /\
       rds_record_of a i).
Proof.
  unfold RDS.create_instance. split.
  - intros i E. unfold bind, on_snd, get_state. cbn. by rewrite E.
  - intros E. unfold bind, on_snd, get_state. cbn. rewrite E. cbn.
    eexists _, _. split; [reflexivity|]. by repeat split.
Qed.

Lemma lambda_create_eval (a : Lambda.create_args) (amb : Ambient) (m : Lambda.LambdaManager) :
  (forall f, Lambda.functions m !! Lambda.arg_function_name a = Some f ->
     Lambda.create_function a (amb, m) = Return (Lambda.arg_function_name a) (amb, m)) /\
  (Lambda.functions m !! Lambda.arg_function_name a = None ->
     exists f amb',
       Lambda.create_function a (amb, m) =
         Return (Lambda.arg_function_name a)
                (amb', lambda_with (<[Lambda.arg_function_name a := f]> (Lambda.functions m)) m) /\
       lambda_record_of a f).
Proof.
  unfold Lambda.create_function. split.
  - intros f E. unfold bind, on_snd, get_state. cbn. by rewrite E.
  - intros E. unfold bind at 1. unfold on_snd at 1, get_state. cbn [fst snd].
    rewrite E. cbn [bool_decide decide_rel is_Some_dec].
    unfold Lambda.fresh_sha256. unfold bind at 1. unfold on_fst at 1. unfold bind at 1.
    cbn [fst snd].
    destruct (choices_returns hexdigits 64 amb) as (digest & amb1 & ->).
    cbn. eexists _, _. split; [reflexivity|]. by repeat split.
Qed.

(* ===================================================================== *)
(** * Creating twice with the same identifier *)
(* ===================================================================== *)

Lemma filter_none {A : Type} (P : A -> Prop) `{forall x, Decision (P x)} (l : list A) :
  (forall x, x ∈ l -> ~ P x) -> filter P l = [].
Proof.
  induction l as [|x l IH]; intros Hl; [reflexivity|].
  rewrite filter_cons_False by (apply Hl, elem_of_cons; by left).
  apply IH. intros y Hy. apply Hl, elem_of_cons. by right.
Qed.

Lemma records_under_lookup {R : Type} (id : string) (d : gmap string R) (r : R) :
  d !! id = Some r -> records_under id d = [r].
Proof.
  intros Hreg. unfold records_under.
  assert (filter (fun kv : string * R => kv.1 = id) (map_to_list d) ≡ₚ [(id, r)]) as Hperm.
  { rewrite <- (insert_delete_id d id r Hreg) at 1.
    rewrite map_to_list_insert by apply lookup_delete_eq.
    rewrite filter_cons_True by done.
    rewrite filter_none; [done|].
    intros [k v] Hin%elem_of_map_to_list Hk. cbn in Hk. subst k.
    by rewrite lookup_delete_eq in Hin. }
  apply Permutation_singleton_r in Hperm. by rewrite Hperm.
Qed.

Section KeyedCreateFacts.

Context {M R C : Type}.
Variable registry : M -> gmap string R.
Variable with_registry : gmap string R -> M -> M.
Variable create : C -> Py (Ambient * M) string.
Variable ident : C -> string.
Variable record_of : C -> R -> Prop.
Hypothesis registry_with_registry : forall d m, registry (with_registry d m) = d.
Hypothesis create_registered :
  forall a amb m r,
    registry m !! ident a = Some r -> create a (amb, m) = Return (ident a) (amb, m).
Hypothesis create_new :
  forall a amb m,
    registry m !! ident a = None ->
    exists r amb',
      create a (amb, m) =
        Return (ident a) (amb', with_registry (<[ident a := r]> (registry m)) m) /\
      record_of a r.

Lemma keyed_create_is_idempotent : idempotent_create registry create ident record_of.
Proof.
  intros a1 a2 amb m Hid.
  destruct (registry m !! ident a1) as [r|] eqn:E.
  - exists amb, m, r. split; [by eapply create_registered|].
    split; [rewrite <- Hid in *; by eapply create_registered|].
    split; [by apply records_under_lookup|]. done.
  - destruct (create_new a1 amb m E) as (r & amb' & Hrun & Hrec).
    eexists _, _, r. split; [exact Hrun|].
    assert (registry (with_registry (<[ident a1 := r]> (registry m)) m) !! ident a1 = Some r)
      as Hnow by (rewrite registry_with_registry; apply lookup_insert_eq).
    split; [rewrite <- Hid in *; by eapply create_registered|].
    split; [by apply records_under_lookup|].
    intros _. split; [done|].
    rewrite registry_with_registry. by apply map_size_insert_None.
Qed.

End KeyedCreateFacts.

(** C3. For the three managers that take a caller-supplied identifier
    (buckets, database instances, functions): two calls of create with the
    same identifier both return that identifier; the second call ignores its
    parameters and modifies nothing; the registry holds exactly one record
    under the identifier, and that record carries the attributes of the
    first call. *)
Theorem create_twice_keeps_first :
  idempotent_create S3.buckets S3.create_bucket S3.arg_bucket_name s3_record_of /\
  idempotent_create RDS.instances RDS.create_instance RDS.arg_db_instance_identifier
                    rds_record_of /\
  idempotent_create Lambda.functions Lambda.create_function Lambda.arg_function_name
                    lambda_record_of.
Proof.
  split; [|split].
  - apply (keyed_create_is_idempotent S3.buckets s3_with); [done| |].
    + intros a amb m r. apply s3_create_eval.
    + intros a amb m. apply s3_create_eval.
  - apply (keyed_create_is_idempotent RDS.instances rds_with); [done| |].
    + intros a amb m r. apply rds_create_eval.
    + intros a amb m. apply rds_create_eval.
  - apply (keyed_create_is_idempotent Lambda.functions lambda_with); [done| |].
    + intros a amb m r. apply lambda_create_eval.
    + intros a amb m. apply lambda_create_eval.
Qed.

Lemma create_twice_keeps_first_witness :
  exists amb1 m1 b,
    S3.create_bucket sample_bucket_args (sample_ambient, S3.init true)
      = Return "test-bucket" (amb1, m1) /\
    S3.create_bucket other_bucket_args (amb1, m1) = Return "test-bucket" (amb1, m1) /\
    records_under "test-bucket" (S3.buckets m1) = [b] /\
    S3.region b = "us-west-2" /\ S3.versioning b = true /\
    size (S3.buckets m1) = 1.
Proof.
  destruct (proj1 create_twice_keeps_first sample_bucket_args other_bucket_args
              sample_ambient (S3.init true) eq_refl)
    as (amb1 & m1 & b & Hfirst & Hsecond & Hone & Hnew).
  destruct (Hnew eq_refl) as [(_ & Hregion & _ & Hver & _) Hsize].
  exists amb1, m1, b.
  split; [exact Hfirst|]. split; [exact Hsecond|]. split; [exact Hone|].
  split; [exact Hregion|]. split; [exact Hver|]. exact Hsize.
Defined.

(* ===================================================================== *)
(** * Batches of creations *)
(* ===================================================================== *)

Section KeyedCreateBatch.

Context {M R C : Type}.
Variable registry : M -> gmap string R.
Variable with_registry : gmap string R -> M -> M.
Variable create : C -> Py (Ambient * M) string.
Variable ident : C -> string.
Variable record_of : C -> R -> Prop.
Hypothesis registry_with_registry : forall d m, registry (with_registry d m) = d.
Hypothesis create_registered :
  forall a amb m r,
    registry m !! ident a = Some r -> create a (amb, m) = Return (ident a) (amb, m).
Hypothesis create_new :
  forall a amb m,
    registry m !! ident a = None ->
    exists r amb',
      create a (amb, m) =
        Return (ident a) (amb', with_registry (<[ident a := r]> (registry m)) m) /\
      record_of a r.

(** A batch of creations returns the identifiers of its arguments, in
    order; records that were registered stay as they were; every identifier
    of the batch that was not registered now has a record built from one of
    the batch's calls; and when the identifiers are pairwise distinct and
    none was registered, the registry grows by the length of the batch. *)
Lemma keyed_create_batch (calls : list C) :
  forall (amb : Ambient) (m : M),
    exists amb' m',
      map_each create calls (amb, m) = Return (map ident calls) (amb', m') /\
      (forall k r, registry m !! k = Some r -> registry m' !! k = Some r) /\
      (forall k, k ∉ map ident calls -> registry m' !! k = registry m !! k) /\
      (forall k, k ∈ map ident calls -> registry m !! k = None ->
         exists a r, a ∈ calls /\ ident a = k /\
                     registry m' !! k = Some r /\ record_of a r) /\
      (NoDup (map ident calls) ->
       (forall k, k ∈ map ident calls -> registry m !! k = None) ->
       size (registry m') = size (registry m) + length calls).
Proof.
  induction calls as [|a calls IH]; intros amb m; cbn [map_each map].
  - exists amb, m. split; [reflexivity|]. split; [done|]. split; [done|].
    split; [by intros k Hk%elem_of_nil|]. intros _ _. cbn [length]. lia.
  - unfold bind. destruct (registry m !! ident a) as [r|] eqn:E.
    + rewrite (create_registered a amb m r E).
      destruct (IH amb m) as (amb' & m' & -> & Hkeep & Hout & Hin & Hsize).
      exists amb', m'. split; [reflexivity|]. split; [done|].
      split; [|split].
      * intros k Hk. apply Hout. intros Hk'. apply Hk, elem_of_cons. by right.
      * intros k [->|Hk]%elem_of_cons Hnone; [congruence|].
        destruct (Hin k Hk Hnone) as (a' & r' & Ha' & ?).
        exists a', r'. split; [apply elem_of_cons; by right | done].
      * intros _ Hfresh. rewrite Hfresh in E; [done|]. apply elem_of_cons. by left.
    + destruct (create_new a amb m E) as (r & amb1 & -> & Hrec).
      set (m1 := with_registry (<[ident a := r]> (registry m)) m).
      assert (registry m1 = <[ident a := r]> (registry m)) as Hm1
        by apply registry_with_registry.
      destruct (IH amb1 m1) as (amb' & m' & -> & Hkeep & Hout & Hin & Hsize).
      exists amb', m'. split; [reflexivity|].
      split; [|split; [|split]].
      * intros k r0 Hk. apply Hkeep. rewrite Hm1, lookup_insert_ne; [done|congruence].
      * intros k Hk. rewrite Hout, Hm1.
        -- apply lookup_insert_ne. intros Heq. apply Hk, elem_of_cons. by left.
        -- intros Hk'. apply Hk, elem_of_cons. by right.
      * intros k Hk Hnone. destruct (decide (k = ident a)) as [->|Hne].
        -- exists a, r. split; [apply elem_of_cons; by left|]. split; [done|].
           split; [|done]. apply Hkeep. rewrite Hm1. apply lookup_insert_eq.
        -- apply elem_of_cons in Hk as [?|Hk]; [done|].
           destruct (Hin k Hk) as (a' & r' & Ha' & ?).
           { rewrite Hm1, lookup_insert_ne; [done|congruence]. }
           exists a', r'. split; [apply elem_of_cons; by right | done].
      * intros [Hhead Htail]%NoDup_cons Hfresh.
        rewrite Hsize; [|done|].
        -- rewrite Hm1, map_size_insert_None by done. cbn [length]. lia.
        -- intros k Hk. rewrite Hm1, lookup_insert_ne; [|congruence].
           apply Hfresh, elem_of_cons. by right.
Qed.

End KeyedCreateBatch.

Lemma s3_create_batch (configs : list S3.kwargs) (amb : Ambient) (m : S3.S3Manager) :
  exists amb' m',
    map_each S3.create_bucket_kw configs (amb, m)
      = Return (map S3.kw_bucket_name configs) (amb', m') /\
    (forall k b, S3.buckets m !! k = Some b -> S3.buckets m' !! k = Some b) /\
    (forall k, k ∉ map S3.kw_bucket_name configs -> S3.buckets m' !! k = S3.buckets m !! k) /\
    (forall k, k ∈ map S3.kw_bucket_name configs -> S3.buckets m !! k = None ->
       exists c b, c ∈ configs /\ S3.kw_bucket_name c = k /\
                   S3.buckets m' !! k = Some b /\ s3_record_of (S3.bind_kwargs c) b) /\
    (NoDup (map S3.kw_bucket_name configs) ->
     (forall k, k ∈ map S3.kw_bucket_name configs -> S3.buckets m !! k = None) ->
     size (S3.buckets m') = size (S3.buckets m) + length configs).
Proof.
  apply (keyed_create_batch S3.buckets s3_with S3.create_bucket_kw S3.kw_bucket_name
           (fun c b => s3_record_of (S3.bind_kwargs c) b)); [done| |].
  - intros c amb0 m0 b. apply (s3_create_eval (S3.bind_kwargs c)).
  - intros c amb0 m0. apply (s3_create_eval (S3.bind_kwargs c)).
Qed.

Lemma rds_create_batch (configs : list RDS.kwargs) (amb : Ambient) (m : RDS.RDSManager) :
  exists amb' m',
    map_each RDS.create_instance_kw configs (amb, m)
      = Return (map RDS.kw_db_instance_identifier configs) (amb', m') /\
    (forall k i, RDS.instances m !! k = Some i -> RDS.instances m' !! k = Some i) /\
    (forall k, k ∉ map RDS.kw_db_instance_identifier configs ->
       RDS.instances m' !! k = RDS.instances m !! k) /\
    (forall k, k ∈ map RDS.kw_db_instance_identifier configs -> RDS.instances m !! k = None ->
       exists c i, c ∈ configs /\ RDS.kw_db_instance_identifier c = k /\
                   RDS.instances m' !! k = Some i /\ rds_record_of (RDS.bind_kwargs c) i) /\
    (NoDup (map RDS.kw_db_instance_identifier configs) ->
     (forall k, k ∈ map RDS.kw_db_instance_identifier configs ->
        RDS.instances m !! k = None) ->
     size (RDS.instances m') = size (RDS.instances m) + length configs).
Proof.
  apply (keyed_create_batch RDS.instances rds_with RDS.create_instance_kw
           RDS.kw_db_instance_identifier
           (fun c i => rds_record_of (RDS.bind_kwargs c) i)); [done| |].
  - intros c amb0 m0 i. apply (rds_create_eval (RDS.bind_kwargs c)).
  - intros c amb0 m0. apply (rds_create_eval (RDS.bind_kwargs c)).
Qed.

Lemma lambda_create_batch (configs : list Lambda.kwargs) (amb : Ambient)
    (m : Lambda.LambdaManager) :
  exists amb' m',
    map_each Lambda.create_function_kw configs (amb, m)
      = Return (map Lambda.kw_function_name configs) (amb', m') /\
    (forall k f, Lambda.functions m !! k = Some f -> Lambda.functions m' !! k = Some f) /\
    (forall k, k ∉ map Lambda.kw_function_name configs ->
       Lambda.functions m' !! k = Lambda.functions m !! k) /\
    (forall k, k ∈ map Lambda.kw_function_name configs -> Lambda.functions m !! k = None ->
       exists c f, c ∈ configs /\ Lambda.kw_function_name c = k /\
                   Lambda.functions m' !! k = Some f /\
                   lambda_record_of (Lambda.bind_kwargs c) f) /\
    (NoDup (map Lambda.kw_function_name configs) ->
     (forall k, k ∈ map Lambda.kw_function_name configs -> Lambda.functions m !! k = None) ->
     size (Lambda.functions m') = size (Lambda.functions m) + length configs).
Proof.
  apply (keyed_create_batch Lambda.functions lambda_with Lambda.create_function_kw
           Lambda.kw_function_name
           (fun c f => lambda_record_of (Lambda.bind_kwargs c) f)); [done| |].
  - intros c amb0 m0 f. apply (lambda_create_eval (Lambda.bind_kwargs c)).
  - intros c amb0 m0. apply (lambda_create_eval (Lambda.bind_kwargs c)).
Qed.

(** A batch of compute creations returns one generated identifier per
    call; records under other identifiers stay as they were; every returned
    identifier is registered in state running; and when the generated
    identifiers are pairwise distinct, the i-th identifier names the record
    built from the i-th call, and the registry grows by the length of the
    batch if none of them was registered. *)
Lemma ec2_create_batch (configs : list EC2.kwargs) :
  forall (amb : Ambient) (m : EC2.EC2Manager),
    exists ids amb' m',
      map_each EC2.create_instance_kw configs (amb, m) = Return ids (amb', m') /\
      length ids = length configs /\
      (forall k, k ∉ ids -> EC2.instances m' !! k = EC2.instances m !! k) /\
      (forall k, k ∈ ids ->
         exists info, EC2.instances m' !! k = Some info /\ EC2.state info = "running") /\
      (NoDup ids ->
       Forall2 (fun id c =>
                  exists info, EC2.instances m' !! id = Some info /\
                               EC2.instance_id info = id /\
                               ec2_record_of (EC2.bind_kwargs c) info)
               ids configs) /\
      (NoDup ids -> (forall k, k ∈ ids -> EC2.instances m !! k = None) ->
       size (EC2.instances m') = size (EC2.instances m) + length configs).
Proof.
  induction configs as [|c configs IH]; intros amb m; cbn [map_each].
  - exists [], amb, m. split; [reflexivity|]. split; [done|]. split; [done|].
    split; [by intros k Hk%elem_of_nil|]. split; [by constructor|].
    intros _ _. cbn [length]. lia.
  - unfold bind, EC2.create_instance_kw at 1.
    destruct (ec2_create_eval (EC2.bind_kwargs c) amb m) as (info & amb1 & -> & Hrec).
    set (id0 := EC2.instance_id info).
    set (m1 := ec2_with (<[id0 := info]> (EC2.instances m)) m).
    destruct (IH amb1 m1) as (ids & amb' & m' & -> & Hlen & Hout & Hin & Hord & Hsize).
    exists (id0 :: ids), amb', m'. split; [reflexivity|].
    split; [cbn; by rewrite Hlen|].
    assert (id0 ∉ ids -> EC2.instances m' !! id0 = Some info) as Hhead.
    { intros Hid0. rewrite Hout by done. apply lookup_insert_eq. }
    split; [|split; [|split]].
    + intros k Hk. rewrite Hout.
      * apply lookup_insert_ne. intros Heq. apply Hk, elem_of_cons. by left.
      * intros Hk'. apply Hk, elem_of_cons. by right.
    + intros k Hk. destruct (decide (k ∈ ids)) as [Hk'|Hk']; [by apply Hin|].
      apply elem_of_cons in Hk as [->|?]; [|done].
      exists info. split; [by apply Hhead|]. apply Hrec.
    + intros [Hid0 Hnodup]%NoDup_cons. constructor; [|by apply Hord].
      exists info. split; [by apply Hhead|]. done.
    + intros [Hid0 Hnodup]%NoDup_cons Hfresh.
      rewrite Hsize; [|done|].
      * cbn. rewrite map_size_insert_None; [cbn [length]; lia|].
        apply Hfresh, elem_of_cons. by left.
      * intros k Hk. cbn. rewrite lookup_insert_ne; [|by intros <-].
        apply Hfresh, elem_of_cons. by right.
Qed.

(* ===================================================================== *)
(** * The orchestrator, batch by batch *)
(* ===================================================================== *)

Lemma provision_characterised (cfg : AWS.infrastructure_config) (amb : Ambient)
    (w : AWS.AWSAutomation) :
  exists e s r l amb1 amb2 amb3 amb4 w',
    AWS.provision_infrastructure cfg (amb, w)
      = Return (provision_results e s r l) (amb4, w') /\
    map_each EC2.create_instance_kw (default [] (AWS.cfg_ec2 cfg)) (amb, AWS.ec2 w)
      = Return e (amb1, AWS.ec2 w') /\
    map_each S3.create_bucket_kw (default [] (AWS.cfg_s3 cfg)) (amb1, AWS.s3 w)
      = Return s (amb2, AWS.s3 w') /\
    map_each RDS.create_instance_kw (default [] (AWS.cfg_rds cfg)) (amb2, AWS.rds w)
      = Return r (amb3, AWS.rds w') /\
    map_each Lambda.create_function_kw (default [] (AWS.cfg_lambda cfg))
      (amb3, AWS.lambda_mgr w) = Return l (amb4, AWS.lambda_mgr w') /\
    AWS.simulation_mode w' = AWS.simulation_mode w.
Proof.
  destruct (ec2_create_batch (default [] (AWS.cfg_ec2 cfg)) amb (AWS.ec2 w))
    as (e & amb1 & m1 & He & _).
  destruct (s3_create_batch (default [] (AWS.cfg_s3 cfg)) amb1 (AWS.s3 w))
    as (amb2 & m2 & Hs & _).
  destruct (rds_create_batch (default [] (AWS.cfg_rds cfg)) amb2 (AWS.rds w))
    as (amb3 & m3 & Hr & _).
  destruct (lambda_create_batch (default [] (AWS.cfg_lambda cfg)) amb3 (AWS.lambda_mgr w))
    as (amb4 & m4 & Hl & _).
  eexists _, _, _, _, amb1, amb2, amb3, amb4, _.
  split; [exact (provision_eval cfg amb w _ _ _ _ _ _ _ _ _ _ _ _ He Hs Hr Hl)|].
  cbn. by repeat split.
Qed.

Lemma destroy_characterised (resource_ids : gmap string (list string)) (amb : Ambient)
    (w : AWS.AWSAutomation) :
  exists oe os od ol w',
    AWS.destroy_infrastructure resource_ids (amb, w)
      = Return (destroy_results (count_true oe) (count_true os)
                                (count_true od) (count_true ol)) (amb, w') /\
    map_each EC2.terminate_instance (AWS.get_or_empty resource_ids "ec2_instances")
      (AWS.ec2 w) = Return oe (AWS.ec2 w') /\
    map_each (fun name => S3.delete_bucket name false)
      (AWS.get_or_empty resource_ids "s3_buckets") (AWS.s3 w) = Return os (AWS.s3 w') /\
    map_each (fun id => RDS.delete_instance id true None)
      (AWS.get_or_empty resource_ids "rds_instances") (AWS.rds w)
      = Return od (AWS.rds w') /\
    map_each Lambda.delete_function (AWS.get_or_empty resource_ids "lambda_functions")
      (AWS.lambda_mgr w) = Return ol (AWS.lambda_mgr w') /\
    AWS.simulation_mode w' = AWS.simulation_mode w.
Proof.
  destruct (ec2_terminate_batch (AWS.get_or_empty resource_ids "ec2_instances") (AWS.ec2 w))
    as (m1 & He & _).
  destruct (s3_delete_batch (AWS.get_or_empty resource_ids "s3_buckets") (AWS.s3 w))
    as (os & m2 & Hs & _).
  destruct (rds_delete_batch (AWS.get_or_empty resource_ids "rds_instances") (AWS.rds w))
    as (od & m3 & Hr & _).
  destruct (lambda_delete_batch (AWS.get_or_empty resource_ids "lambda_functions")
              (AWS.lambda_mgr w)) as (ol & m4 & Hl & _).
  eexists _, os, od, ol, _.
  split; [exact (destroy_eval resource_ids amb w _ _ _ _ _ _ _ _ He Hs Hr Hl)|].
  cbn. by repeat split.
Qed.

Lemma count_true_all (P : string -> bool) (ids : list string) :
  (forall k, k ∈ ids -> P k = true) -> count_true (map P ids) = Z.of_nat (length ids).
Proof.
  induction ids as [|k ids IH]; intros Hall; [reflexivity|].
  cbn [map]. rewrite count_true_cons, Hall, IH.
  - cbn [length]. lia.
  - intros k' Hk'. apply Hall, elem_of_cons. by right.
  - apply elem_of_cons. by left.
Qed.


(* ===================================================================== *)
(** * Terminating again *)
(* ===================================================================== *)

(** C10. [terminate_instance] returns [True] for every registered
    identifier, whatever the state of the instance: a second call on the
    same identifier returns [True] again and leaves the instance
    terminated, and [destroy_infrastructure] counts every occurrence of a
    registered identifier in its compute list, repeats included. *)
Theorem terminate_counts_repeats (m : EC2.EC2Manager) (id : string) (info : EC2.Instance) :
  EC2.instances m !! id = Some info ->
  (exists m1,
     EC2.terminate_instance id m = Return true m1 /\
     EC2.terminate_instance id m1 = Return true m1 /\
     ec2_state_of m1 id = Some "terminated") /\
  (forall (amb : Ambient) (w : AWS.AWSAutomation) (n : nat)
          (resource_ids : gmap string (list string)),
     resource_ids !! "ec2_instances" = Some (replicate n id) ->
     exists counts st',
       AWS.destroy_infrastructure resource_ids (amb, set_ec2 m w) = Return counts st' /\
       counts !! "ec2_terminated" = Some (Z.of_nat n) /\
       ec2_state_of (AWS.ec2 (snd st')) id
         = Some (if n is O then EC2.state info else "terminated")).
Proof.
  intros Hreg. split.
  - rewrite ec2_terminate_eval, Hreg. eexists. split; [reflexivity|].
    rewrite ec2_terminate_eval. cbn. rewrite lookup_insert_eq. split.
    + unfold ec2_with. cbn. by rewrite insert_insert_eq.
    + unfold ec2_state_of. cbn. by rewrite lookup_insert_eq.
  - intros amb w n resource_ids Hids.
    destruct (destroy_characterised resource_ids amb (set_ec2 m w))
      as (oe & os & od & ol & w' & Hrun & He & _).
    unfold AWS.get_or_empty in He. rewrite Hids in He. cbn in He.
    destruct (ec2_terminate_batch (replicate n id) m)
      as (m' & Hbatch & _ & Hlook).
    rewrite Hbatch in He. injection He as Hoe Hm'. subst oe.
    eexists _, _. split; [exact Hrun|]. split.
    + cbn. rewrite count_true_all, length_replicate; [reflexivity|].
      intros k Hk%elem_of_replicate. destruct Hk as [-> _].
      rewrite Hreg. reflexivity.
    + unfold ec2_state_of. cbn [snd]. rewrite <- Hm', Hlook, Hreg.
      destruct n as [|n]; [reflexivity|].
      rewrite bool_decide_eq_true_2; [reflexivity|]. apply elem_of_cons. by left.
Qed.

Lemma terminate_counts_repeats_witness :
  exists info,
    EC2.instances sample_ec2 !! "i-0123456789abcdefa" = Some info /\
    EC2.state info = "stopped" /\
    exists counts st',
      AWS.destroy_infrastructure
        (<["ec2_instances" := ["i-0123456789abcdefa"; "i-0123456789abcdefa"]]> ∅)
        (sample_ambient, set_ec2 sample_ec2 (AWS.init true)) = Return counts st' /\
      counts !! "ec2_terminated" = Some 2%Z.
Proof.
  eassert (EC2.instances sample_ec2 !! "i-0123456789abcdefa" = Some _) as Hreg
    by (vm_compute; reflexivity).
  eexists. split; [exact Hreg|]. split; [reflexivity|].
  destruct (proj2 (terminate_counts_repeats sample_ec2 "i-0123456789abcdefa" _ Hreg)
              sample_ambient (AWS.init true) 2
              (<["ec2_instances" := ["i-0123456789abcdefa"; "i-0123456789abcdefa"]]> ∅)
              (lookup_insert_eq _ _ _))
    as (counts & st' & Hrun & Hcount & _).
  exists counts, st'. split; [exact Hrun | exact Hcount].
Defined.

(* ===================================================================== *)
(** * Destroying what was provisioned *)
(* ===================================================================== *)

Lemma provision_results_lookup (e s r l : list string) :
  AWS.get_or_empty (provision_results e s r l) "ec2_instances" = e /\
  AWS.get_or_empty (provision_results e s r l) "s3_buckets" = s /\
  AWS.get_or_empty (provision_results e s r l) "rds_instances" = r /\
  AWS.get_or_empty (provision_results e s r l) "lambda_functions" = l.
Proof. by repeat split. Qed.

Section EmptiedRegistry.

(** A registry whose keys all are in [ids], every record deletable, is
    empty after the batch of deletions described by [survivor]; the batch
    removed as many records as the registry held. *)
Context {R : Type}.
Variable deletable : R -> bool.
Variables before after : gmap string R.
Variable ids : list string.
Hypothesis keys_in_ids : forall k, k ∉ ids -> before !! k = None.
Hypothesis all_deletable : forall k r, before !! k = Some r -> deletable r = true.
Hypothesis after_batch :
  forall k, after !! k = if bool_decide (k ∈ ids) then survivor deletable before k
                         else before !! k.

Lemma emptied : after = ∅.
Proof.
  apply map_empty. intros k. rewrite after_batch.
  case_bool_decide as Hk; [|by apply keys_in_ids].
  unfold survivor. destruct (before !! k) as [r|] eqn:E; [|done].
  by rewrite (all_deletable k r E).
Qed.

End EmptiedRegistry.


(** C2, as the code has it.  After [destroy_infrastructure] on the result
    of [provision_infrastructure] on a fresh orchestrator: the compute count
    is the length of the compute list; the storage, database and function
    counts are the lengths of their lists when the identifiers of the kind
    are pairwise distinct; the storage, database and function registries
    are empty; the compute registry holds exactly the provisioned
    instances, each in state terminated. *)
Theorem destroy_after_provision (cfg : AWS.infrastructure_config) (amb : Ambient)
    (mode : bool) :
  after_round_trip cfg amb mode (fan_in cfg).
Proof.
  destruct (provision_characterised cfg amb (AWS.init mode))
    as (e & s & r & l & amb1 & amb2 & amb3 & amb4 & w1 & Hprov & He & Hs & Hr & Hl & _).
  destruct (destroy_characterised (provision_results e s r l) amb4 w1)
    as (oe & os & od & ol & w2 & Hdest & Hoe & Hos & Hod & Hol & _).
  destruct (provision_results_lookup e s r l) as (Le & Ls & Lr & Ll).
  rewrite Le in Hoe. rewrite Ls in Hos. rewrite Lr in Hod. rewrite Ll in Hol.
  exists (provision_results e s r l), (amb4, w1),
    (destroy_results (count_true oe) (count_true os) (count_true od) (count_true ol)),
    (amb4, w2).
  split; [exact Hprov|]. split; [exact Hdest|].
  unfold fan_in. rewrite Le, Ls, Lr, Ll. cbn [snd].
  (* what the four batches of creations left *)
  destruct (ec2_create_batch (default [] (AWS.cfg_ec2 cfg)) amb (AWS.ec2 (AWS.init mode)))
    as (e' & amb1' & m1 & He' & Hlen_e & Hout_e & Hin_e & _).
  rewrite He in He'. injection He' as <- <- <-.
  destruct (s3_create_batch (default [] (AWS.cfg_s3 cfg)) amb1 (AWS.s3 (AWS.init mode)))
    as (amb2' & m2 & Hs' & _ & Hout_s & Hin_s & Hsize_s).
  rewrite Hs in Hs'. injection Hs' as -> <- <-.
  destruct (rds_create_batch (default [] (AWS.cfg_rds cfg)) amb2 (AWS.rds (AWS.init mode)))
    as (amb3' & m3 & Hr' & _ & Hout_r & _ & Hsize_r).
  rewrite Hr in Hr'. injection Hr' as -> <- <-.
  destruct (lambda_create_batch (default [] (AWS.cfg_lambda cfg)) amb3
              (AWS.lambda_mgr (AWS.init mode)))
    as (amb4' & m4 & Hl' & _ & Hout_l & _ & Hsize_l).
  rewrite Hl in Hl'. injection Hl' as -> <- <-.
  (* what the four batches of deletions left *)
  destruct (ec2_terminate_batch e (AWS.ec2 w1)) as (n1 & Hoe' & _ & Hlook_e).
  rewrite Hoe in Hoe'. injection Hoe' as -> <-.
  destruct (s3_delete_batch (map S3.kw_bucket_name (default [] (AWS.cfg_s3 cfg))) (AWS.s3 w1))
    as (os' & n2 & Hos' & Hlook_s & Hcount_s).
  rewrite Hos in Hos'. injection Hos' as <- <-.
  destruct (rds_delete_batch (map RDS.kw_db_instance_identifier (default [] (AWS.cfg_rds cfg)))
              (AWS.rds w1)) as (od' & n3 & Hod' & Hlook_r & Hcount_r).
  rewrite Hod in Hod'. injection Hod' as <- <-.
  destruct (lambda_delete_batch (map Lambda.kw_function_name (default [] (AWS.cfg_lambda cfg)))
              (AWS.lambda_mgr w1)) as (ol' & n4 & Hol' & Hlook_l & Hcount_l).
  rewrite Hol in Hol'. injection Hol' as <- <-.
  (* the three registries that are emptied *)
  assert (S3.buckets (AWS.s3 w2) = ∅) as Hempty_s.
  { apply (emptied (fun b => bool_decide (S3.objects b = [])) (S3.buckets (AWS.s3 w1)) _
             (map S3.kw_bucket_name (default [] (AWS.cfg_s3 cfg)))); [| |done].
    - intros k Hk. by rewrite Hout_s.
    - intros k b Hb.
      destruct (decide (k ∈ map S3.kw_bucket_name (default [] (AWS.cfg_s3 cfg))))
        as [Hk|Hk]; [|by rewrite Hout_s in Hb].
      destruct (Hin_s k Hk eq_refl) as (c & b' & _ & _ & Hb' & Hrec).
      rewrite Hb in Hb'. injection Hb' as <-.
      apply bool_decide_eq_true_2. apply Hrec. }
  assert (RDS.instances (AWS.rds w2) = ∅) as Hempty_r.
  { apply map_empty. intros k. rewrite Hlook_r. case_bool_decide; [done|].
    by rewrite Hout_r. }
  assert (Lambda.functions (AWS.lambda_mgr w2) = ∅) as Hempty_l.
  { apply map_empty. intros k. rewrite Hlook_l. case_bool_decide; [done|].
    by rewrite Hout_l. }
  rewrite Hempty_s, map_size_empty, Z.add_0_l in Hcount_s.
  rewrite Hempty_r, map_size_empty, Z.add_0_l in Hcount_r.
  rewrite Hempty_l, map_size_empty, Z.add_0_l in Hcount_l.
  split; [by rewrite Hlen_e|].
  split; [|split; [done|split]].
  - split; [|split; [|split]].
    + cbn. rewrite count_true_all; [done|].
      intros k Hk. destruct (Hin_e k Hk) as (info & -> & _). reflexivity.
    + intros Hnodup. cbn. rewrite <- Hcount_s, Hsize_s; [|done|done].
      cbn. by rewrite length_map.
    + intros Hnodup. cbn. rewrite <- Hcount_r, Hsize_r; [|done|done].
      cbn. by rewrite length_map.
    + intros Hnodup. cbn. rewrite <- Hcount_l, Hsize_l; [|done|done].
      cbn. by rewrite length_map.
  - intros id. rewrite Hlook_e. case_bool_decide as Hid.
    + destruct (Hin_e id Hid) as (info & -> & _). cbn. split; [done|]. by eexists.
    + rewrite Hout_e by done. cbn. split; [by intros [? [=]]|done].
  - intros id Hid. unfold ec2_state_of. rewrite Hlook_e.
    rewrite bool_decide_eq_true_2 by done.
    destruct (Hin_e id Hid) as (info & -> & _). reflexivity.
Qed.

Lemma round_trip_eval (cfg : AWS.infrastructure_config) st0 ids st1 counts st2 :
  AWS.provision_infrastructure cfg st0 = Return ids st1 ->
  AWS.destroy_infrastructure ids st1 = Return counts st2 ->
  round_trip cfg st0 = Return (ids, counts) st2.
Proof. intros Hprov Hdest. unfold round_trip, bind. by rewrite Hprov, Hdest. Qed.

Lemma after_round_trip_run (cfg : AWS.infrastructure_config) (amb : Ambient) (mode : bool)
    (post : gmap string (list string) -> gmap string Z -> AWS.AWSAutomation -> Prop) :
  after_round_trip cfg amb mode post ->
  exists ids counts st2,
    round_trip cfg (amb, AWS.init mode) = Return (ids, counts) st2 /\
    post ids counts (snd st2).
Proof.
  intros (ids & st1 & counts & st2 & Hprov & Hdest & Hpost).
  exists ids, counts, st2. split; [|exact Hpost].
  by eapply round_trip_eval.
Qed.

Lemma destroy_after_provision_witness :
  after_round_trip sample_config sample_ambient true
    (fun ids counts w =>
       counts = destroy_results 2 1 1 1 /\
       S3.buckets (AWS.s3 w) = ∅ /\
       RDS.instances (AWS.rds w) = ∅ /\
       Lambda.functions (AWS.lambda_mgr w) = ∅ /\
       size (EC2.instances (AWS.ec2 w)) = 2).
Proof.
  destruct (destroy_after_provision sample_config sample_ambient true)
    as (ids & st1 & counts & st2 & Hprov & Hdest & Hfan).
  assert (observed (fun out st => (out.2, size (EC2.instances (AWS.ec2 (snd st)))))
            (round_trip sample_config (sample_ambient, AWS.init true))
          = Some (destroy_results 2 1 1 1, 2)) as Hobs
    by (vm_compute; reflexivity).
  rewrite (round_trip_eval _ _ _ _ _ _ Hprov Hdest) in Hobs.
  injection Hobs as Hcounts Hsize.
  exists ids, st1, counts, st2. split; [exact Hprov|]. split; [exact Hdest|].
  destruct Hfan as (_ & _ & (Hs & Hr & Hl) & _).
  split; [exact Hcounts|]. split; [exact Hs|]. split; [exact Hr|].
  split; [exact Hl | exact Hsize].
Defined.

(** C2 as the specification words it fails on a configuration with one
    compute instance and the same bucket name twice: the storage count is 1
    for a list of length 2, and the compute registry still holds the
    terminated instance. *)
Lemma destroy_after_provision_counterexample :
  ~ after_round_trip repeating_config sample_ambient true fan_in_as_stated /\
  ~ after_round_trip repeating_config sample_ambient true
      (fun ids counts _ => counts_are_lengths ids counts) /\
  ~ after_round_trip repeating_config sample_ambient true
      (fun _ _ w => all_registries_empty w).
Proof.
  assert (forall post,
            after_round_trip repeating_config sample_ambient true post ->
            exists ids counts w,
              post ids counts w /\
              ids !! "s3_buckets" = Some ["test-bucket"; "test-bucket"] /\
              counts !! "s3_deleted" = Some 1%Z /\
              size (EC2.instances (AWS.ec2 w)) = 1) as Hrun.
  { intros post (ids & counts & st2 & Hrt & Hpost)%after_round_trip_run.
    exists ids, counts, (snd st2). split; [exact Hpost|].
    assert (observed (fun out st => (out.1 !! "s3_buckets", out.2 !! "s3_deleted",
                                     size (EC2.instances (AWS.ec2 (snd st)))))
              (round_trip repeating_config (sample_ambient, AWS.init true))
            = Some (Some ["test-bucket"; "test-bucket"], Some 1%Z, 1)) as Hobs
      by (vm_compute; reflexivity).
    rewrite Hrt in Hobs. injection Hobs as Hids Hone Hsize.
    split; [exact Hids|]. split; [exact Hone | exact Hsize]. }
  assert (forall ids counts,
            counts_are_lengths ids counts ->
            ids !! "s3_buckets" = Some ["test-bucket"; "test-bucket"] ->
            counts !! "s3_deleted" = Some 1%Z -> False) as Hcounts.
  { intros ids counts (_ & Hs & _) Hids Hone.
    unfold AWS.get_or_empty in Hs. rewrite Hids, Hone in Hs. discriminate. }
  assert (forall w, all_registries_empty w ->
                    size (EC2.instances (AWS.ec2 w)) = 1 -> False) as Hempty.
  { intros w (He & _) Hsize. rewrite He, map_size_empty in Hsize. discriminate. }
  split; [|split].
  - intros (ids & counts & w & [Hc _] & Hids & Hone & _)%Hrun. by eapply Hcounts.
  - intros (ids & counts & w & Hc & Hids & Hone & _)%Hrun. by eapply Hcounts.
  - intros (ids & counts & w & He & _ & _ & Hsize)%Hrun. by eapply Hempty.
Qed.

(* ===================================================================== *)
(** * Provisioning *)
(* ===================================================================== *)

Lemma map_each_nil_inv {S A B : Type} (f : A -> Py S B) (s s' : S) (bs : list B) :
  map_each f [] s = Return bs s' -> bs = [] /\ s' = s.
Proof. by intros [= <- <-]. Qed.

(** C6, as the code has it.  [provision_infrastructure] never raises and
    runs the four batches of creations in the order compute, storage,
    database, function, each batch in input order; a key that is absent is
    an empty batch that changes nothing.  The list returned for a kind has
    the length of the kind's input list: for storage, database and function
    it is the list of the supplied identifiers, in order, and for compute
    the i-th identifier names the instance built from the i-th parameter
    map when the generated identifiers are pairwise distinct.  A registry
    grows by the length of its input list when the identifiers returned for
    the kind are pairwise distinct and none was registered before. *)
Theorem provision_fan_out (cfg : AWS.infrastructure_config) (amb : Ambient)
    (w : AWS.AWSAutomation) :
  exists e s r l amb' w',
    AWS.provision_infrastructure cfg (amb, w)
      = Return (provision_results e s r l) (amb', w') /\
    kinds_in_order cfg amb w e s r l amb' w' /\
    (AWS.cfg_ec2 cfg = None -> e = [] /\ AWS.ec2 w' = AWS.ec2 w) /\
    (AWS.cfg_s3 cfg = None -> s = [] /\ AWS.s3 w' = AWS.s3 w) /\
    (AWS.cfg_rds cfg = None -> r = [] /\ AWS.rds w' = AWS.rds w) /\
    (AWS.cfg_lambda cfg = None -> l = [] /\ AWS.lambda_mgr w' = AWS.lambda_mgr w) /\
    length e = length (default [] (AWS.cfg_ec2 cfg)) /\
    s = map S3.kw_bucket_name (default [] (AWS.cfg_s3 cfg)) /\
    r = map RDS.kw_db_instance_identifier (default [] (AWS.cfg_rds cfg)) /\
    l = map Lambda.kw_function_name (default [] (AWS.cfg_lambda cfg)) /\
    (NoDup e ->
     compute_in_input_order (default [] (AWS.cfg_ec2 cfg)) e (EC2.instances (AWS.ec2 w'))) /\
    (new_identifiers e (EC2.instances (AWS.ec2 w)) ->
     grown_by (length (default [] (AWS.cfg_ec2 cfg)))
              (EC2.instances (AWS.ec2 w)) (EC2.instances (AWS.ec2 w'))) /\
    (new_identifiers s (S3.buckets (AWS.s3 w)) ->
     grown_by (length (default [] (AWS.cfg_s3 cfg)))
              (S3.buckets (AWS.s3 w)) (S3.buckets (AWS.s3 w'))) /\
    (new_identifiers r (RDS.instances (AWS.rds w)) ->
     grown_by (length (default [] (AWS.cfg_rds cfg)))
              (RDS.instances (AWS.rds w)) (RDS.instances (AWS.rds w'))) /\
    (new_identifiers l (Lambda.functions (AWS.lambda_mgr w)) ->
     grown_by (length (default [] (AWS.cfg_lambda cfg)))
              (Lambda.functions (AWS.lambda_mgr w)) (Lambda.functions (AWS.lambda_mgr w'))).
Proof.
  destruct (provision_characterised cfg amb w)
    as (e & s & r & l & amb1 & amb2 & amb3 & amb4 & w' & Hprov & He & Hs & Hr & Hl & _).
  exists e, s, r, l, amb4, w'. split; [exact Hprov|].
  split; [by exists amb1, amb2, amb3|].
  split; [|split; [|split; [|split]]].
  - intros Hnone. rewrite Hnone in He. apply map_each_nil_inv in He as [-> [= _ ->]]. done.
  - intros Hnone. rewrite Hnone in Hs. apply map_each_nil_inv in Hs as [-> [= _ ->]]. done.
  - intros Hnone. rewrite Hnone in Hr. apply map_each_nil_inv in Hr as [-> [= _ ->]]. done.
  - intros Hnone. rewrite Hnone in Hl. apply map_each_nil_inv in Hl as [-> [= _ ->]]. done.
  - destruct (ec2_create_batch (default [] (AWS.cfg_ec2 cfg)) amb (AWS.ec2 w))
      as (e' & amb1' & m1 & He' & Hlen_e & _ & _ & Hord_e & Hsize_e).
    rewrite He in He'. injection He' as <- <- <-.
    destruct (s3_create_batch (default [] (AWS.cfg_s3 cfg)) amb1 (AWS.s3 w))
      as (amb2' & m2 & Hs' & _ & _ & _ & Hsize_s).
    rewrite Hs in Hs'. injection Hs' as -> <- <-.
    destruct (rds_create_batch (default [] (AWS.cfg_rds cfg)) amb2 (AWS.rds w))
      as (amb3' & m3 & Hr' & _ & _ & _ & Hsize_r).
    rewrite Hr in Hr'. injection Hr' as -> <- <-.
    destruct (lambda_create_batch (default [] (AWS.cfg_lambda cfg)) amb3 (AWS.lambda_mgr w))
      as (amb4' & m4 & Hl' & _ & _ & _ & Hsize_l).
    rewrite Hl in Hl'. injection Hl' as -> <- <-.
    split; [exact Hlen_e|]. split; [done|]. split; [done|]. split; [done|].
    split; [exact Hord_e|].
    unfold new_identifiers, grown_by.
    split; [|split; [|split]].
    + intros [? ?]. by apply Hsize_e.
    + intros [? ?]. by apply Hsize_s.
    + intros [? ?]. by apply Hsize_r.
    + intros [? ?]. by apply Hsize_l.
Qed.

Lemma provision_fan_out_witness :
  after_provision sample_config (sample_ambient, AWS.init true)
    (fun ids w w' =>
       length (AWS.get_or_empty ids "ec2_instances") = 2 /\
       length (AWS.get_or_empty ids "s3_buckets") = 1 /\
       length (AWS.get_or_empty ids "rds_instances") = 1 /\
       length (AWS.get_or_empty ids "lambda_functions") = 1 /\
       registries_grown sample_config w w').
Proof.
  destruct (provision_fan_out sample_config sample_ambient (AWS.init true))
    as (e & s & r & l & amb' & w' & Hprov & _ & _ & _ & _ & _ & Hlen & -> & -> & ->
        & _ & Hgrow_e & Hgrow_s & Hgrow_r & Hgrow_l).
  assert (observed (fun ids _ => AWS.get_or_empty ids "ec2_instances")
            (AWS.provision_infrastructure sample_config (sample_ambient, AWS.init true))
          = Some ["i-0123456789abcdefa"; "i-123456789abcdefab"]) as Hobs
    by (vm_compute; reflexivity).
  rewrite Hprov in Hobs. injection Hobs as He.
  rewrite (proj1 (provision_results_lookup _ _ _ _)) in He. subst e.
  eexists _, (amb', w'). split; [exact Hprov|].
  do 4 (split; [reflexivity|]).
  assert (forall (R : Type) (ids : list string),
            NoDup ids -> new_identifiers ids (∅ : gmap string R)) as Hfresh
    by (intros R ids Hnodup; split; [exact Hnodup | intros k _; apply lookup_empty]).
  split; [|split; [|split]].
  - apply Hgrow_e, Hfresh. by apply (bool_decide_unpack _).
  - apply Hgrow_s, Hfresh. apply NoDup_singleton.
  - apply Hgrow_r, Hfresh. apply NoDup_singleton.
  - apply Hgrow_l, Hfresh. apply NoDup_singleton.
Defined.

(** C6 as the specification words it fails when a bucket of the
    configuration is registered already, and when the generator repeats an
    identifier: provisioning two compute instances and the bucket
    "test-bucket" on an orchestrator that holds that bucket adds one compute
    record, not two, and no bucket. *)
Lemma provision_fan_out_counterexample :
  distinct_supplied_identifiers again_config /\
  ~ fan_out_as_stated again_config provisioned_once /\
  ~ after_provision again_config provisioned_once
      (fun _ w w' => grown_by 2 (EC2.instances (AWS.ec2 w)) (EC2.instances (AWS.ec2 w'))) /\
  ~ after_provision again_config provisioned_once
      (fun _ w w' => grown_by 1 (S3.buckets (AWS.s3 w)) (S3.buckets (AWS.s3 w'))).
Proof.
  assert (distinct_supplied_identifiers again_config) as Hdistinct.
  { split; [apply NoDup_singleton|]. split; apply NoDup_nil_2. }
  assert (size (EC2.instances (AWS.ec2 (snd provisioned_once))) = 0 /\
          size (S3.buckets (AWS.s3 (snd provisioned_once))) = 1) as [Hec2 Hs3]
    by (vm_compute; split; reflexivity).
  assert (forall post,
            after_provision again_config provisioned_once post ->
            exists ids w',
              post ids (snd provisioned_once) w' /\
              ids !! "ec2_instances"
                = Some ["i-0123456789abcdefa"; "i-0123456789abcdefa"] /\
              size (EC2.instances (AWS.ec2 w')) = 1 /\
              size (S3.buckets (AWS.s3 w')) = 1) as Hrun.
  { intros post (ids & st' & Hprov & Hpost).
    exists ids, (snd st'). split; [exact Hpost|].
    assert (observed (fun ids st => (ids !! "ec2_instances",
                                     size (EC2.instances (AWS.ec2 (snd st))),
                                     size (S3.buckets (AWS.s3 (snd st)))))
              (AWS.provision_infrastructure again_config provisioned_once)
            = Some (Some ["i-0123456789abcdefa"; "i-0123456789abcdefa"], 1, 1)) as Hobs
      by (vm_compute; reflexivity).
    rewrite Hprov in Hobs. injection Hobs as Hids He Hs.
    split; [exact Hids|]. split; [exact He | exact Hs]. }
  split; [exact Hdistinct|]. split; [|split].
  - intros Hstated. destruct (Hrun _ (Hstated Hdistinct)) as (ids & w' & Hgrown & _ & _ & Hs).
    destruct Hgrown as (_ & Hgrown & _). unfold grown_by in Hgrown.
    rewrite Hs, Hs3 in Hgrown. discriminate.
  - intros (ids & w' & Hgrown & _ & He & _)%Hrun. unfold grown_by in Hgrown.
    rewrite He, Hec2 in Hgrown. discriminate.
  - intros (ids & w' & Hgrown & _ & _ & Hs)%Hrun. unfold grown_by in Hgrown.
    rewrite Hs, Hs3 in Hgrown. discriminate.
Qed.

(* ===================================================================== *)
(** * The recorded size of a bucket *)
(* ===================================================================== *)

Lemma total_size_app (l1 l2 : list S3.Object) :
  total_size (l1 ++ l2) = (total_size l1 + total_size l2)%Z.
Proof.
  unfold total_size. induction l1 as [|o l1 IH]; cbn; [reflexivity|]. rewrite IH. lia.
Qed.

Lemma total_size_cons (o : S3.Object) (objs : list S3.Object) :
  total_size (o :: objs) = (S3.size o + total_size objs)%Z.
Proof. reflexivity. Qed.

(** The objects split into those stored under [key] and the others. *)
Lemma total_size_split (key : string) (objs : list S3.Object) :
  total_size objs =
  (total_size (filter (fun obj => S3.key obj <> key) objs)
   + total_size (stored_under key objs))%Z.
Proof.
  unfold stored_under. induction objs as [|o objs IH]; [reflexivity|].
  destruct (decide (S3.key o = key)) as [Heq|Hne].
  - rewrite (filter_cons_True (fun obj => S3.key obj = key)) by done.
    rewrite (filter_cons_False (fun obj => S3.key obj <> key)) by (intros H; by apply H).
    rewrite !total_size_cons. lia.
  - rewrite (filter_cons_False (fun obj => S3.key obj = key)) by done.
    rewrite (filter_cons_True (fun obj => S3.key obj <> key)) by done.
    rewrite !total_size_cons. lia.
Qed.

Lemma s3_put_object_eval (name key body : string) (md : option (gmap string string))
    (amb : Ambient) (m : S3.S3Manager) :
  match S3.buckets m !! name with
  | Some b =>
      exists obj amb',
        S3.put_object name key body md (amb, m) =
          Return true
            (amb', s3_with (<[name :=
                      S3.set_size_bytes (S3.size_bytes b + S3.size obj)
                        (S3.set_objects
                           (filter (fun o => S3.key o <> key) (S3.objects b) ++ [obj]) b)]>
                      (S3.buckets m)) m) /\
        S3.key obj = key /\
        S3.size obj = Z.of_nat (String.length body) /\
        S3.metadata obj = or_empty_dict md
  | None => S3.put_object name key body md (amb, m) = Return false (amb, m)
  end.
Proof.
  unfold S3.put_object, bind, on_snd, on_fst, get_state, getitem. cbn [fst snd].
  destruct (S3.buckets m !! name) as [b|] eqn:E; cbn; [|reflexivity].
  eexists (S3.mkObject _ _ _ _ _), _. split; [reflexivity|]. by repeat split.
Qed.

(** The element that the loop of [delete_object] finds is the one that
    [remove] drops. *)
Lemma remove_first_with_key (key : string) (objs : list S3.Object) (obj : S3.Object) :
  S3.first_with_key key objs = Some obj ->
  exists rest,
    list_remove obj objs = Some rest /\
    S3.key obj = key /\
    total_size objs = (S3.size obj + total_size rest)%Z /\
    length objs = S (length rest).
Proof.
  unfold S3.first_with_key.
  induction objs as [|o objs IH]; cbn [List.find list_remove]; [discriminate|].
  destruct (String.eqb (S3.key o) key) eqn:Q.
  - intros [= ->]. exists objs. rewrite decide_True by done.
    apply String.eqb_eq in Q. rewrite total_size_cons. by repeat split.
  - intros Hfind. destruct (IH Hfind) as (rest & Hrem & Hkey & Htotal & Hlen).
    apply String.eqb_neq in Q.
    rewrite decide_False by (intros ->; by apply Q).
    rewrite Hrem. exists (o :: rest). rewrite !total_size_cons. cbn [length].
    repeat split; [done|lia|lia].
Qed.

Lemma first_with_key_None (key : string) (objs : list S3.Object) :
  S3.first_with_key key objs = None <-> key ∉ map S3.key objs.
Proof.
  unfold S3.first_with_key. induction objs as [|o objs IH]; cbn.
  - split; [intros _; apply not_elem_of_nil | done].
  - destruct (String.eqb (S3.key o) key) eqn:Q.
    + apply String.eqb_eq in Q. split; [discriminate|].
      intros Hnot. destruct Hnot. apply elem_of_cons. by left.
    + apply String.eqb_neq in Q. rewrite IH. rewrite elem_of_cons. split.
      * intros Hnot [Heq|Hin]; [by apply Q | by apply Hnot].
      * intros Hnot Hin. apply Hnot. by right.
Qed.

Lemma s3_delete_object_eval (name key : string) (m : S3.S3Manager) :
  S3.delete_object name key m =
  match S3.buckets m !! name with
  | Some b =>
      match S3.first_with_key key (S3.objects b) with
      | Some obj =>
          match list_remove obj (S3.objects b) with
          | Some rest =>
              Return true
                (s3_with (<[name := S3.set_objects rest
                                      (S3.set_size_bytes (S3.size_bytes b - S3.size obj) b)]>
                            (S3.buckets m)) m)
          | None => Raise (ValueError "list.remove(x): x not in list")
          end
      | None => Return false m
      end
  | None => Return false m
  end.
Proof.
  unfold S3.delete_object, bind, get_state, getitem, remove.
  destruct (S3.buckets m !! name) as [b|] eqn:E; cbn; [|reflexivity].
  destruct (S3.first_with_key key (S3.objects b)) as [obj|]; [|reflexivity].
  cbn. by destruct (list_remove obj (S3.objects b)).
Qed.

(** X1. [delete_object] keeps the recorded size of a bucket equal to the sum of
    the byte lengths of its objects, whether the key is found or not. *)
Theorem delete_object_keeps_size (name key : string) (m : S3.S3Manager) (b : S3.Bucket) :
  S3.buckets m !! name = Some b ->
  size_is_total b ->
  exists ok m' b',
    S3.delete_object name key m = Return ok m' /\
    S3.buckets m' !! name = Some b' /\
    size_is_total b'.
Proof.
  intros Hreg Hinv. rewrite s3_delete_object_eval, Hreg.
  destruct (S3.first_with_key key (S3.objects b)) as [obj|] eqn:F.
  - destruct (remove_first_with_key key _ obj F) as (rest & -> & _ & Htotal & _).
    eexists _, _, _. split; [reflexivity|]. cbn. rewrite lookup_insert_eq.
    split; [reflexivity|]. unfold size_is_total in *.
    cbn [S3.size_bytes S3.objects S3.set_objects S3.set_size_bytes]. lia.
  - by exists false, m, b.
Qed.

Lemma delete_object_keeps_size_witness :
  exists b,
    S3.buckets sample_s3 !! "test-bucket" = Some b /\
    size_is_total b /\
    exists ok m' b',
      S3.delete_object "test-bucket" "file.txt" sample_s3 = Return ok m' /\
      S3.buckets m' !! "test-bucket" = Some b' /\
      size_is_total b'.
Proof.
  eassert (S3.buckets sample_s3 !! "test-bucket" = Some _) as Hreg
    by (vm_compute; reflexivity).
  eexists. split; [exact Hreg|]. split; [reflexivity|].
  apply (delete_object_keeps_size "test-bucket" "file.txt" sample_s3 _ Hreg).
  reflexivity.
Defined.

(** X2. [put_object] adds the new length to the recorded size and takes nothing
    off for what it replaces: afterwards the recorded size exceeds the sum
    of the sizes by the sizes of the objects that were stored under the
    key.  The two agree when no object was stored under the key. *)
Theorem put_object_size (name key body : string) (md : option (gmap string string))
    (amb : Ambient) (m : S3.S3Manager) (b : S3.Bucket) :
  S3.buckets m !! name = Some b ->
  size_is_total b ->
  exists amb' m' b',
    S3.put_object name key body md (amb, m) = Return true (amb', m') /\
    S3.buckets m' !! name = Some b' /\
    S3.size_bytes b'
      = (total_size (S3.objects b') + total_size (stored_under key (S3.objects b)))%Z.
Proof.
  intros Hreg Hinv. pose proof (s3_put_object_eval name key body md amb m) as Hput.
  rewrite Hreg in Hput. destruct Hput as (obj & amb' & Hrun & _ & _ & _).
  eexists _, _, _. split; [exact Hrun|]. cbn. rewrite lookup_insert_eq.
  split; [reflexivity|]. unfold size_is_total in Hinv.
  cbn [S3.size_bytes S3.objects S3.set_objects S3.set_size_bytes].
  rewrite Hinv, total_size_app, (total_size_split key (S3.objects b)).
  rewrite total_size_cons. unfold total_size at 4. cbn [foldr]. lia.
Qed.

Lemma put_object_size_witness :
  exists b,
    S3.buckets sample_s3 !! "test-bucket" = Some b /\
    size_is_total b /\
    total_size (stored_under "file.txt" (S3.objects b)) = 7%Z /\
    exists amb' m' b',
      S3.put_object "test-bucket" "file.txt" "Hello" None (sample_ambient, sample_s3)
        = Return true (amb', m') /\
      S3.buckets m' !! "test-bucket" = Some b' /\
      S3.size_bytes b' = (total_size (S3.objects b') + 7)%Z.
Proof.
  eassert (S3.buckets sample_s3 !! "test-bucket" = Some _) as Hreg
    by (vm_compute; reflexivity).
  eexists. split; [exact Hreg|]. split; [reflexivity|]. split; [reflexivity|].
  apply (put_object_size "test-bucket" "file.txt" "Hello" None sample_ambient sample_s3 _ Hreg).
  reflexivity.
Defined.

(** C1 fails on the code.  After [put_object("test-bucket", "file.txt",
    "Hello")] and [put_object("test-bucket", "file.txt", "Hello World")] the
    bucket holds one object of 11 bytes and records [size_bytes] = 16: the
    5 bytes of the object that was overwritten are still counted. *)
Theorem overwrite_leaves_stale_size :
  observed (fun _ st => size_report "test-bucket" (snd st))
           (overwriting_puts (sample_ambient, S3.init true))
  = Some (Some (16%Z, 11%Z, 1)).
Proof. vm_compute. reflexivity. Qed.

(* ===================================================================== *)
(** * No call raises *)
(* ===================================================================== *)

Lemma state_guard {R : Type} (state : R -> string) (o : option R) (s : string) :
  bool_decide (state <$> o = Some s)
  = match o with Some r => String.eqb (state r) s | None => false end.
Proof.
  destruct o as [r|]; cbn; [|done].
  destruct (String.eqb (state r) s) eqn:Q.
  - apply String.eqb_eq in Q. apply bool_decide_eq_true_2. by rewrite Q.
  - apply String.eqb_neq in Q. apply bool_decide_eq_false_2. by intros [=].
Qed.

Lemma lambda_update_code_eval (name : string) (code : option string) (amb : Ambient)
    (m : Lambda.LambdaManager) :
  match Lambda.functions m !! name with
  | Some f =>
      exists f' amb',
        Lambda.update_function_code name code (amb, m) =
          Return true (amb', lambda_with (<[name := f']> (Lambda.functions m)) m) /\
        Lambda.code_size f' = Lambda.len_code_or code (Lambda.code_size f)
  | None => Lambda.update_function_code name code (amb, m) = Return false (amb, m)
  end.
Proof.
  destruct (Lambda.functions m !! name) as [f|] eqn:E.
  - unfold Lambda.update_function_code.
    unfold bind at 1. unfold on_snd at 1, get_state. cbn [fst snd]. rewrite E.
    cbn [bool_decide decide_rel is_Some_dec negb].
    unfold bind at 1. unfold getitem. rewrite E. unfold ret at 1.
    unfold Lambda.fresh_sha256. unfold bind at 1. unfold on_fst at 1. unfold bind at 1.
    cbn [fst snd].
    destruct (choices_returns hexdigits 64 amb) as (digest & amb1 & ->).
    cbn. eexists _, _. split; reflexivity.
  - unfold Lambda.update_function_code, bind, on_snd, get_state. cbn [fst snd].
    by rewrite E.
Qed.

Lemma lambda_update_configuration_eval (name : string) (timeout memory_size : option Z)
    (environment : option (gmap string string)) (amb : Ambient) (m : Lambda.LambdaManager) :
  match Lambda.functions m !! name with
  | Some f =>
      exists f' amb',
        Lambda.update_function_configuration name timeout memory_size environment (amb, m) =
          Return true (amb', lambda_with (<[name := f']> (Lambda.functions m)) m) /\
        Lambda.timeout f' = default (Lambda.timeout f) timeout /\
        Lambda.memory_size f' = default (Lambda.memory_size f) memory_size /\
        Lambda.environment f' = default (Lambda.environment f) environment
  | None =>
      Lambda.update_function_configuration name timeout memory_size environment (amb, m)
        = Return false (amb, m)
  end.
Proof.
  unfold Lambda.update_function_configuration, bind, on_snd, on_fst, get_state, getitem.
  cbn [fst snd].
  destruct (Lambda.functions m !! name) as [f|] eqn:E; cbn; [|reflexivity].
  eexists _, _. split; [reflexivity|]. by repeat split.
Qed.

(** Unfolds a call down to the method of the manager it runs. *)
Ltac run_call :=
  unfold signals, run, bind, AWS.on_ec2, AWS.on_s3, AWS.on_rds, AWS.on_lambda, on_snd;
  cbn [fst snd].

(** Closes the goal for an answer that is no boolean. *)
Ltac not_a_bool := intros ? [=].

Lemma ec2_calls_signal (c : call) (st : Ambient * AWS.AWSAutomation) :
  match c with
  | Ec2_create_instance _ | Ec2_terminate_instance _ | Ec2_stop_instance _
  | Ec2_start_instance _ | Ec2_get_instance_info _ | Ec2_list_instances _
  | Ec2_tag_instance _ _ => signals c st
  | _ => True
  end.
Proof.
  destruct st as [amb w]. destruct c; try exact I.
  - (* create_instance *)
    run_call. destruct (ec2_create_eval a amb (AWS.ec2 w)) as (info & amb' & -> & _).
    eexists _, _. split; [reflexivity|]. split; [discriminate | not_a_bool].
  - (* terminate_instance *)
    run_call. rewrite ec2_terminate_eval. unfold fails, unknown.
    destruct (EC2.instances (AWS.ec2 w) !! instance_id) as [info|];
      eexists _, _; (split; [reflexivity|]); cbn; (split; [done|by intros ? [= <-]]).
  - (* stop_instance *)
    run_call. rewrite ec2_stop_eval. unfold fails, ec2_state_of. rewrite state_guard.
    destruct (EC2.instances (AWS.ec2 w) !! instance_id) as [info|];
      [destruct (String.eqb (EC2.state info) "running")|];
      eexists _, _; (split; [reflexivity|]); cbn; (split; [done|by intros ? [= <-]]).
  - (* start_instance *)
    run_call. rewrite ec2_start_eval. unfold fails, ec2_state_of. rewrite state_guard.
    destruct (EC2.instances (AWS.ec2 w) !! instance_id) as [info|];
      [destruct (String.eqb (EC2.state info) "stopped")|];
      eexists _, _; (split; [reflexivity|]); cbn; (split; [done|by intros ? [= <-]]).
  - (* get_instance_info *)
    run_call. unfold EC2.get_instance_info, fails, unknown. py_unfold.
    eexists _, _. split; [reflexivity|].
    split; [|not_a_bool]. by destruct (EC2.instances (AWS.ec2 w) !! instance_id).
  - (* list_instances *)
    run_call. unfold EC2.list_instances. py_unfold.
    destruct state as [s|]; [destruct (truthy_str s)|];
      eexists _, _; (split; [reflexivity|]); (split; [discriminate | not_a_bool]).
  - (* tag_instance *)
    run_call. unfold EC2.tag_instance, fails, unknown. py_unfold.
    destruct (EC2.instances (AWS.ec2 w) !! instance_id) as [info|];
      eexists _, _; (split; [reflexivity|]); cbn; (split; [done|by intros ? [= <-]]).
Qed.

Lemma s3_calls_signal (c : call) (st : Ambient * AWS.AWSAutomation) :
  match c with
  | S3_create_bucket _ | S3_delete_bucket _ _ | S3_put_object _ _ _ _
  | S3_delete_object _ _ | S3_list_buckets | S3_list_objects _ _
  | S3_get_bucket_info _ | S3_enable_versioning _ => signals c st
  | _ => True
  end.
Proof.
  destruct st as [amb w]. destruct c; try exact I.
  - (* create_bucket *)
    run_call. destruct (s3_create_eval a amb (AWS.s3 w)) as [Hold Hnew].
    destruct (S3.buckets (AWS.s3 w) !! S3.arg_bucket_name a) as [b|].
    + rewrite (Hold b eq_refl). eexists _, _. split; [reflexivity|].
      split; [discriminate | not_a_bool].
    + destruct (Hnew eq_refl) as (b & amb' & -> & _). eexists _, _.
      split; [reflexivity|]. split; [discriminate | not_a_bool].
  - (* delete_bucket *)
    run_call. rewrite s3_delete_bucket_eval. unfold fails.
    destruct (S3.buckets (AWS.s3 w) !! bucket_name) as [b|];
      [destruct (negb (bool_decide (S3.objects b = [])) && negb force)|];
      eexists _, _; (split; [reflexivity|]); cbn; (split; [done|by intros ? [= <-]]).
  - (* put_object *)
    run_call. pose proof (s3_put_object_eval bucket_name key body metadata amb (AWS.s3 w))
      as Hput. unfold fails, unknown.
    destruct (S3.buckets (AWS.s3 w) !! bucket_name) as [b|].
    + destruct Hput as (obj & amb' & -> & _). eexists _, _. split; [reflexivity|].
      cbn. split; [done|by intros ? [= <-]].
    + rewrite Hput. eexists _, _. split; [reflexivity|].
      cbn. split; [done|by intros ? [= <-]].
  - (* delete_object *)
    run_call. rewrite s3_delete_object_eval. unfold fails.
    destruct (S3.buckets (AWS.s3 w) !! bucket_name) as [b|].
    + destruct (S3.first_with_key key (S3.objects b)) as [obj|] eqn:F.
      * destruct (remove_first_with_key key _ obj F) as (rest & -> & _).
        eexists _, _. split; [reflexivity|].
        assert (bool_decide (key ∈ map S3.key (S3.objects b)) = true) as ->.
        { apply bool_decide_eq_true_2. destruct (decide (key ∈ map S3.key (S3.objects b)))
            as [Hin|Hnot]; [done|]. apply first_with_key_None in Hnot. congruence. }
        cbn. split; [done|by intros ? [= <-]].
      * eexists _, _. split; [reflexivity|].
        rewrite bool_decide_eq_false_2 by (by apply first_with_key_None).
        cbn. split; [done|by intros ? [= <-]].
    + eexists _, _. split; [reflexivity|]. cbn. split; [done|by intros ? [= <-]].
  - (* list_buckets *)
    run_call. unfold S3.list_buckets. py_unfold.
    eexists _, _. split; [reflexivity|]. split; [discriminate | not_a_bool].
  - (* list_objects *)
    run_call. unfold S3.list_objects, fails, unknown. py_unfold.
    destruct (S3.buckets (AWS.s3 w) !! bucket_name) as [b|]; cbn;
      [match goal with |- context [truthy_str ?p] => destruct (truthy_str p) end|];
      eexists _, _; (split; [reflexivity|]); (split; [done | not_a_bool]).
  - (* get_bucket_info *)
    run_call. unfold S3.get_bucket_info, fails, unknown. py_unfold.
    eexists _, _. split; [reflexivity|].
    split; [|not_a_bool]. by destruct (S3.buckets (AWS.s3 w) !! bucket_name).
  - (* enable_versioning *)
    run_call. unfold S3.enable_versioning, fails, unknown. py_unfold.
    destruct (S3.buckets (AWS.s3 w) !! bucket_name) as [b|];
      eexists _, _; (split; [reflexivity|]); cbn; (split; [done|by intros ? [= <-]]).
Qed.

Lemma rds_calls_signal (c : call) (st : Ambient * AWS.AWSAutomation) :
  match c with
  | Rds_create_instance _ | Rds_delete_instance _ _ _ | Rds_stop_instance _
  | Rds_start_instance _ | Rds_create_snapshot _ _ | Rds_get_instance_info _
  | Rds_list_instances _ | Rds_modify_instance _ _ _ _ => signals c st
  | _ => True
  end.
Proof.
  destruct st as [amb w]. destruct c; try exact I.
  - (* create_instance *)
    run_call. destruct (rds_create_eval a amb (AWS.rds w)) as [Hold Hnew].
    destruct (RDS.instances (AWS.rds w) !! RDS.arg_db_instance_identifier a) as [i|].
    + rewrite (Hold i eq_refl). eexists _, _. split; [reflexivity|].
      split; [discriminate | not_a_bool].
    + destruct (Hnew eq_refl) as (i & amb' & -> & _). eexists _, _.
      split; [reflexivity|]. split; [discriminate | not_a_bool].
  - (* delete_instance *)
    run_call. rewrite rds_delete_eval. unfold fails, unknown.
    destruct (RDS.instances (AWS.rds w) !! id) as [info|];
      eexists _, _; (split; [reflexivity|]); cbn; (split; [done|by intros ? [= <-]]).
  - (* stop_instance *)
    run_call. rewrite rds_stop_eval. unfold fails, rds_status_of. rewrite state_guard.
    destruct (RDS.instances (AWS.rds w) !! id) as [info|];
      [destruct (String.eqb (RDS.status info) "available")|];
      eexists _, _; (split; [reflexivity|]); cbn; (split; [done|by intros ? [= <-]]).
  - (* start_instance *)
    run_call. rewrite rds_start_eval. unfold fails, rds_status_of. rewrite state_guard.
    destruct (RDS.instances (AWS.rds w) !! id) as [info|];
      [destruct (String.eqb (RDS.status info) "stopped")|];
      eexists _, _; (split; [reflexivity|]); cbn; (split; [done|by intros ? [= <-]]).
  - (* create_snapshot *)
    run_call. unfold RDS.create_snapshot, fails, unknown. py_unfold.
    destruct (RDS.instances (AWS.rds w) !! id) as [info|];
      eexists _, _; (split; [reflexivity|]); cbn; (split; [done | not_a_bool]).
  - (* get_instance_info *)
    run_call. unfold RDS.get_instance_info, fails, unknown. py_unfold.
    eexists _, _. split; [reflexivity|].
    split; [|not_a_bool]. by destruct (RDS.instances (AWS.rds w) !! id).
  - (* list_instances *)
    run_call. unfold RDS.list_instances. py_unfold.
    destruct engine as [e|]; [destruct (truthy_str e)|];
      eexists _, _; (split; [reflexivity|]); (split; [discriminate | not_a_bool]).
  - (* modify_instance *)
    run_call. rewrite rds_modify_eval. unfold fails, unknown.
    destruct (RDS.instances (AWS.rds w) !! id) as [info|];
      eexists _, _; (split; [reflexivity|]); cbn; (split; [done|by intros ? [= <-]]).
Qed.

Lemma lambda_calls_signal (c : call) (st : Ambient * AWS.AWSAutomation) :
  match c with
  | Lambda_create_function _ | Lambda_delete_function _ | Lambda_invoke_function _ _ _
  | Lambda_update_function_code _ _ | Lambda_update_function_configuration _ _ _ _
  | Lambda_get_function_info _ | Lambda_list_functions
  | Lambda_add_permission _ _ _ _ => signals c st
  | _ => True
  end.
Proof.
  destruct st as [amb w]. destruct c; try exact I.
  - (* create_function *)
    run_call. destruct (lambda_create_eval a amb (AWS.lambda_mgr w)) as [Hold Hnew].
    destruct (Lambda.functions (AWS.lambda_mgr w) !! Lambda.arg_function_name a) as [f|].
    + rewrite (Hold f eq_refl). eexists _, _. split; [reflexivity|].
      split; [discriminate | not_a_bool].
    + destruct (Hnew eq_refl) as (f & amb' & -> & _). eexists _, _.
      split; [reflexivity|]. split; [discriminate | not_a_bool].
  - (* delete_function *)
    run_call. rewrite lambda_delete_eval. unfold fails, unknown.
    destruct (Lambda.functions (AWS.lambda_mgr w) !! function_name) as [f|];
      eexists _, _; (split; [reflexivity|]); cbn; (split; [done|by intros ? [= <-]]).
  - (* invoke_function *)
    run_call. unfold Lambda.invoke_function, fails, unknown. py_unfold.
    destruct (Lambda.functions (AWS.lambda_mgr w) !! function_name) as [f|];
      eexists _, _; (split; [reflexivity|]); cbn; (split; [done | not_a_bool]).
  - (* update_function_code *)
    run_call.
    pose proof (lambda_update_code_eval function_name code amb (AWS.lambda_mgr w)) as Hupd.
    unfold fails, unknown.
    destruct (Lambda.functions (AWS.lambda_mgr w) !! function_name) as [f|].
    + destruct Hupd as (f' & amb' & -> & _). eexists _, _. split; [reflexivity|].
      cbn. split; [done|by intros ? [= <-]].
    + rewrite Hupd. eexists _, _. split; [reflexivity|].
      cbn. split; [done|by intros ? [= <-]].
  - (* update_function_configuration *)
    run_call.
    pose proof (lambda_update_configuration_eval function_name timeout memory_size
                  environment amb (AWS.lambda_mgr w)) as Hupd.
    unfold fails, unknown.
    destruct (Lambda.functions (AWS.lambda_mgr w) !! function_name) as [f|].
    + destruct Hupd as (f' & amb' & -> & _). eexists _, _. split; [reflexivity|].
      cbn. split; [done|by intros ? [= <-]].
    + rewrite Hupd. eexists _, _. split; [reflexivity|].
      cbn. split; [done|by intros ? [= <-]].
  - (* get_function_info *)
    run_call. unfold Lambda.get_function_info, fails, unknown. py_unfold.
    eexists _, _. split; [reflexivity|].
    split; [|not_a_bool]. by destruct (Lambda.functions (AWS.lambda_mgr w) !! function_name).
  - (* list_functions *)
    run_call. unfold Lambda.list_functions. py_unfold.
    eexists _, _. split; [reflexivity|]. split; [discriminate | not_a_bool].
  - (* add_permission *)
    run_call. unfold Lambda.add_permission, fails, unknown. py_unfold.
    destruct (Lambda.functions (AWS.lambda_mgr w) !! function_name) as [f|];
      eexists _, _; (split; [reflexivity|]); cbn; (split; [done|by intros ? [= <-]]).
Qed.

Lemma every_call_signals (c : call) (st : Ambient * AWS.AWSAutomation) : signals c st.
Proof.
  pose proof (ec2_calls_signal c st) as Hec2.
  pose proof (s3_calls_signal c st) as Hs3.
  pose proof (rds_calls_signal c st) as Hrds.
  pose proof (lambda_calls_signal c st) as Hlambda.
  destruct c; assumption.
Qed.

(** A batch of deletions goes through every identifier, found or not. *)
Lemma destroy_completes (resource_ids : gmap string (list string)) (amb : Ambient)
    (w : AWS.AWSAutomation) :
  exists counts w',
    AWS.destroy_infrastructure resource_ids (amb, w) = Return counts (amb, w') /\
    batch_completed resource_ids w w'.
Proof.
  destruct (destroy_characterised resource_ids amb w)
    as (oe & os & od & ol & w' & Hrun & He & Hs & Hr & Hl & _).
  eexists _, w'. split; [exact Hrun|].
  destruct (ec2_terminate_batch (AWS.get_or_empty resource_ids "ec2_instances") (AWS.ec2 w))
    as (m1 & He' & _ & Hlook_e).
  rewrite He in He'. injection He' as _ <-.
  destruct (s3_delete_batch (AWS.get_or_empty resource_ids "s3_buckets") (AWS.s3 w))
    as (os' & m2 & Hs' & Hlook_s & _).
  rewrite Hs in Hs'. injection Hs' as _ <-.
  destruct (rds_delete_batch (AWS.get_or_empty resource_ids "rds_instances") (AWS.rds w))
    as (od' & m3 & Hr' & Hlook_r & _).
  rewrite Hr in Hr'. injection Hr' as _ <-.
  destruct (lambda_delete_batch (AWS.get_or_empty resource_ids "lambda_functions")
              (AWS.lambda_mgr w)) as (ol' & m4 & Hl' & Hlook_l & _).
  rewrite Hl in Hl'. injection Hl' as _ <-.
  split; [|split; [|split]].
  - intros id Hid [info Hinfo]. unfold ec2_state_of.
    rewrite Hlook_e, bool_decide_eq_true_2, Hinfo by done. reflexivity.
  - intros name b Hname Hb Hempty.
    rewrite Hlook_s, bool_decide_eq_true_2 by done.
    unfold survivor. rewrite Hb. by rewrite bool_decide_eq_true_2.
  - intros id Hid. by rewrite Hlook_r, bool_decide_eq_true_2.
  - intros name Hname. by rewrite Hlook_l, bool_decide_eq_true_2.
Qed.

(** C8, as the code has it.  No call of a manager raises, whatever its
    arguments and whatever the registries hold.  A call that fails, because
    the identifier is not found or the state does not allow the operation,
    returns [False], [None] or an empty list, except [invoke_function],
    which returns the dictionary [{"error": "Function not found"}]; a call
    that returns a boolean returns [True] exactly when it does not fail.
    [destroy_infrastructure] never raises either, and goes through every
    identifier of its lists: an identifier that is not found stops
    nothing. *)
Theorem calls_never_raise :
  (forall (c : call) (st : Ambient * AWS.AWSAutomation), signals c st) /\
  (forall (resource_ids : gmap string (list string)) (amb : Ambient)
          (w : AWS.AWSAutomation),
     exists counts w',
       AWS.destroy_infrastructure resource_ids (amb, w) = Return counts (amb, w') /\
       batch_completed resource_ids w w').
Proof.
  split.
  - exact every_call_signals.
  - exact destroy_completes.
Qed.

(** C8 as the specification words it fails for [invoke_function] on a
    function that is not registered: the call fails, and what it returns is
    a dictionary with one entry, which is neither [False], nor [None], nor
    empty. *)
Lemma calls_never_raise_counterexample :
  ~ signals_as_stated (Lambda_invoke_function "missing" None "RequestResponse")
      (sample_ambient, AWS.init true).
Proof.
  intros (a & st' & Hrun & Hsignal).
  destruct (lambda_calls_signal (Lambda_invoke_function "missing" None "RequestResponse")
              (sample_ambient, AWS.init true)) as (a' & st'' & Hrun' & Hfail & _).
  rewrite Hrun in Hrun'. injection Hrun' as <- _.
  rewrite (Hfail eq_refl) in Hsignal. specialize (Hsignal eq_refl).
  discriminate Hsignal.
Qed.

(* ===================================================================== *)
(** * Objects of a bucket *)
(* ===================================================================== *)

Lemma stored_under_app (k : string) (l1 l2 : list S3.Object) :
  stored_under k (l1 ++ l2)%list = (stored_under k l1 ++ stored_under k l2)%list.
Proof. unfold stored_under. apply filter_app. Qed.

Lemma stored_under_none (k : string) (objs : list S3.Object) :
  k ∉ object_keys objs <-> stored_under k objs = [].
Proof.
  unfold stored_under, object_keys. induction objs as [|o objs IH]; cbn [map].
  - split; [done | intros _; apply not_elem_of_nil].
  - destruct (decide (S3.key o = k)) as [Heq|Hne].
    + rewrite filter_cons_True by done. split; [|done].
      intros Hnot. destruct Hnot. apply elem_of_cons. by left.
    + rewrite filter_cons_False by done. rewrite <- IH, elem_of_cons. split.
      * intros Hnot Hin. apply Hnot. by right.
      * intros Hnot [Heq|Hin]; [by apply Hne | by apply Hnot].
Qed.

Lemma stored_under_others (k k' : string) (objs : list S3.Object) :
  k' <> k ->
  stored_under k' (filter (fun o => S3.key o <> k) objs) = stored_under k' objs.
Proof.
  intros Hne. unfold stored_under. induction objs as [|o objs IH]; [reflexivity|].
  destruct (decide (S3.key o = k)) as [Heq|Hne'].
  - rewrite (filter_cons_False (fun o => S3.key o <> k)) by (intros H; by apply H).
    rewrite (filter_cons_False (fun o => S3.key o = k')) by congruence. exact IH.
  - rewrite (filter_cons_True (fun o => S3.key o <> k)) by done.
    destruct (decide (S3.key o = k')) as [Heq'|Hne''].
    + rewrite !(filter_cons_True (fun o => S3.key o = k')) by done. by rewrite IH.
    + rewrite !(filter_cons_False (fun o => S3.key o = k')) by done. exact IH.
Qed.

Lemma stored_under_replaced (k : string) (objs : list S3.Object) :
  stored_under k (filter (fun o => S3.key o <> k) objs) = [].
Proof.
  unfold stored_under. apply filter_none.
  intros o [Hne _]%list_elem_of_filter Heq. by apply Hne.
Qed.

Lemma object_keys_app (l1 l2 : list S3.Object) :
  object_keys (l1 ++ l2)%list = (object_keys l1 ++ object_keys l2)%list.
Proof. unfold object_keys. apply map_app. Qed.

Lemma object_keys_elem (k : string) (objs : list S3.Object) :
  k ∈ object_keys objs <-> exists o, o ∈ objs /\ S3.key o = k.
Proof.
  unfold object_keys. induction objs as [|o objs IH]; cbn [map].
  - split; [by intros ?%elem_of_nil | by intros (o & ?%elem_of_nil & _)].
  - rewrite elem_of_cons, IH. split.
    + intros [->|(o' & Hin & Hk)].
      * exists o. split; [apply elem_of_cons; by left | done].
      * exists o'. split; [apply elem_of_cons; by right | done].
    + intros (o' & [->|Hin]%elem_of_cons & Hk); [by left|].
      right. by exists o'.
Qed.

Lemma object_keys_filter_NoDup (P : S3.Object -> Prop) `{forall o, Decision (P o)}
    (objs : list S3.Object) :
  NoDup (object_keys objs) -> NoDup (object_keys (filter P objs)).
Proof.
  unfold object_keys. induction objs as [|o objs IH]; cbn [map]; [done|].
  intros [Hhead Htail]%NoDup_cons. destruct (decide (P o)).
  - rewrite filter_cons_True by done. cbn [map]. apply NoDup_cons. split; [|by apply IH].
    intros (o' & [_ Hin]%list_elem_of_filter & Hk)%object_keys_elem.
    apply Hhead, object_keys_elem. by exists o'.
  - rewrite filter_cons_False by done. by apply IH.
Qed.

(** The object that the loop of [delete_object] finds splits the list: the
    objects before it have other keys, and [remove] drops it and nothing
    else. *)
Lemma first_with_key_split (k : string) (objs : list S3.Object) (obj : S3.Object) :
  S3.first_with_key k objs = Some obj ->
  exists l1 l2,
    objs = (l1 ++ obj :: l2)%list /\
    list_remove obj objs = Some (l1 ++ l2)%list /\
    S3.key obj = k /\
    k ∉ object_keys l1.
Proof.
  unfold S3.first_with_key.
  induction objs as [|o objs IH]; cbn [List.find list_remove]; [discriminate|].
  destruct (String.eqb (S3.key o) k) eqn:Q.
  - intros [= ->]. exists [], objs. rewrite decide_True by done.
    apply String.eqb_eq in Q. split; [done|]. split; [done|]. split; [done|].
    apply not_elem_of_nil.
  - intros Hfind. destruct (IH Hfind) as (l1 & l2 & -> & Hrem & Hkey & Hnot).
    apply String.eqb_neq in Q.
    rewrite decide_False by (intros ->; by apply Q).
    rewrite Hrem. exists (o :: l1), l2. split; [done|]. split; [done|]. split; [done|].
    unfold object_keys. cbn [map]. rewrite elem_of_cons.
    intros [Heq|Hin]; [by apply Q | by apply Hnot].
Qed.

(** X3. [put_object] on a registered bucket returns [True]; afterwards the
    bucket holds exactly one object under the key, the new one, last in the
    list, with the length of the body as its size; the objects under every
    other key, the settings of the bucket and every other bucket are as
    they were; and keys that were pairwise distinct still are. *)
Theorem put_object_replaces (name key body : string) (md : option (gmap string string))
    (amb : Ambient) (m : S3.S3Manager) (b : S3.Bucket) :
  S3.buckets m !! name = Some b ->
  exists obj amb' m' b',
    S3.put_object name key body md (amb, m) = Return true (amb', m') /\
    S3.buckets m' !! name = Some b' /\
    stored_under key (S3.objects b') = [obj] /\
    last (S3.objects b') = Some obj /\
    S3.key obj = key /\
    S3.size obj = Z.of_nat (String.length body) /\
    S3.metadata obj = or_empty_dict md /\
    (forall k, k <> key ->
       stored_under k (S3.objects b') = stored_under k (S3.objects b)) /\
    same_bucket_settings b' b /\
    (forall other, other <> name -> S3.buckets m' !! other = S3.buckets m !! other) /\
    (NoDup (object_keys (S3.objects b)) -> NoDup (object_keys (S3.objects b'))).
Proof.
  intros Hreg. pose proof (s3_put_object_eval name key body md amb m) as Hput.
  rewrite Hreg in Hput. destruct Hput as (obj & amb' & Hrun & Hkey & Hsize & Hmd).
  eexists obj, amb', _, _. split; [exact Hrun|].
  cbn [S3.buckets s3_with]. rewrite lookup_insert_eq. split; [reflexivity|].
  cbn [S3.objects S3.set_objects S3.set_size_bytes].
  split; [|split; [|split; [|split; [|split; [|split; [|split; [|split]]]]]]].
  - rewrite stored_under_app, stored_under_replaced. unfold stored_under.
    by rewrite filter_cons_True.
  - apply last_snoc.
  - exact Hkey.
  - exact Hsize.
  - exact Hmd.
  - intros k Hk. rewrite stored_under_app, stored_under_others by done.
    unfold stored_under at 2. rewrite filter_cons_False by congruence.
    apply app_nil_r.
  - by repeat split.
  - intros other Hother. by apply lookup_insert_ne.
  - intros Hnodup. rewrite object_keys_app. apply NoDup_app.
    split; [by apply object_keys_filter_NoDup|]. split.
    + intros k (o & [Hne _]%list_elem_of_filter & Hk)%object_keys_elem.
      unfold object_keys. cbn [map]. rewrite Hkey. intros [->|[]%elem_of_nil]%elem_of_cons.
      by apply Hne.
    + unfold object_keys. cbn [map]. apply NoDup_singleton.
Qed.

Lemma put_object_replaces_witness :
  exists b,
    S3.buckets sample_s3 !! "test-bucket" = Some b /\
    exists obj amb' m' b',
      S3.put_object "test-bucket" "file.txt" "Hello" None (sample_ambient, sample_s3)
        = Return true (amb', m') /\
      S3.buckets m' !! "test-bucket" = Some b' /\
      stored_under "file.txt" (S3.objects b') = [obj] /\
      S3.size obj = 5%Z.
Proof.
  eassert (S3.buckets sample_s3 !! "test-bucket" = Some _) as Hreg
    by (vm_compute; reflexivity).
  eexists. split; [exact Hreg|].
  destruct (put_object_replaces "test-bucket" "file.txt" "Hello" None sample_ambient
              sample_s3 _ Hreg)
    as (obj & amb' & m' & b' & Hrun & Hb' & Hone & _ & _ & Hsize & _).
  exists obj, amb', m', b'. split; [exact Hrun|]. split; [exact Hb'|].
  split; [exact Hone | exact Hsize].
Defined.

(** X4. [delete_object] on a registered bucket whose keys are pairwise
    distinct: when the key is held it returns [True], no object is left
    under the key, one object less is held and the recorded size drops by
    the size of the removed object; when the key is not held it returns
    [False] and the manager is as it was.  In both cases the objects under
    every other key and every other bucket are untouched, and the keys stay
    pairwise distinct. *)
Theorem delete_object_removes (name key : string) (m : S3.S3Manager) (b : S3.Bucket) :
  S3.buckets m !! name = Some b ->
  NoDup (object_keys (S3.objects b)) ->
  exists ok m' b',
    S3.delete_object name key m = Return ok m' /\
    S3.buckets m' !! name = Some b' /\
    ok = bool_decide (key ∈ object_keys (S3.objects b)) /\
    stored_under key (S3.objects b') = [] /\
    (ok = true ->
       length (S3.objects b) = S (length (S3.objects b')) /\
       S3.size_bytes b'
         = (S3.size_bytes b - total_size (stored_under key (S3.objects b)))%Z) /\
    (ok = false -> m' = m) /\
    (forall k, k <> key ->
       stored_under k (S3.objects b') = stored_under k (S3.objects b)) /\
    same_bucket_settings b' b /\
    (forall other, other <> name -> S3.buckets m' !! other = S3.buckets m !! other) /\
    NoDup (object_keys (S3.objects b')).
Proof.
  intros Hreg Hnodup. rewrite s3_delete_object_eval, Hreg.
  destruct (S3.first_with_key key (S3.objects b)) as [obj|] eqn:F.
  - destruct (first_with_key_split key _ obj F) as (l1 & l2 & Hobjs & -> & Hkey & Hl1).
    rewrite Hobjs in Hnodup |- *.
    rewrite object_keys_app in Hnodup. apply NoDup_app in Hnodup as (Hn1 & Hdisj & Hn2).
    unfold object_keys in Hn2. cbn [map] in Hn2. apply NoDup_cons in Hn2 as [Hl2 Hn2].
    rewrite Hkey in Hl2.
    assert (stored_under key l1 = []) as H1 by (by apply stored_under_none).
    assert (stored_under key l2 = []) as H2 by (by apply stored_under_none).
    eexists true, _, _. split; [reflexivity|].
    cbn [S3.buckets s3_with]. rewrite lookup_insert_eq. split; [reflexivity|].
    cbn [S3.objects S3.set_objects S3.set_size_bytes S3.size_bytes].
    split; [|split; [|split; [|split; [|split; [|split; [|split]]]]]].
    + symmetry. apply bool_decide_eq_true_2. apply object_keys_elem.
      exists obj. split; [|done]. apply elem_of_app. right. apply elem_of_cons. by left.
    + by rewrite stored_under_app, H1, H2.
    + intros _. split; [rewrite !length_app; cbn [length]; lia|].
      assert (stored_under key (obj :: l2) = [obj]) as Hone.
      { unfold stored_under. rewrite filter_cons_True by done.
        fold (stored_under key l2). by rewrite H2. }
      rewrite stored_under_app, H1, Hone. cbn [app]. rewrite total_size_cons.
      unfold total_size. cbn [foldr]. f_equal. lia.
    + discriminate.
    + intros k Hk. rewrite !stored_under_app. f_equal.
      unfold stored_under at 2. rewrite filter_cons_False by congruence. done.
    + by repeat split.
    + intros other Hother. by apply lookup_insert_ne.
    + rewrite object_keys_app. apply NoDup_app. split; [done|]. split; [|done].
      intros k Hk1 Hk2. apply (Hdisj k Hk1). unfold object_keys. cbn [map].
      apply elem_of_cons. by right.
  - apply first_with_key_None in F. fold (object_keys (S3.objects b)) in F.
    exists false, m, b. split; [reflexivity|]. split; [exact Hreg|].
    split; [symmetry; by apply bool_decide_eq_false_2|].
    split; [by apply stored_under_none|]. split; [discriminate|].
    split; [done|]. split; [done|]. split; [by repeat split|]. split; done.
Qed.

Lemma delete_object_removes_witness :
  exists b,
    S3.buckets sample_s3 !! "test-bucket" = Some b /\
    NoDup (object_keys (S3.objects b)) /\
    exists m' b',
      S3.delete_object "test-bucket" "file.txt" sample_s3 = Return true m' /\
      S3.buckets m' !! "test-bucket" = Some b' /\
      stored_under "file.txt" (S3.objects b') = [] /\
      S3.size_bytes b' = 0%Z.
Proof.
  eassert (S3.buckets sample_s3 !! "test-bucket" = Some _) as Hreg
    by (vm_compute; reflexivity).
  match type of Hreg with
  | _ = Some ?b =>
      assert (NoDup (object_keys (S3.objects b))) as Hnodup by apply NoDup_singleton
  end.
  eexists. split; [exact Hreg|]. split; [exact Hnodup|].
  destruct (delete_object_removes "test-bucket" "file.txt" sample_s3 _ Hreg Hnodup)
    as (ok & m' & b' & Hrun & Hb' & Hok & Hgone & Hsize & _).
  assert (ok = true) as -> by (rewrite Hok; reflexivity).
  exists m', b'. split; [exact Hrun|]. split; [exact Hb'|]. split; [exact Hgone|].
  rewrite (proj2 (Hsize eq_refl)). reflexivity.
Defined.

(* ===================================================================== *)
(** * Scripts of object calls *)
(* ===================================================================== *)

Lemma object_keys_filter_elem (P : S3.Object -> Prop) `{forall o, Decision (P o)}
    (k : string) (objs : list S3.Object) :
  k ∈ object_keys (filter P objs) -> k ∈ object_keys objs.
Proof.
  intros (o & [_ Hin]%list_elem_of_filter & Hk)%object_keys_elem.
  apply object_keys_elem. by exists o.
Qed.

Lemma total_size_filter_le (P : S3.Object -> Prop) `{forall o, Decision (P o)}
    (objs : list S3.Object) :
  Forall (fun obj => (0 <= S3.size obj)%Z) objs ->
  (total_size (filter P objs) <= total_size objs)%Z.
Proof.
  induction 1 as [|o objs Ho Hobjs IH]; [done|].
  destruct (decide (P o)).
  - rewrite filter_cons_True by done. rewrite !total_size_cons. lia.
  - rewrite filter_cons_False by done. rewrite total_size_cons. lia.
Qed.

(** A property of the bucket that every call re-establishes holds after
    the whole script, and the script runs to its end. *)
Lemma object_script_invariant (name : string)
    (I : list object_call -> S3.Bucket -> Prop) :
  (forall c rest amb m b,
      S3.buckets m !! name = Some b -> I (c :: rest) b ->
      exists ok amb' m' b',
        run_object_call name c (amb, m) = Return ok (amb', m') /\
        S3.buckets m' !! name = Some b' /\ I rest b') ->
  forall script amb m b,
    S3.buckets m !! name = Some b -> I script b ->
    exists oks amb' m' b',
      map_each (run_object_call name) script (amb, m) = Return oks (amb', m') /\
      length oks = length script /\
      S3.buckets m' !! name = Some b' /\ I [] b'.
Proof.
  intros Hstep script. induction script as [|c rest IH]; intros amb m b Hreg HI.
  - exists [], amb, m, b. by repeat split.
  - destruct (Hstep c rest amb m b Hreg HI) as (ok & amb1 & m1 & b1 & Hrun & Hreg1 & HI1).
    destruct (IH amb1 m1 b1 Hreg1 HI1) as (oks & amb' & m' & b' & Hrest & Hlen & Hreg' & HI').
    exists (ok :: oks), amb', m', b'. cbn [map_each]. unfold bind at 1. rewrite Hrun.
    unfold bind at 1. rewrite Hrest. cbn [length]. by rewrite Hlen.
Qed.

(** What one object call does to the manager: the bucket it names is
    replaced by a bucket with the same settings, which is sound if the
    bucket was; nothing else changes. *)
Lemma object_call_step (name : string) (c : object_call) (amb : Ambient)
    (m : S3.S3Manager) (b : S3.Bucket) :
  S3.buckets m !! name = Some b ->
  exists ok amb' b',
    run_object_call name c (amb, m)
      = Return ok (amb', s3_with (<[name := b']> (S3.buckets m)) m) /\
    same_bucket_settings b' b /\
    (bucket_sound b -> bucket_sound b').
Proof.
  intros Hreg. destruct c as [key body md|key]; cbn [run_object_call].
  - pose proof (s3_put_object_eval name key body md amb m) as Hput. rewrite Hreg in Hput.
    destruct Hput as (obj & amb' & Hrun & Hkey & Hsize & _).
    eexists true, amb', _. split; [exact Hrun|]. split; [by repeat split|].
    intros (Hnodup & Hsizes & Hle).
    unfold bucket_sound. cbn [S3.objects S3.size_bytes S3.set_objects S3.set_size_bytes].
    split; [|split].
    + rewrite object_keys_app. apply NoDup_app.
      split; [by apply object_keys_filter_NoDup|]. split.
      * intros k (o & [Hne _]%list_elem_of_filter & Hk)%object_keys_elem.
        unfold object_keys. cbn [map]. rewrite Hkey.
        intros [->|[]%elem_of_nil]%elem_of_cons. by apply Hne.
      * unfold object_keys. cbn [map]. apply NoDup_singleton.
    + apply Forall_app. split.
      { apply Forall_forall. intros o [_ Hin]%list_elem_of_filter.
        by apply (proj1 (Forall_forall _ _) Hsizes). }
      apply Forall_singleton. lia.
    + rewrite total_size_app, total_size_cons. change (total_size []) with 0%Z.
      pose proof (total_size_filter_le (fun o => S3.key o <> key) _ Hsizes). lia.
  - unfold on_snd. cbn [fst snd]. rewrite s3_delete_object_eval, Hreg.
    destruct (S3.first_with_key key (S3.objects b)) as [obj|] eqn:F.
    + destruct (first_with_key_split key _ obj F) as (l1 & l2 & Hobjs & -> & Hkey & Hl1).
      eexists true, amb, _. split; [reflexivity|]. split; [by repeat split|].
      intros (Hnodup & Hsizes & Hle).
      unfold bucket_sound. cbn [S3.objects S3.size_bytes S3.set_objects S3.set_size_bytes].
      rewrite Hobjs in Hnodup, Hsizes, Hle.
      rewrite object_keys_app in Hnodup. apply NoDup_app in Hnodup as (Hn1 & Hdisj & Hn2).
      unfold object_keys in Hn2. cbn [map] in Hn2. apply NoDup_cons in Hn2 as [_ Hn2].
      apply Forall_app in Hsizes as [Hs1 [_ Hs2]%Forall_cons].
      rewrite total_size_app, total_size_cons in Hle.
      split; [|split].
      * rewrite object_keys_app. apply NoDup_app. split; [done|]. split; [|done].
        intros k Hk1 Hk2. apply (Hdisj k Hk1). unfold object_keys. cbn [map].
        apply elem_of_cons. by right.
      * apply Forall_app. by split.
      * rewrite total_size_app. lia.
    + exists false, amb, b. split; [|split; [by repeat split | done]].
      rewrite insert_id by done. do 2 f_equal. by destruct m.
Qed.

Lemma object_call_keeps_sound (name : string) (c : object_call) (amb : Ambient)
    (m : S3.S3Manager) (b : S3.Bucket) :
  S3.buckets m !! name = Some b -> bucket_sound b ->
  exists ok amb' m' b',
    run_object_call name c (amb, m) = Return ok (amb', m') /\
    S3.buckets m' !! name = Some b' /\ bucket_sound b'.
Proof.
  intros Hreg Hsound.
  destruct (object_call_step name c amb m b Hreg) as (ok & amb' & b' & Hrun & _ & Hkeep).
  eexists ok, amb', _, b'. split; [exact Hrun|].
  cbn [S3.buckets s3_with]. rewrite lookup_insert_eq. split; [reflexivity | by apply Hkeep].
Qed.

(** X5. Any sequence of [put_object] and [delete_object] calls on a
    registered bucket runs to its end without raising, one result per call,
    and keeps the bucket registered and sound: no two objects share a key, no
    object has a negative size, and the recorded size of the bucket is never
    below the sum of the sizes of the objects it holds. *)
Theorem object_calls_keep_sound (name : string) (script : list object_call)
    (amb : Ambient) (m : S3.S3Manager) (b : S3.Bucket) :
  S3.buckets m !! name = Some b ->
  bucket_sound b ->
  exists oks amb' m' b',
    map_each (run_object_call name) script (amb, m) = Return oks (amb', m') /\
    length oks = length script /\
    S3.buckets m' !! name = Some b' /\
    bucket_sound b'.
Proof.
  intros Hreg Hsound.
  apply (object_script_invariant name (fun _ b => bucket_sound b)) with (b := b);
    [|exact Hreg|exact Hsound].
  intros c _ amb0 m0 b0. apply object_call_keeps_sound.
Qed.

Lemma sample_bucket_sound (b : S3.Bucket) :
  S3.objects b = [S3.mkObject "file.txt" 7 ∅ "2024-01-01T00:00:1+00:00" "etag-100000"] ->
  S3.size_bytes b = 7%Z ->
  bucket_sound b.
Proof.
  intros Hobjs Hsize. unfold bucket_sound. rewrite Hobjs, Hsize. split; [|split].
  - apply NoDup_singleton.
  - apply Forall_singleton. cbn [S3.size]. lia.
  - rewrite total_size_cons. change (total_size []) with 0%Z. cbn [S3.size]. lia.
Qed.

Lemma object_calls_keep_sound_witness :
  exists b,
    S3.buckets sample_s3 !! "test-bucket" = Some b /\
    bucket_sound b /\
    exists oks amb' m' b',
      map_each (run_object_call "test-bucket") overwriting_script
        (sample_ambient, sample_s3) = Return oks (amb', m') /\
      length oks = 3 /\
      S3.buckets m' !! "test-bucket" = Some b' /\
      bucket_sound b'.
Proof.
  eassert (S3.buckets sample_s3 !! "test-bucket" = Some _) as Hreg
    by (vm_compute; reflexivity).
  match type of Hreg with
  | _ = Some ?b =>
      assert (bucket_sound b) as Hsound by (by apply sample_bucket_sound)
  end.
  eexists. split; [exact Hreg|]. split; [exact Hsound|].
  exact (object_calls_keep_sound "test-bucket" overwriting_script sample_ambient
           sample_s3 _ Hreg Hsound).
Defined.

Lemma object_call_keeps_exact (name : string) (c : object_call)
    (rest : list object_call) (amb : Ambient) (m : S3.S3Manager) (b : S3.Bucket) :
  S3.buckets m !! name = Some b ->
  size_is_total b /\ puts_are_new (c :: rest) b ->
  exists ok amb' m' b',
    run_object_call name c (amb, m) = Return ok (amb', m') /\
    S3.buckets m' !! name = Some b' /\
    (size_is_total b' /\ puts_are_new rest b').
Proof.
  unfold size_is_total, puts_are_new.
  intros Hreg (Hexact & Hnodup & Hnew).
  destruct c as [key body md|key]; cbn [run_object_call put_keys omap] in *.
  - pose proof (s3_put_object_eval name key body md amb m) as Hput. rewrite Hreg in Hput.
    destruct Hput as (obj & amb' & Hrun & Hkey & Hsize & _).
    eexists true, amb', _, _. split; [exact Hrun|].
    cbn [S3.buckets s3_with]. rewrite lookup_insert_eq. split; [reflexivity|].
    cbn [S3.objects S3.size_bytes S3.set_objects S3.set_size_bytes].
    apply NoDup_cons in Hnodup as [Hhead Htail].
    assert (stored_under key (S3.objects b) = []) as Hnone.
    { apply stored_under_none, Hnew, elem_of_cons. by left. }
    split; [|split; [exact Htail|]].
    + rewrite total_size_app, total_size_cons. change (total_size []) with 0%Z.
      rewrite Hexact, (total_size_split key (S3.objects b)), Hnone.
      change (total_size []) with 0%Z. lia.
    + intros k Hk. rewrite object_keys_app. intros [Hin|Hin]%elem_of_app.
      * apply object_keys_filter_elem in Hin. revert Hin. apply Hnew, elem_of_cons.
        by right.
      * unfold object_keys in Hin. cbn [map] in Hin.
        apply elem_of_cons in Hin as [->|[]%elem_of_nil]. rewrite Hkey in Hk.
        by apply Hhead.
  - unfold on_snd. cbn [fst snd]. rewrite s3_delete_object_eval, Hreg.
    destruct (S3.first_with_key key (S3.objects b)) as [obj|] eqn:F.
    + destruct (first_with_key_split key _ obj F) as (l1 & l2 & Hobjs & -> & Hkey & Hl1).
      eexists true, amb, _, _. split; [reflexivity|].
      cbn [S3.buckets s3_with]. rewrite lookup_insert_eq. split; [reflexivity|].
      cbn [S3.objects S3.size_bytes S3.set_objects S3.set_size_bytes].
      rewrite Hobjs in Hexact, Hnew. rewrite total_size_app, total_size_cons in Hexact.
      split; [rewrite total_size_app; lia|]. split; [exact Hnodup|].
      intros k Hk Hin. apply (Hnew k Hk). rewrite object_keys_app in Hin |- *.
      apply elem_of_app in Hin as [Hin|Hin]; apply elem_of_app; [by left|].
      right. unfold object_keys. cbn [map]. apply elem_of_cons. by right.
    + exists false, amb, m, b. by repeat split.
Qed.

(** X6. When no [put_object] of a sequence of calls targets a key that the
    bucket holds or that an earlier call of the sequence has put, a bucket
    whose recorded size is the sum of the sizes of its objects still has
    that property after the whole sequence, whatever it deletes. *)
Theorem new_keys_keep_size_exact (name : string) (script : list object_call)
    (amb : Ambient) (m : S3.S3Manager) (b : S3.Bucket) :
  S3.buckets m !! name = Some b ->
  size_is_total b ->
  puts_are_new script b ->
  exists oks amb' m' b',
    map_each (run_object_call name) script (amb, m) = Return oks (amb', m') /\
    S3.buckets m' !! name = Some b' /\
    size_is_total b'.
Proof.
  intros Hreg Hexact Hnew.
  destruct (object_script_invariant name
              (fun script b => size_is_total b /\ puts_are_new script b)
              (object_call_keeps_exact name) script amb m b Hreg (conj Hexact Hnew))
    as (oks & amb' & m' & b' & Hrun & _ & Hreg' & Hexact' & _).
  by exists oks, amb', m', b'.
Qed.

Lemma new_keys_keep_size_exact_witness :
  exists b,
    S3.buckets sample_s3 !! "test-bucket" = Some b /\
    size_is_total b /\
    puts_are_new new_keys_script b /\
    exists oks amb' m' b',
      map_each (run_object_call "test-bucket") new_keys_script
        (sample_ambient, sample_s3) = Return oks (amb', m') /\
      S3.buckets m' !! "test-bucket" = Some b' /\
      size_is_total b'.
Proof.
  eassert (S3.buckets sample_s3 !! "test-bucket" = Some _) as Hreg
    by (vm_compute; reflexivity).
  match type of Hreg with
  | _ = Some ?b =>
      assert (size_is_total b) as Hexact by reflexivity;
      assert (puts_are_new new_keys_script b) as Hnew
  end.
  { split.
    - apply NoDup_cons. split; [|apply NoDup_singleton].
      intros [Heq|[]%elem_of_nil]%elem_of_cons. discriminate Heq.
    - intros k Hk [Heq|[]%elem_of_nil]%elem_of_cons. cbn [S3.key] in Heq. subst k.
      apply elem_of_cons in Hk as [Heq|Hk]; [discriminate Heq|].
      apply elem_of_cons in Hk as [Heq|[]%elem_of_nil]. discriminate Heq. }
  eexists. split; [exact Hreg|]. split; [exact Hexact|]. split; [exact Hnew|].
  exact (new_keys_keep_size_exact "test-bucket" new_keys_script sample_ambient
           sample_s3 _ Hreg Hexact Hnew).
Defined.

(* ===================================================================== *)
(** * Listing by prefix *)
(* ===================================================================== *)

Lemma prefix_starts_with (p s : string) :
  String.prefix p s = true <-> starts_with p s.
Proof.
  unfold starts_with. revert s. induction p as [|a p IH]; intros s.
  - split; [intros _; by exists s | by destruct s].
  - destruct s as [|b s]; cbn [String.prefix]; [split; [discriminate | by intros (rest & [=])]|].
    destruct (Ascii.ascii_dec a b) as [->|Hne].
    + rewrite IH. split; intros (rest & Hrest); exists rest; [by rewrite Hrest|].
      by injection Hrest.
    + split; [discriminate|]. intros (rest & [= Hab _]). by destruct Hne.
Qed.

(** [list_objects] returns and leaves the manager as it is. *)
Lemma list_objects_prefix_eval (name prefix : string) (m : S3.S3Manager) :
  exists objs, S3.list_objects name prefix m = Return objs m.
Proof.
  unfold S3.list_objects. py_unfold.
  destruct (S3.buckets m !! name) as [b|]; cbn; [|by eexists].
  destruct (truthy_str prefix); by eexists.
Qed.

(** X7. [list_objects] leaves the manager as it is and returns, in the
    order of the bucket, the objects whose key starts with the prefix: the
    empty prefix selects every object, and a bucket that is not registered
    gives the empty list. *)
Theorem list_objects_by_prefix (name prefix : string) (m : S3.S3Manager) :
  exists objs,
    S3.list_objects name prefix m = Return objs m /\
    objs = match S3.buckets m !! name with
           | Some b =>
               filter (fun obj => String.prefix prefix (S3.key obj) = true) (S3.objects b)
           | None => []
           end /\
    (forall obj,
       obj ∈ objs <->
       exists b, S3.buckets m !! name = Some b /\
                 obj ∈ S3.objects b /\ starts_with prefix (S3.key obj)).
Proof.
  eexists. split; [|split; [reflexivity|]].
  - unfold S3.list_objects. py_unfold.
    destruct (S3.buckets m !! name) as [b|] eqn:E; cbn; [|reflexivity].
    unfold truthy_str. destruct prefix as [|a p]; cbn; [|reflexivity].
    f_equal. induction (S3.objects b) as [|o objs IH]; [reflexivity|].
    rewrite filter_cons_True by (by destruct (S3.key o)). by rewrite <- IH.
  - intros obj. destruct (S3.buckets m !! name) as [b|].
    + rewrite list_elem_of_filter, prefix_starts_with. split.
      * intros [Hp Hin]. by exists b.
      * intros (b' & [= <-] & Hin & Hp). by split.
    + split; [by intros ?%elem_of_nil | by intros (b & [=] & _)].
Qed.

(* ===================================================================== *)
(** * Calls that change nothing *)
(* ===================================================================== *)

Lemma automation_eta (w : AWS.AWSAutomation) :
  AWS.mkAWSAutomation (AWS.simulation_mode w) (AWS.ec2 w) (AWS.s3 w) (AWS.rds w)
    (AWS.lambda_mgr w) = w.
Proof. by destruct w. Qed.

(** Unfolds a call down to the method of the manager it runs. *)
Ltac run_quiet :=
  unfold run, bind, AWS.on_ec2, AWS.on_s3, AWS.on_rds, AWS.on_lambda, on_snd;
  cbn [fst snd].

(** Closes the goal once the method has been reduced to returning the
    manager it received. *)
Ltac unchanged := cbn; rewrite ?automation_eta; by eexists.

(** X8. A call that fails changes nothing: when the identifier it names is
    not found, or the state of the resource does not allow the operation,
    the call returns with every registry, the clock and the random
    generator as they were.  The getters, the listings, [create_snapshot]
    and [add_permission] change nothing either, whether they fail or not. *)
Theorem failed_call_changes_nothing (c : call) (st : Ambient * AWS.AWSAutomation) :
  fails c (snd st) = true \/ read_only c = true ->
  exists a, run c st = Return a st.
Proof.
  destruct st as [amb w]. cbn [snd].
  intros [Hfails|Hro]; destruct c; try discriminate; revert Hfails || clear Hro;
    unfold fails, unknown, ec2_state_of, rds_status_of; rewrite ?state_guard; run_quiet.
  (* the calls that fail *)
  - rewrite ec2_terminate_eval.
    destruct (EC2.instances (AWS.ec2 w) !! instance_id); [discriminate|]. unchanged.
  - rewrite ec2_stop_eval. destruct (EC2.instances (AWS.ec2 w) !! instance_id) as [info|];
      [destruct (String.eqb (EC2.state info) "running"); [discriminate|]|]; unchanged.
  - rewrite ec2_start_eval. destruct (EC2.instances (AWS.ec2 w) !! instance_id) as [info|];
      [destruct (String.eqb (EC2.state info) "stopped"); [discriminate|]|]; unchanged.
  - unfold EC2.get_instance_info. py_unfold. unchanged.
  - unfold EC2.tag_instance. py_unfold.
    destruct (EC2.instances (AWS.ec2 w) !! instance_id); [discriminate|]. unchanged.
  - rewrite s3_delete_bucket_eval. destruct (S3.buckets (AWS.s3 w) !! bucket_name) as [b|];
      [destruct (negb (bool_decide (S3.objects b = [])) && negb force); [|discriminate]|];
      unchanged.
  - pose proof (s3_put_object_eval bucket_name key body metadata amb (AWS.s3 w)) as Hput.
    destruct (S3.buckets (AWS.s3 w) !! bucket_name); [discriminate|].
    rewrite Hput. unchanged.
  - rewrite s3_delete_object_eval. destruct (S3.buckets (AWS.s3 w) !! bucket_name) as [b|];
      [|unchanged].
    intros Hnot%negb_true_iff%bool_decide_eq_false_1.
    apply first_with_key_None in Hnot. rewrite Hnot. unchanged.
  - unfold S3.list_objects. py_unfold.
    destruct (S3.buckets (AWS.s3 w) !! bucket_name); [discriminate|]. unchanged.
  - unfold S3.get_bucket_info. py_unfold. unchanged.
  - unfold S3.enable_versioning. py_unfold.
    destruct (S3.buckets (AWS.s3 w) !! bucket_name); [discriminate|]. unchanged.
  - rewrite rds_delete_eval.
    destruct (RDS.instances (AWS.rds w) !! id); [discriminate|]. unchanged.
  - rewrite rds_stop_eval. destruct (RDS.instances (AWS.rds w) !! id) as [info|];
      [destruct (String.eqb (RDS.status info) "available"); [discriminate|]|]; unchanged.
  - rewrite rds_start_eval. destruct (RDS.instances (AWS.rds w) !! id) as [info|];
      [destruct (String.eqb (RDS.status info) "stopped"); [discriminate|]|]; unchanged.
  - unfold RDS.create_snapshot. py_unfold.
    destruct (RDS.instances (AWS.rds w) !! id); [discriminate|]. unchanged.
  - unfold RDS.get_instance_info. py_unfold. unchanged.
  - rewrite rds_modify_eval.
    destruct (RDS.instances (AWS.rds w) !! id); [discriminate|]. unchanged.
  - rewrite lambda_delete_eval.
    destruct (Lambda.functions (AWS.lambda_mgr w) !! function_name); [discriminate|].
    unchanged.
  - unfold Lambda.invoke_function. py_unfold.
    destruct (Lambda.functions (AWS.lambda_mgr w) !! function_name); [discriminate|].
    unchanged.
  - pose proof (lambda_update_code_eval function_name code amb (AWS.lambda_mgr w)) as Hupd.
    destruct (Lambda.functions (AWS.lambda_mgr w) !! function_name); [discriminate|].
    rewrite Hupd. unchanged.
  - pose proof (lambda_update_configuration_eval function_name timeout memory_size
                  environment amb (AWS.lambda_mgr w)) as Hupd.
    destruct (Lambda.functions (AWS.lambda_mgr w) !! function_name); [discriminate|].
    rewrite Hupd. unchanged.
  - unfold Lambda.get_function_info. py_unfold. unchanged.
  - unfold Lambda.add_permission. py_unfold.
    destruct (Lambda.functions (AWS.lambda_mgr w) !! function_name); [discriminate|].
    unchanged.
  (* the calls that only read *)
  - unfold EC2.get_instance_info. py_unfold. unchanged.
  - unfold EC2.list_instances. py_unfold.
    destruct state as [s|]; [destruct (truthy_str s)|]; unchanged.
  - unfold S3.list_buckets. py_unfold. unchanged.
  - match goal with
    | |- context [S3.list_objects ?n ?p ?m] =>
        destruct (list_objects_prefix_eval n p m) as (objs & ->)
    end. unchanged.
  - unfold S3.get_bucket_info. py_unfold. unchanged.
  - unfold RDS.create_snapshot. py_unfold.
    destruct (RDS.instances (AWS.rds w) !! id); unchanged.
  - unfold RDS.get_instance_info. py_unfold. unchanged.
  - unfold RDS.list_instances. py_unfold.
    destruct engine as [e|]; [destruct (truthy_str e)|]; unchanged.
  - unfold Lambda.get_function_info. py_unfold. unchanged.
  - unfold Lambda.list_functions. py_unfold. unchanged.
  - unfold Lambda.add_permission. py_unfold.
    destruct (Lambda.functions (AWS.lambda_mgr w) !! function_name); unchanged.
Qed.

Lemma failed_call_changes_nothing_witness :
  fails (Ec2_stop_instance "i-0123456789abcdefa") sample_world = true /\
  exists a,
    run (Ec2_stop_instance "i-0123456789abcdefa") (sample_ambient, sample_world)
      = Return a (sample_ambient, sample_world).
Proof.
  assert (fails (Ec2_stop_instance "i-0123456789abcdefa") sample_world = true) as Hfails
    by (vm_compute; reflexivity).
  split; [exact Hfails|].
  exact (failed_call_changes_nothing (Ec2_stop_instance "i-0123456789abcdefa")
           (sample_ambient, sample_world) (or_introl Hfails)).
Defined.

(* ===================================================================== *)
(** * Calls and the managers they leave alone *)
(* ===================================================================== *)

(** Splits on the outcome of the method that the call runs. *)
Ltac split_call :=
  match goal with
  | |- context [match ?m (?amb, ?mgr) with Return _ _ => _ | Raise _ => _ end] =>
      destruct (m (amb, mgr)) as [? [? ?]|?]
  end.

Lemma call_frame (c : call) (st : Ambient * AWS.AWSAutomation) (a : answer)
    (st' : Ambient * AWS.AWSAutomation) :
  run c st = Return a st' -> same_other_managers c (snd st) (snd st').
Proof.
  destruct st as [amb w].
  destruct c; unfold run, bind, AWS.on_ec2, AWS.on_s3, AWS.on_rds, AWS.on_lambda, ret;
    cbn [fst snd]; split_call; intros [= <- <-]; unfold same_other_managers;
    cbn [snd service_of AWS.simulation_mode AWS.ec2 AWS.s3 AWS.rds AWS.lambda_mgr];
    (split; [reflexivity|]); repeat split; try reflexivity; intros H; by destruct H.
Qed.


(* ===================================================================== *)
(** * The life of a compute instance *)
(* ===================================================================== *)

(** A property of the orchestrator that every allowed call re-establishes
    holds after a whole sequence of allowed calls, and the sequence runs to
    its end. *)
Lemma call_script_invariant (allowed : call -> Prop) (I : AWS.AWSAutomation -> Prop) :
  (forall c st, allowed c -> I (snd st) ->
     exists a st', run c st = Return a st' /\ I (snd st')) ->
  forall script st,
    Forall allowed script -> I (snd st) ->
    exists answers st',
      map_each run script st = Return answers st' /\
      length answers = length script /\
      I (snd st').
Proof.
  intros Hstep script. induction script as [|c rest IH]; intros st Hall HI.
  - exists [], st. by repeat split.
  - apply Forall_cons in Hall as [Hc Hrest].
    destruct (Hstep c st Hc HI) as (a & st1 & Hrun & HI1).
    destruct (IH st1 Hrest HI1) as (answers & st' & Hruns & Hlen & HI').
    exists (a :: answers), st'. cbn [map_each]. unfold bind at 1. rewrite Hrun.
    unfold bind at 1. rewrite Hruns. cbn [length]. by rewrite Hlen.
Qed.

Lemma ec2_set_state_fixed (s : string) (info : EC2.Instance) :
  ec2_same_fixed_fields (EC2.set_state s info) info.
Proof. by repeat split. Qed.

(** What one call does to a registered compute record: the record stays
    registered; unless the call is [create_instance], its fixed fields
    stay, and so does the state [terminated]. *)
Lemma ec2_call_effect (c : call) (st : Ambient * AWS.AWSAutomation) :
  exists a st',
    run c st = Return a st' /\
    forall id info,
      EC2.instances (AWS.ec2 (snd st)) !! id = Some info ->
      exists info',
        EC2.instances (AWS.ec2 (snd st')) !! id = Some info' /\
        (is_ec2_create c = false ->
           ec2_same_fixed_fields info' info /\
           (EC2.state info = "terminated" -> EC2.state info' = "terminated")).
Proof.
  destruct (every_call_signals c st) as (a & st' & Hrun & _).
  exists a, st'. split; [exact Hrun|]. intros id info Hinfo.
  destruct (decide (service_of c = Ec2Service)) as [Hec2|Hother].
  - destruct st as [amb w]. cbn [snd] in Hinfo. revert Hrun.
    destruct c; try discriminate Hec2; run_quiet.
    + (* create_instance *)
      destruct (ec2_create_eval a0 amb (AWS.ec2 w)) as (new & amb' & -> & _).
      intros [= <- <-]. cbn [snd AWS.ec2 EC2.instances ec2_with].
      destruct (decide (EC2.instance_id new = id)) as [<-|Hne].
      * rewrite lookup_insert_eq. by eexists.
      * rewrite lookup_insert_ne by done. by eexists.
    + (* terminate_instance *)
      rewrite ec2_terminate_eval.
      destruct (EC2.instances (AWS.ec2 w) !! instance_id) as [found|] eqn:E;
        intros [= <- <-]; cbn [snd AWS.ec2 EC2.instances ec2_with];
        [|exists info; by repeat split].
      destruct (decide (instance_id = id)) as [->|Hne].
      * rewrite lookup_insert_eq. eexists. split; [reflexivity|]. intros _.
        assert (found = info) as -> by congruence.
        split; [apply ec2_set_state_fixed | done].
      * rewrite lookup_insert_ne by done. exists info. by repeat split.
    + (* stop_instance *)
      rewrite ec2_stop_eval.
      destruct (EC2.instances (AWS.ec2 w) !! instance_id) as [found|] eqn:E;
        [destruct (String.eqb (EC2.state found) "running") eqn:Q|];
        intros [= <- <-]; cbn [snd AWS.ec2 EC2.instances ec2_with];
        try (exists info; by repeat split).
      destruct (decide (instance_id = id)) as [->|Hne].
      * rewrite lookup_insert_eq. eexists. split; [reflexivity|]. intros _.
        assert (found = info) as -> by congruence.
        split; [apply ec2_set_state_fixed|]. apply String.eqb_eq in Q. congruence.
      * rewrite lookup_insert_ne by done. exists info. by repeat split.
    + (* start_instance *)
      rewrite ec2_start_eval.
      destruct (EC2.instances (AWS.ec2 w) !! instance_id) as [found|] eqn:E;
        [destruct (String.eqb (EC2.state found) "stopped") eqn:Q|];
        intros [= <- <-]; cbn [snd AWS.ec2 EC2.instances ec2_with];
        try (exists info; by repeat split).
      destruct (decide (instance_id = id)) as [->|Hne].
      * rewrite lookup_insert_eq. eexists. split; [reflexivity|]. intros _.
        assert (found = info) as -> by congruence.
        split; [apply ec2_set_state_fixed|]. apply String.eqb_eq in Q. congruence.
      * rewrite lookup_insert_ne by done. exists info. by repeat split.
    + (* get_instance_info *)
      unfold EC2.get_instance_info. py_unfold. intros [= <- <-]. cbn [snd AWS.ec2].
      exists info. by repeat split.
    + (* list_instances *)
      unfold EC2.list_instances. py_unfold.
      destruct state as [s|]; [destruct (truthy_str s)|]; intros [= <- <-];
        cbn [snd AWS.ec2]; exists info; by repeat split.
    + (* tag_instance *)
      unfold EC2.tag_instance, EC2.setitem. py_unfold.
      destruct (EC2.instances (AWS.ec2 w) !! instance_id) as [found|] eqn:E; cbn;
        intros [= <- <-]; cbn [snd AWS.ec2 EC2.instances];
        [|exists info; by repeat split].
      destruct (decide (instance_id = id)) as [->|Hne].
      * rewrite lookup_insert_eq. eexists. split; [reflexivity|]. intros _.
        assert (found = info) as -> by congruence. by repeat split.
      * rewrite lookup_insert_ne by done. exists info. by repeat split.
  - destruct (call_frame c st a st' Hrun) as (_ & Hsame & _).
    rewrite (Hsame Hother). exists info. by repeat split.
Qed.

(** X10. No call of any manager removes a compute record: an instance that
    is registered is still registered after any sequence of calls, which
    runs to its end with one answer per call. *)
Theorem instances_are_never_removed (script : list call) (id : string)
    (st : Ambient * AWS.AWSAutomation) :
  is_Some (EC2.instances (AWS.ec2 (snd st)) !! id) ->
  exists answers st',
    map_each run script st = Return answers st' /\
    length answers = length script /\
    is_Some (EC2.instances (AWS.ec2 (snd st')) !! id).
Proof.
  intros Hreg.
  apply (call_script_invariant (fun _ => True)
           (fun w => is_Some (EC2.instances (AWS.ec2 w) !! id)));
    [|by apply Forall_true|exact Hreg].
  intros c st0 _ [info Hinfo].
  destruct (ec2_call_effect c st0) as (a & st' & Hrun & Heffect).
  exists a, st'. split; [exact Hrun|].
  destruct (Heffect id info Hinfo) as (info' & Hinfo' & _). by exists info'.
Qed.

Lemma instances_are_never_removed_witness :
  is_Some (EC2.instances (AWS.ec2 (snd (sample_ambient, sample_world)))
             !! "i-0123456789abcdefa") /\
  exists answers st',
    map_each run busy_script (sample_ambient, sample_world) = Return answers st' /\
    length answers = length busy_script /\
    is_Some (EC2.instances (AWS.ec2 (snd st')) !! "i-0123456789abcdefa").
Proof.
  eassert (EC2.instances (AWS.ec2 (snd (sample_ambient, sample_world)))
             !! "i-0123456789abcdefa" = Some _) as Hinfo by (vm_compute; reflexivity).
  pose proof (mk_is_Some _ _ Hinfo) as Hreg.
  split; [exact Hreg|].
  exact (instances_are_never_removed busy_script "i-0123456789abcdefa"
           (sample_ambient, sample_world) Hreg).
Defined.

(** X11. [terminated] is final: whatever calls follow, as long as none of
    them is [create_instance] of the compute manager, a terminated instance
    is still registered and terminated, with the identifier, type, image,
    key name, security groups, launch time and addresses that
    [create_instance] gave it.  Its tags are not part of this:
    [tag_instance] has no guard on the state and tags a terminated
    instance too. *)
Theorem terminated_is_final (script : list call) (id : string) (info : EC2.Instance)
    (st : Ambient * AWS.AWSAutomation) :
  EC2.instances (AWS.ec2 (snd st)) !! id = Some info ->
  EC2.state info = "terminated" ->
  Forall (fun c => is_ec2_create c = false) script ->
  exists answers st' info',
    map_each run script st = Return answers st' /\
    EC2.instances (AWS.ec2 (snd st')) !! id = Some info' /\
    EC2.state info' = "terminated" /\
    ec2_same_fixed_fields info' info.
Proof.
  intros Hinfo Hstate Hscript.
  destruct (call_script_invariant (fun c => is_ec2_create c = false)
              (fun w => exists info', EC2.instances (AWS.ec2 w) !! id = Some info' /\
                                      EC2.state info' = "terminated" /\
                                      ec2_same_fixed_fields info' info))
    with (script := script) (st := st)
    as (answers & st' & Hrun & _ & info' & Hinfo' & Hstate' & Hfixed).
  - intros c st0 Hc (info0 & Hinfo0 & Hstate0 & Hfixed0).
    destruct (ec2_call_effect c st0) as (a & st1 & Hrun & Heffect).
    exists a, st1. split; [exact Hrun|].
    destruct (Heffect id info0 Hinfo0) as (info1 & Hinfo1 & Hkeep).
    destruct (Hkeep Hc) as [Hfixed1 Hstate1].
    exists info1. split; [exact Hinfo1|]. split; [by apply Hstate1|].
    unfold ec2_same_fixed_fields in *.
    destruct Hfixed0 as (? & ? & ? & ? & ? & ? & ? & ?).
    destruct Hfixed1 as (? & ? & ? & ? & ? & ? & ? & ?).
    repeat split; congruence.
  - exact Hscript.
  - exists info. by repeat split.
  - by exists answers, st', info'.
Qed.

Lemma terminated_is_final_witness :
  exists info,
    EC2.instances (AWS.ec2 (snd (sample_ambient, terminated_world)))
      !! "i-0123456789abcdefa" = Some info /\
    EC2.state info = "terminated" /\
    Forall (fun c => is_ec2_create c = false) busy_script /\
    exists answers st' info',
      map_each run busy_script (sample_ambient, terminated_world) = Return answers st' /\
      EC2.instances (AWS.ec2 (snd st')) !! "i-0123456789abcdefa" = Some info' /\
      EC2.state info' = "terminated" /\
      ec2_same_fixed_fields info' info.
Proof.
  eassert (EC2.instances (AWS.ec2 (snd (sample_ambient, terminated_world)))
             !! "i-0123456789abcdefa" = Some _) as Hinfo by (vm_compute; reflexivity).
  match type of Hinfo with
  | _ = Some ?info => assert (EC2.state info = "terminated") as Hstate by reflexivity
  end.
  assert (Forall (fun c => is_ec2_create c = false) busy_script) as Hscript
    by (repeat constructor).
  eexists. split; [exact Hinfo|]. split; [exact Hstate|]. split; [exact Hscript|].
  exact (terminated_is_final busy_script "i-0123456789abcdefa" _
           (sample_ambient, terminated_world) Hinfo Hstate Hscript).
Defined.

(* ===================================================================== *)
(** * Stopping and starting again *)
(* ===================================================================== *)

Lemma ec2_with_registry (m : EC2.EC2Manager) : ec2_with (EC2.instances m) m = m.
Proof. by destruct m. Qed.

Lemma ec2_with_twice (d d' : gmap string EC2.Instance) (m : EC2.EC2Manager) :
  ec2_with d (ec2_with d' m) = ec2_with d m.
Proof. reflexivity. Qed.

Lemma rds_with_twice (d d' : gmap string RDS.DBInstance) (m : RDS.RDSManager) :
  rds_with d (rds_with d' m) = rds_with d m.
Proof. reflexivity. Qed.

Lemma rds_with_registry (m : RDS.RDSManager) : rds_with (RDS.instances m) m = m.
Proof. by destruct m. Qed.

Lemma ec2_set_state_back (info : EC2.Instance) (s s' : string) :
  EC2.state info = s -> EC2.set_state s (EC2.set_state s' info) = info.
Proof. intros <-. by destruct info. Qed.

Lemma rds_set_status_back (info : RDS.DBInstance) (s s' : string) :
  RDS.status info = s -> RDS.set_status s (RDS.set_status s' info) = info.
Proof. intros <-. by destruct info. Qed.

(** X12. Stopping a running compute instance and starting it again gives
    back the manager exactly as it was, with the instance [stopped] in
    between; the same holds for an available database instance. *)
Theorem stop_then_start_restores (e : EC2.EC2Manager) (i : string)
    (r : RDS.RDSManager) (d : string) :
  ec2_state_of e i = Some "running" ->
  rds_status_of r d = Some "available" ->
  (exists e1,
     EC2.stop_instance i e = Return true e1 /\
     ec2_state_of e1 i = Some "stopped" /\
     EC2.start_instance i e1 = Return true e) /\
  (exists r1,
     RDS.stop_instance d r = Return true r1 /\
     rds_status_of r1 d = Some "stopped" /\
     RDS.start_instance d r1 = Return true r).
Proof.
  unfold ec2_state_of, rds_status_of. intros He Hr. split.
  - destruct (EC2.instances e !! i) as [info|] eqn:E; [|discriminate].
    injection He as He. rewrite ec2_stop_eval, E, He. cbn [String.eqb].
    eexists. split; [reflexivity|]. cbn [EC2.instances ec2_with].
    rewrite lookup_insert_eq. split; [reflexivity|].
    rewrite ec2_start_eval. cbn [EC2.instances ec2_with]. rewrite lookup_insert_eq.
    cbn [EC2.state EC2.set_state]. f_equal.
    rewrite ec2_with_twice, insert_insert_eq, (ec2_set_state_back info _ _ He), (insert_id _ _ _ E).
    apply ec2_with_registry.
  - destruct (RDS.instances r !! d) as [info|] eqn:E; [|discriminate].
    injection Hr as Hr. rewrite rds_stop_eval, E, Hr. cbn [String.eqb].
    eexists. split; [reflexivity|]. cbn [RDS.instances rds_with].
    rewrite lookup_insert_eq. split; [reflexivity|].
    rewrite rds_start_eval. cbn [RDS.instances rds_with]. rewrite lookup_insert_eq.
    cbn [RDS.status RDS.set_status]. f_equal.
    rewrite rds_with_twice, insert_insert_eq, (rds_set_status_back info _ _ Hr), (insert_id _ _ _ E).
    apply rds_with_registry.
Qed.

Lemma stop_then_start_restores_witness :
  ec2_state_of running_ec2 "i-0123456789abcdefa" = Some "running" /\
  rds_status_of sample_rds "test-db" = Some "available" /\
  (exists e1,
     EC2.stop_instance "i-0123456789abcdefa" running_ec2 = Return true e1 /\
     ec2_state_of e1 "i-0123456789abcdefa" = Some "stopped" /\
     EC2.start_instance "i-0123456789abcdefa" e1 = Return true running_ec2) /\
  (exists r1,
     RDS.stop_instance "test-db" sample_rds = Return true r1 /\
     rds_status_of r1 "test-db" = Some "stopped" /\
     RDS.start_instance "test-db" r1 = Return true sample_rds).
Proof.
  assert (ec2_state_of running_ec2 "i-0123456789abcdefa" = Some "running") as He
    by (vm_compute; reflexivity).
  assert (rds_status_of sample_rds "test-db" = Some "available") as Hr
    by (vm_compute; reflexivity).
  split; [exact He|]. split; [exact Hr|].
  exact (stop_then_start_restores running_ec2 "i-0123456789abcdefa" sample_rds "test-db"
           He Hr).
Defined.

(* ===================================================================== *)
(** * Tags *)
(* ===================================================================== *)

Lemma ec2_tag_eval (m : EC2.EC2Manager) (id : string) (t : gmap string string) :
  EC2.tag_instance id t m =
  match EC2.instances m !! id with
  | Some info => Return true (ec2_with (<[id := EC2.update_tags t info]> (EC2.instances m)) m)
  | None => Return false m
  end.
Proof.
  unfold EC2.tag_instance. py_unfold.
  by_lookup (EC2.instances m) id info E; reflexivity.
Qed.



(* ===================================================================== *)
(** * Generated values *)
(* ===================================================================== *)

Lemma get_in_chars (s : string) (n : nat) (c : Ascii.ascii) :
  String.get n s = Some c -> c ∈ String.list_ascii_of_string s.
Proof.
  revert n. induction s as [|a s IH]; intros n; [discriminate|].
  cbn [String.list_ascii_of_string]. destruct n as [|n]; cbn [String.get].
  - intros [= ->]. apply elem_of_cons. by left.
  - intros Hget. apply elem_of_cons. right. by apply (IH n).
Qed.

Lemma get_in_range (s : string) (n : nat) :
  n < String.length s -> is_Some (String.get n s).
Proof.
  revert n. induction s as [|a s IH]; intros n; cbn [String.length]; [lia|].
  destruct n as [|n]; cbn [String.get]; [by eexists|]. intros Hn. apply IH. lia.
Qed.

(** A character drawn from a population that is not empty is one of its
    characters. *)
Lemma char_at_from (population : string) (g : N) :
  0 < String.length population ->
  char_at population (g mod N.of_nat (String.length population))
    ∈ String.list_ascii_of_string population.
Proof.
  intros Hlen. unfold char_at.
  destruct (get_in_range population
              (N.to_nat (g mod N.of_nat (String.length population)))) as [c Hc].
  - assert (g mod N.of_nat (String.length population)
            < N.of_nat (String.length population))%N as Hlt by (apply N.mod_lt; lia).
    revert Hlt. generalize (g mod N.of_nat (String.length population))%N.
    intros r Hlt. lia.
  - rewrite Hc. cbn [default]. exact (get_in_chars _ _ _ Hc).
Qed.

(** [random.choices(population, k=k)] gives [k] characters of the
    population and draws [k] numbers. *)
Lemma choices_from (population : string) (k : nat) (amb : Ambient) :
  0 < String.length population ->
  exists s,
    choices population k amb = Return s (advanced 0 k amb) /\
    String.length s = k /\
    chars_from population s.
Proof.
  intros Hlen. revert amb. induction k as [|k IH]; intros amb; cbn [choices].
  - exists "". split; [by destruct amb|]. split; [reflexivity | apply Forall_nil_2].
  - unfold bind at 1, randbelow at 1.
    destruct (IH (mkAmbient (wall_clock amb) (ticks amb) (generator amb) (S (draws amb))))
      as (rest & Hrest & Hlength & Hfrom).
    unfold bind at 1. rewrite Hrest. eexists. split; [|split].
    + unfold ret, advanced. cbn [wall_clock ticks generator draws].
      replace (k + S (draws amb)) with (S k + draws amb) by lia. reflexivity.
    + cbn [String.length]. by rewrite Hlength.
    + unfold chars_from. cbn [String.list_ascii_of_string]. apply Forall_cons.
      split; [by apply char_at_from | exact Hfrom].
Qed.

(** [random.randint(lo, hi)] with [lo <= hi] is within its bounds. *)
Lemma randint_in_range (lo hi : Z) (g : N) :
  (lo <= hi)%Z ->
  (lo <= lo + Z.of_N (g mod Z.to_N (hi - lo + 1)) <= hi)%Z.
Proof.
  intros Hle.
  assert (g mod Z.to_N (hi - lo + 1) < Z.to_N (hi - lo + 1))%N as Hlt
    by (apply N.mod_lt; lia).
  revert Hlt. generalize (g mod Z.to_N (hi - lo + 1))%N. intros r Hlt. lia.
Qed.

Lemma lower_hexdigits_only :
  forall c, c ∈ String.list_ascii_of_string hexdigits_lower ->
            c ∈ String.list_ascii_of_string "0123456789abcdef".
Proof.
  apply Forall_forall. cbn [hexdigits_lower String.list_ascii_of_string].
  repeat (apply Forall_cons; split;
          [cbn [String.list_ascii_of_string]; repeat (apply elem_of_cons; (by left) || right)
          |]).
  apply Forall_nil_2.
Qed.

(** X14. [create_instance] always returns: the identifier is [i-] followed
    by 17 characters among [0-9a-f], the record is registered under it and
    carries it, the public address is [54.] followed by three numbers
    between 0 and 255 and the private address [10.0.] followed by two; the
    call reads the clock once and draws 22 random numbers. *)
Theorem created_instance_is_well_formed (a : EC2.create_args) (amb : Ambient)
    (m : EC2.EC2Manager) :
  exists digits p1 p2 p3 q1 q2 info,
    EC2.create_instance a (amb, m)
      = Return ("i-" +:+ digits)
               (advanced 1 22 amb,
                ec2_with (<["i-" +:+ digits := info]> (EC2.instances m)) m) /\
    String.length digits = 17 /\
    chars_from "0123456789abcdef" digits /\
    EC2.instance_id info = "i-" +:+ digits /\
    EC2.launch_time info = wall_clock amb (ticks amb) /\
    EC2.public_ip info = "54." +:+ pretty p1 +:+ "." +:+ pretty p2 +:+ "." +:+ pretty p3 /\
    EC2.private_ip info = "10.0." +:+ pretty q1 +:+ "." +:+ pretty q2 /\
    octet p1 /\ octet p2 /\ octet p3 /\ octet q1 /\ octet q2.
Proof.
  unfold EC2.create_instance, EC2._generate_instance_id.
  unfold bind at 1. unfold on_fst at 1. unfold bind at 1. cbn [fst snd].
  destruct (choices_from hexdigits_lower 17 amb) as (digits & -> & Hlen & Hfrom);
    [cbn; lia|].
  cbn. eexists digits, _, _, _, _, _, (EC2.mkInstance _ _ _ _ _ _ _ _ _ _).
  split; [reflexivity|]. split; [exact Hlen|]. split.
  { unfold chars_from in *. eapply Forall_impl; [exact Hfrom|].
    exact lower_hexdigits_only. }
  cbn [EC2.instance_id EC2.launch_time EC2.public_ip EC2.private_ip].
  do 4 (split; [reflexivity|]).
  repeat split; apply randint_in_range; lia.
Qed.

(* ===================================================================== *)
(** * Listings *)
(* ===================================================================== *)

Lemma values_elem {V : Type} (d : gmap string V) (v : V) :
  v ∈ values d <-> exists k, d !! k = Some v.
Proof.
  unfold values. rewrite list_elem_of_fmap. split.
  - intros ([k v'] & -> & Hin%elem_of_map_to_list). by exists k.
  - intros (k & Hk). exists (k, v). split; [reflexivity|]. by apply elem_of_map_to_list.
Qed.

Lemma values_length {V : Type} (d : gmap string V) : length (values d) = size d.
Proof. unfold values. by rewrite length_fmap, length_map_to_list. Qed.

Lemma truthy_str_empty (s : string) : truthy_str s = false <-> s = "".
Proof.
  unfold truthy_str. rewrite negb_false_iff. apply String.eqb_eq.
Qed.

(** The listing of a registry through an optional filter on one field. *)
Lemma filtered_listing {R : Type} (field : R -> string) (d : gmap string R)
    (filter_by : option string) (l : list R) :
  l = match filter_by with
      | Some s => if truthy_str s then filter (fun info => field info = s) (values d)
                  else values d
      | None => values d
      end ->
  (forall info, info ∈ l <->
                exists id, d !! id = Some info /\ selected filter_by (field info)) /\
  length l <= size d /\
  (selected filter_by "" -> length l = size d).
Proof.
  intros ->. destruct filter_by as [s|]; [destruct (truthy_str s) eqn:Q|]; cbn [selected].
  - assert (s <> "") as Hs.
    { intros ->. discriminate Q. }
    split; [|split].
    + intros info. rewrite list_elem_of_filter, values_elem. split.
      * intros [Heq (id & Hid)]. exists id. split; [done | by right].
      * intros (id & Hid & [Hempty|Heq]); [done|]. split; [done | by exists id].
    + rewrite <- values_length. apply length_filter.
    + intros [Hempty|Hempty]; by destruct Hs.
  - apply truthy_str_empty in Q as ->. split; [|split].
    + intros info. rewrite values_elem. split.
      * intros (id & Hid). exists id. split; [done | by left].
      * intros (id & Hid & _). by exists id.
    + by rewrite values_length.
    + intros _. apply values_length.
  - split; [|split].
    + intros info. rewrite values_elem. split.
      * intros (id & Hid). by exists id.
      * intros (id & Hid & _). by exists id.
    + by rewrite values_length.
    + intros _. apply values_length.
Qed.

(** X15. [list_instances] of the compute manager returns exactly the
    registered records whose state is the filter, and [list_instances] of
    the database manager those whose engine is the filter; without a filter,
    or with the empty string as filter, each returns one record per
    registered identifier.  Neither changes its manager. *)
Theorem list_instances_filters (filter_by : option string) (e : EC2.EC2Manager)
    (r : RDS.RDSManager) :
  (exists l,
     EC2.list_instances filter_by e = Return l e /\
     (forall info, info ∈ l <->
                   exists id, EC2.instances e !! id = Some info /\
                              selected filter_by (EC2.state info)) /\
     length l <= size (EC2.instances e) /\
     (selected filter_by "" -> length l = size (EC2.instances e))) /\
  (exists l,
     RDS.list_instances filter_by r = Return l r /\
     (forall info, info ∈ l <->
                   exists id, RDS.instances r !! id = Some info /\
                              selected filter_by (RDS.engine info)) /\
     length l <= size (RDS.instances r) /\
     (selected filter_by "" -> length l = size (RDS.instances r))).
Proof.
  split.
  - eexists. split; [|apply (filtered_listing EC2.state); reflexivity].
    unfold EC2.list_instances. py_unfold.
    destruct filter_by as [s|]; [destruct (truthy_str s)|]; reflexivity.
  - eexists. split; [|apply (filtered_listing RDS.engine); reflexivity].
    unfold RDS.list_instances. py_unfold.
    destruct filter_by as [s|]; [destruct (truthy_str s)|]; reflexivity.
Qed.

(* ===================================================================== *)
(** * Functions *)
(* ===================================================================== *)

Lemma lambda_with_registry (m : Lambda.LambdaManager) :
  lambda_with (Lambda.functions m) m = m.
Proof. by destruct m. Qed.

Lemma lambda_with_twice (d d' : gmap string Lambda.Function) (m : Lambda.LambdaManager) :
  lambda_with d (lambda_with d' m) = lambda_with d m.
Proof. reflexivity. Qed.

Lemma lambda_invoke_eval (name : string) (payload : option (list (string * pyval)))
    (invocation_type : string) (m : Lambda.LambdaManager) :
  Lambda.invoke_function name payload invocation_type m =
  match Lambda.functions m !! name with
  | Some f =>
      Return (invocation_result payload)
             (lambda_with (<[name := Lambda.set_invocations (Lambda.invocations f + 1) f]>
                             (Lambda.functions m)) m)
  | None => Return function_not_found m
  end.
Proof.
  unfold Lambda.invoke_function. py_unfold.
  by_lookup (Lambda.functions m) name f E; reflexivity.
Qed.

Lemma set_invocations_twice (n k : Z) (f : Lambda.Function) :
  Lambda.set_invocations n (Lambda.set_invocations k f) = Lambda.set_invocations n f.
Proof. reflexivity. Qed.

Lemma set_invocations_same (f : Lambda.Function) (n : Z) :
  n = Lambda.invocations f -> Lambda.set_invocations n f = f.
Proof. intros ->. by destruct f. Qed.

(** X16. Invocations are counted: any number of calls of [invoke_function]
    on a registered function, whatever their payloads and invocation types,
    each return the status-200 dictionary echoing the payload (the empty
    dictionary when there is none), and together they add their number to
    the counter [invocations] and change nothing else in the manager. *)
Theorem invocations_are_counted (name : string)
    (calls : list (option (list (string * pyval)) * string))
    (m : Lambda.LambdaManager) (f : Lambda.Function) :
  Lambda.functions m !! name = Some f ->
  map_each (fun c => Lambda.invoke_function name c.1 c.2) calls m
  = Return (map (fun c => invocation_result c.1) calls)
           (lambda_with
              (<[name := Lambda.set_invocations
                           (Lambda.invocations f + Z.of_nat (length calls)) f]>
                 (Lambda.functions m)) m).
Proof.
  revert m f. induction calls as [|[payload type] calls IH]; intros m f Hf.
  - cbn [map_each map length]. unfold ret. f_equal.
    rewrite set_invocations_same by (cbn; lia).
    rewrite insert_id by done. symmetry. apply lambda_with_registry.
  - cbn [map_each map length fst snd]. unfold bind at 1.
    rewrite lambda_invoke_eval, Hf. unfold bind at 1.
    rewrite (IH _ (Lambda.set_invocations (Lambda.invocations f + 1) f))
      by (cbn [Lambda.functions lambda_with]; apply lookup_insert_eq).
    unfold ret. f_equal.
    cbn [Lambda.functions lambda_with Lambda.invocations Lambda.set_invocations].
    rewrite lambda_with_twice, insert_insert_eq. do 2 f_equal.
    unfold Lambda.set_invocations. cbn. f_equal. lia.
Qed.

Lemma invocations_are_counted_witness :
  exists f,
    Lambda.functions sample_lambda !! "test-fn" = Some f /\
    Lambda.invocations f = 0%Z /\
    exists results m' f',
      map_each (fun c => Lambda.invoke_function "test-fn" c.1 c.2) sample_invocations
        sample_lambda = Return results m' /\
      Lambda.functions m' !! "test-fn" = Some f' /\
      Lambda.invocations f' = 3%Z.
Proof.
  eassert (Lambda.functions sample_lambda !! "test-fn" = Some _) as Hf
    by (vm_compute; reflexivity).
  eexists. split; [exact Hf|]. split; [reflexivity|].
  eexists _, _, _.
  split; [exact (invocations_are_counted "test-fn" sample_invocations sample_lambda _ Hf)|].
  split; [apply lookup_insert_eq | reflexivity].
Defined.

Lemma lambda_update_configuration_exact (name : string) (timeout memory_size : option Z)
    (environment : option (gmap string string)) (amb : Ambient) (m : Lambda.LambdaManager) :
  Lambda.update_function_configuration name timeout memory_size environment (amb, m) =
  match Lambda.functions m !! name with
  | Some f =>
      Return true
        (advanced 1 0 amb,
         lambda_with
           (<[name := Lambda.set_configuration
                        (default (Lambda.timeout f) timeout)
                        (default (Lambda.memory_size f) memory_size)
                        (default (Lambda.environment f) environment)
                        (wall_clock amb (ticks amb)) f]> (Lambda.functions m)) m)
  | None => Return false (amb, m)
  end.
Proof.
  unfold Lambda.update_function_configuration, bind, on_snd, on_fst, get_state, getitem.
  cbn [fst snd].
  destruct (Lambda.functions m !! name) as [f|] eqn:E; cbn; reflexivity.
Qed.

(** X17. [update_function_configuration] on a registered function applies
    every argument that is given, zero and the empty environment included,
    keeps the field of every argument that is not, stamps [last_modified]
    with the clock and touches no other field.  Two updates in a row do
    what one update does whose arguments are those of the later call where
    given and those of the earlier call otherwise. *)
Theorem configuration_updates_compose (name : string) (t1 m1 t2 m2 : option Z)
    (e1 e2 : option (gmap string string)) (amb : Ambient) (m : Lambda.LambdaManager)
    (f : Lambda.Function) :
  Lambda.functions m !! name = Some f ->
  (exists f',
     Lambda.update_function_configuration name t1 m1 e1 (amb, m)
       = Return true (advanced 1 0 amb,
                      lambda_with (<[name := f']> (Lambda.functions m)) m) /\
     Lambda.timeout f' = default (Lambda.timeout f) t1 /\
     Lambda.memory_size f' = default (Lambda.memory_size f) m1 /\
     Lambda.environment f' = default (Lambda.environment f) e1 /\
     Lambda.last_modified f' = wall_clock amb (ticks amb) /\
     Lambda.code_size f' = Lambda.code_size f /\
     Lambda.code_sha256 f' = Lambda.code_sha256 f /\
     lambda_same_identity f' f) /\
  (Lambda.update_function_configuration name t1 m1 e1 ;;;
   Lambda.update_function_configuration name t2 m2 e2) (amb, m)
  = Lambda.update_function_configuration name (later_or t2 t1) (later_or m2 m1)
      (later_or e2 e1) (advanced 1 0 amb, m).
Proof.
  intros Hf. split.
  - eexists. rewrite lambda_update_configuration_exact, Hf.
    split; [reflexivity|]. by repeat split.
  - unfold bind. rewrite !lambda_update_configuration_exact, Hf.
    rewrite lambda_update_configuration_exact.
    cbn [Lambda.functions lambda_with]. rewrite lookup_insert_eq.
    rewrite lambda_with_twice, insert_insert_eq. do 4 f_equal.
    destruct t1, t2, m1, m2, e1, e2; reflexivity.
Qed.

Lemma configuration_updates_compose_witness :
  exists f,
    Lambda.functions sample_lambda !! "test-fn" = Some f /\
    (Lambda.update_function_configuration "test-fn" (Some 0%Z) None (Some ∅) ;;;
     Lambda.update_function_configuration "test-fn" None (Some 256%Z) None)
      (sample_ambient, sample_lambda)
    = Lambda.update_function_configuration "test-fn" (later_or None (Some 0%Z))
        (later_or (Some 256%Z) None) (later_or None (Some ∅))
        (advanced 1 0 sample_ambient, sample_lambda).
Proof.
  eassert (Lambda.functions sample_lambda !! "test-fn" = Some _) as Hf
    by (vm_compute; reflexivity).
  eexists. split; [exact Hf|].
  exact (proj2 (configuration_updates_compose "test-fn" (Some 0%Z) None None (Some 256%Z)
                  (Some ∅) None sample_ambient sample_lambda _ Hf)).
Defined.

Lemma lambda_update_code_exact (name : string) (code : option string) (amb : Ambient)
    (m : Lambda.LambdaManager) (f : Lambda.Function) :
  Lambda.functions m !! name = Some f ->
  exists digest,
    Lambda.update_function_code name code (amb, m)
      = Return true
          (advanced 1 64 amb,
           lambda_with
             (<[name := Lambda.set_code (Lambda.len_code_or code (Lambda.code_size f))
                          ("sha256-" +:+ digest) (wall_clock amb (ticks amb)) f]>
                (Lambda.functions m)) m) /\
    String.length digest = 64 /\
    chars_from hexdigits digest.
Proof.
  intros Hf. unfold Lambda.update_function_code.
  unfold bind at 1. unfold on_snd at 1, get_state. cbn [fst snd]. rewrite Hf.
  cbn [bool_decide decide_rel is_Some_dec negb].
  unfold bind at 1. unfold getitem. rewrite Hf. unfold ret at 1.
  unfold Lambda.fresh_sha256. unfold bind at 1. unfold on_fst at 1. unfold bind at 1.
  cbn [fst snd].
  destruct (choices_from hexdigits 64 amb) as (digest & -> & Hlen & Hfrom); [cbn; lia|].
  cbn. exists digest. by repeat split.
Qed.

(** X18. [update_function_code] on a registered function always issues a
    new digest, [sha256-] followed by 64 characters among [0-9a-fA-F], and
    stamps [last_modified] with the clock, whether code is given or not;
    [code_size] becomes the length of the code when code is given and not
    empty and is kept otherwise; the configuration, the invocation counter
    and the other fields are untouched. *)
Theorem update_function_code_refreshes (name : string) (code : option string)
    (amb : Ambient) (m : Lambda.LambdaManager) (f : Lambda.Function) :
  Lambda.functions m !! name = Some f ->
  exists digest f',
    Lambda.update_function_code name code (amb, m)
      = Return true (advanced 1 64 amb,
                     lambda_with (<[name := f']> (Lambda.functions m)) m) /\
    Lambda.code_sha256 f' = "sha256-" +:+ digest /\
    String.length digest = 64 /\
    chars_from hexdigits digest /\
    Lambda.last_modified f' = wall_clock amb (ticks amb) /\
    Lambda.code_size f'
      = match code with
        | Some c => if String.eqb c "" then Lambda.code_size f
                    else Z.of_nat (String.length c)
        | None => Lambda.code_size f
        end /\
    Lambda.timeout f' = Lambda.timeout f /\
    Lambda.memory_size f' = Lambda.memory_size f /\
    Lambda.environment f' = Lambda.environment f /\
    lambda_same_identity f' f.
Proof.
  intros Hf.
  destruct (lambda_update_code_exact name code amb m f Hf) as (digest & Hrun & Hlen & Hfrom).
  exists digest. eexists. split; [exact Hrun|].
  cbn [Lambda.code_sha256 Lambda.last_modified Lambda.code_size Lambda.timeout
       Lambda.memory_size Lambda.environment Lambda.set_code].
  split; [reflexivity|]. split; [exact Hlen|]. split; [exact Hfrom|].
  split; [reflexivity|]. split.
  { unfold Lambda.len_code_or, truthy_str. destruct code as [c|]; [|reflexivity].
    by destruct (String.eqb c ""). }
  by repeat split.
Qed.

Lemma update_function_code_refreshes_witness :
  exists f,
    Lambda.functions sample_lambda !! "test-fn" = Some f /\
    exists digest f' m',
      Lambda.update_function_code "test-fn" (Some "") (sample_ambient, sample_lambda)
        = Return true (advanced 1 64 sample_ambient, m') /\
      Lambda.code_sha256 f' = "sha256-" +:+ digest /\
      String.length digest = 64 /\
      Lambda.code_size f' = Lambda.code_size f.
Proof.
  eassert (Lambda.functions sample_lambda !! "test-fn" = Some _) as Hf
    by (vm_compute; reflexivity).
  eexists. split; [exact Hf|].
  destruct (update_function_code_refreshes "test-fn" (Some "") sample_ambient
              sample_lambda _ Hf)
    as (digest & f' & Hrun & Hsha & Hlen & _ & _ & Hsize & _).
  exists digest, f'. eexists. split; [exact Hrun|]. split; [exact Hsha|].
  split; [exact Hlen | exact Hsize].
Defined.

(* ===================================================================== *)
(** * Creating under a new identifier *)
(* ===================================================================== *)

Lemma s3_with_registry (m : S3.S3Manager) : s3_with (S3.buckets m) m = m.
Proof. by destruct m. Qed.

Lemma s3_create_fresh (a : S3.create_args) (amb : Ambient) (m : S3.S3Manager) :
  S3.buckets m !! S3.arg_bucket_name a = None ->
  exists b,
    S3.create_bucket a (amb, m)
      = Return (S3.arg_bucket_name a)
               (advanced 1 0 amb,
                s3_with (<[S3.arg_bucket_name a := b]> (S3.buckets m)) m) /\
    s3_record_of a b /\
    S3.creation_date b = wall_clock amb (ticks amb).
Proof.
  intros E. unfold S3.create_bucket, bind, on_snd, get_state. cbn. rewrite E. cbn.
  eexists. split; [reflexivity|]. by repeat split.
Qed.

Lemma rds_create_fresh (a : RDS.create_args) (amb : Ambient) (m : RDS.RDSManager) :
  RDS.instances m !! RDS.arg_db_instance_identifier a = None ->
  exists n i,
    RDS.create_instance a (amb, m)
      = Return (RDS.arg_db_instance_identifier a)
               (advanced 1 1 amb,
                rds_with (<[RDS.arg_db_instance_identifier a := i]> (RDS.instances m)) m) /\
    rds_record_of a i /\
    RDS.endpoint i
      = RDS.arg_db_instance_identifier a +:+ "." +:+ pretty n
        +:+ ".us-east-1.rds.amazonaws.com" /\
    (100000 <= n <= 999999)%Z /\
    RDS.creation_time i = wall_clock amb (ticks amb).
Proof.
  intros E. unfold RDS.create_instance, bind, on_snd, get_state. cbn. rewrite E. cbn.
  eexists _, _. split; [reflexivity|]. split; [by repeat split|].
  split; [reflexivity|]. split; [|reflexivity]. apply randint_in_range. lia.
Qed.

Lemma lambda_create_fresh (a : Lambda.create_args) (amb : Ambient)
    (m : Lambda.LambdaManager) :
  Lambda.functions m !! Lambda.arg_function_name a = None ->
  exists digest f,
    Lambda.create_function a (amb, m)
      = Return (Lambda.arg_function_name a)
               (advanced 1 64 amb,
                lambda_with (<[Lambda.arg_function_name a := f]> (Lambda.functions m)) m) /\
    lambda_record_of a f /\
    Lambda.code_sha256 f = "sha256-" +:+ digest /\
    String.length digest = 64 /\
    chars_from hexdigits digest /\
    Lambda.last_modified f = wall_clock amb (ticks amb).
Proof.
  intros E. unfold Lambda.create_function.
  unfold bind at 1. unfold on_snd at 1, get_state. cbn [fst snd].
  rewrite E. cbn [bool_decide decide_rel is_Some_dec].
  unfold Lambda.fresh_sha256. unfold bind at 1. unfold on_fst at 1. unfold bind at 1.
  cbn [fst snd].
  destruct (choices_from hexdigits 64 amb) as (digest & -> & Hlen & Hfrom); [cbn; lia|].
  cbn. exists digest. eexists. split; [reflexivity|]. split; [by repeat split|].
  by repeat split.
Qed.

(** X19. Creating a bucket, a database instance or a function under an
    identifier that is not registered and deleting it right away gives back
    the manager exactly as it was: the deletion returns [True], also for the
    bucket without [force], and only the clock and the random generator
    have moved. *)
Theorem create_then_delete_restores (sa : S3.create_args) (ra : RDS.create_args)
    (la : Lambda.create_args) (skip : bool) (snapshot : option string) (amb : Ambient)
    (s : S3.S3Manager) (r : RDS.RDSManager) (l : Lambda.LambdaManager) :
  S3.buckets s !! S3.arg_bucket_name sa = None ->
  RDS.instances r !! RDS.arg_db_instance_identifier ra = None ->
  Lambda.functions l !! Lambda.arg_function_name la = None ->
  (S3.create_bucket sa ;;; on_snd (S3.delete_bucket (S3.arg_bucket_name sa) false)) (amb, s)
    = Return true (advanced 1 0 amb, s) /\
  (RDS.create_instance ra ;;;
   on_snd (RDS.delete_instance (RDS.arg_db_instance_identifier ra) skip snapshot)) (amb, r)
    = Return true (advanced 1 1 amb, r) /\
  (Lambda.create_function la ;;;
   on_snd (Lambda.delete_function (Lambda.arg_function_name la))) (amb, l)
    = Return true (advanced 1 64 amb, l).
Proof.
  intros Hs Hr Hl. split; [|split].
  - destruct (s3_create_fresh sa amb s Hs) as (b & Hrun & Hrecord & _).
    destruct Hrecord as (_ & _ & _ & _ & _ & _ & Hempty & _).
    unfold bind. rewrite Hrun. unfold on_snd. cbn [fst snd].
    rewrite s3_delete_bucket_eval. cbn [S3.buckets s3_with]. rewrite lookup_insert_eq.
    rewrite Hempty. cbn. rewrite delete_insert_id by done. do 2 f_equal. by destruct s.
  - destruct (rds_create_fresh ra amb r Hr) as (n & i & Hrun & _).
    unfold bind. rewrite Hrun. unfold on_snd. cbn [fst snd].
    rewrite rds_delete_eval. cbn [RDS.instances rds_with]. rewrite lookup_insert_eq.
    rewrite rds_with_twice, delete_insert_id by done. by rewrite rds_with_registry.
  - destruct (lambda_create_fresh la amb l Hl) as (digest & f & Hrun & _).
    unfold bind. rewrite Hrun. unfold on_snd. cbn [fst snd].
    rewrite lambda_delete_eval. cbn [Lambda.functions lambda_with]. rewrite lookup_insert_eq.
    cbn [Lambda.simulation_mode lambda_with].
    rewrite delete_insert_id by done. do 2 f_equal. by destruct l.
Qed.

Lemma create_then_delete_restores_witness :
  S3.buckets sample_s3 !! S3.arg_bucket_name scratch_bucket_args = None /\
  RDS.instances sample_rds !! RDS.arg_db_instance_identifier scratch_db_args = None /\
  Lambda.functions sample_lambda !! Lambda.arg_function_name scratch_function_args = None /\
  (S3.create_bucket scratch_bucket_args ;;;
   on_snd (S3.delete_bucket (S3.arg_bucket_name scratch_bucket_args) false))
    (sample_ambient, sample_s3)
    = Return true (advanced 1 0 sample_ambient, sample_s3) /\
  (RDS.create_instance scratch_db_args ;;;
   on_snd (RDS.delete_instance (RDS.arg_db_instance_identifier scratch_db_args) true None))
    (sample_ambient, sample_rds)
    = Return true (advanced 1 1 sample_ambient, sample_rds) /\
  (Lambda.create_function scratch_function_args ;;;
   on_snd (Lambda.delete_function (Lambda.arg_function_name scratch_function_args)))
    (sample_ambient, sample_lambda)
    = Return true (advanced 1 64 sample_ambient, sample_lambda).
Proof.
  assert (S3.buckets sample_s3 !! S3.arg_bucket_name scratch_bucket_args = None) as Hs
    by (vm_compute; reflexivity).
  assert (RDS.instances sample_rds !! RDS.arg_db_instance_identifier scratch_db_args = None)
    as Hr by (vm_compute; reflexivity).
  assert (Lambda.functions sample_lambda !! Lambda.arg_function_name scratch_function_args
          = None) as Hl by (vm_compute; reflexivity).
  split; [exact Hs|]. split; [exact Hr|]. split; [exact Hl|].
  exact (create_then_delete_restores scratch_bucket_args scratch_db_args
           scratch_function_args true None sample_ambient sample_s3 sample_rds
           sample_lambda Hs Hr Hl).
Defined.

(** X20. The values that the keyed managers generate: the entity tag of an
    object put into a registered bucket is [etag-] followed by a number between
    100000 and 999999; the endpoint of a database instance created under a
    new identifier is the identifier, a number in the same range and
    [.us-east-1.rds.amazonaws.com]; the digest of a function created under a
    new name is [sha256-] followed by 64 characters among [0-9a-fA-F].  Each
    of the three records is stamped with one reading of the clock. *)
Theorem generated_fields_are_well_formed (bucket_name key body : string)
    (metadata : option (gmap string string)) (ra : RDS.create_args)
    (la : Lambda.create_args) (amb : Ambient)
    (s : S3.S3Manager) (r : RDS.RDSManager) (l : Lambda.LambdaManager) :
  is_Some (S3.buckets s !! bucket_name) ->
  RDS.instances r !! RDS.arg_db_instance_identifier ra = None ->
  Lambda.functions l !! Lambda.arg_function_name la = None ->
  (exists n obj b',
     S3.put_object bucket_name key body metadata (amb, s)
       = Return true (advanced 1 1 amb, s3_with (<[bucket_name := b']> (S3.buckets s)) s) /\
     last (S3.objects b') = Some obj /\
     S3.etag obj = "etag-" +:+ pretty n /\
     (100000 <= n <= 999999)%Z /\
     S3.last_modified obj = wall_clock amb (ticks amb)) /\
  (exists n i,
     RDS.create_instance ra (amb, r)
       = Return (RDS.arg_db_instance_identifier ra)
                (advanced 1 1 amb,
                 rds_with (<[RDS.arg_db_instance_identifier ra := i]> (RDS.instances r)) r) /\
     RDS.endpoint i
       = RDS.arg_db_instance_identifier ra +:+ "." +:+ pretty n
         +:+ ".us-east-1.rds.amazonaws.com" /\
     (100000 <= n <= 999999)%Z /\
     RDS.creation_time i = wall_clock amb (ticks amb)) /\
  (exists digest f,
     Lambda.create_function la (amb, l)
       = Return (Lambda.arg_function_name la)
                (advanced 1 64 amb,
                 lambda_with (<[Lambda.arg_function_name la := f]> (Lambda.functions l)) l) /\
     Lambda.code_sha256 f = "sha256-" +:+ digest /\
     String.length digest = 64 /\
     chars_from hexdigits digest /\
     Lambda.last_modified f = wall_clock amb (ticks amb)).
Proof.
  intros [b Hb] Hr Hl. split; [|split].
  - unfold S3.put_object, bind, on_snd, on_fst, get_state, getitem. cbn [fst snd].
    rewrite Hb. cbn. eexists _, (S3.mkObject _ _ _ _ _), _.
    split; [reflexivity|]. cbn [S3.objects S3.set_objects S3.set_size_bytes].
    split; [apply last_snoc|]. cbn [S3.etag S3.last_modified].
    split; [reflexivity|]. split; [|reflexivity]. apply randint_in_range. lia.
  - destruct (rds_create_fresh ra amb r Hr) as (n & i & Hrun & _ & Hend & Hn & Htime).
    by exists n, i.
  - destruct (lambda_create_fresh la amb l Hl)
      as (digest & f & Hrun & _ & Hsha & Hlen & Hfrom & Htime).
    by exists digest, f.
Qed.

Lemma generated_fields_are_well_formed_witness :
  is_Some (S3.buckets sample_s3 !! "test-bucket") /\
  RDS.instances sample_rds !! RDS.arg_db_instance_identifier scratch_db_args = None /\
  Lambda.functions sample_lambda !! Lambda.arg_function_name scratch_function_args = None /\
  (exists n i,
     RDS.create_instance scratch_db_args (sample_ambient, sample_rds)
       = Return (RDS.arg_db_instance_identifier scratch_db_args)
                (advanced 1 1 sample_ambient,
                 rds_with (<[RDS.arg_db_instance_identifier scratch_db_args := i]>
                             (RDS.instances sample_rds)) sample_rds) /\
     RDS.endpoint i
       = RDS.arg_db_instance_identifier scratch_db_args +:+ "." +:+ pretty n
         +:+ ".us-east-1.rds.amazonaws.com" /\
     (100000 <= n <= 999999)%Z /\
     RDS.creation_time i = wall_clock sample_ambient (ticks sample_ambient)).
Proof.
  eassert (S3.buckets sample_s3 !! "test-bucket" = Some _) as Hb
    by (vm_compute; reflexivity).
  pose proof (mk_is_Some _ _ Hb) as Hs.
  assert (RDS.instances sample_rds !! RDS.arg_db_instance_identifier scratch_db_args = None)
    as Hr by (vm_compute; reflexivity).
  assert (Lambda.functions sample_lambda !! Lambda.arg_function_name scratch_function_args
          = None) as Hl by (vm_compute; reflexivity).
  split; [exact Hs|]. split; [exact Hr|]. split; [exact Hl|].
  exact (proj1 (proj2 (generated_fields_are_well_formed "test-bucket" "a.txt" "xy" None
                         scratch_db_args scratch_function_args sample_ambient sample_s3
                         sample_rds sample_lambda Hs Hr Hl))).
Defined.

(* ===================================================================== *)
(** * What a destruction counts *)
(* ===================================================================== *)

Lemma destroy_results_lookup (e s r l : Z) :
  destroy_results e s r l !! "ec2_terminated" = Some e /\
  destroy_results e s r l !! "s3_deleted" = Some s /\
  destroy_results e s r l !! "rds_deleted" = Some r /\
  destroy_results e s r l !! "lambda_deleted" = Some l.
Proof. by repeat split. Qed.

Lemma count_true_registered {R : Type} (d : gmap string R) (ids : list string) :
  count_true (map (fun id => bool_decide (is_Some (d !! id))) ids)
  = Z.of_nat (length (registered_among d ids)).
Proof.
  unfold registered_among. induction ids as [|id ids IH]; [reflexivity|].
  cbn [map]. rewrite count_true_cons, IH. case_bool_decide.
  - rewrite filter_cons_True by done. cbn [length]. lia.
  - rewrite filter_cons_False by done. lia.
Qed.

(** Registries with the same keys have the same size. *)
Lemma same_keys_same_size {R : Type} (d d' : gmap string R) :
  (forall id, is_Some (d' !! id) <-> is_Some (d !! id)) -> size d' = size d.
Proof.
  intros Hkeys. rewrite <- !size_dom. f_equal. apply set_eq. intros id.
  by rewrite !elem_of_dom.
Qed.

(** X21. [destroy_infrastructure] always returns, with the clock and the
    generator untouched, and its counts are exact: the storage, database and
    function counts are the numbers of records that left the three
    registries; the compute count is the number of identifiers of the
    compute list that are registered, repeats included, while the compute
    registry keeps every record. *)
Theorem destroy_counts_what_it_removes (resource_ids : gmap string (list string))
    (amb : Ambient) (w : AWS.AWSAutomation) :
  exists counts w',
    AWS.destroy_infrastructure resource_ids (amb, w) = Return counts (amb, w') /\
    counts !! "ec2_terminated"
      = Some (Z.of_nat (length (registered_among
                                  (EC2.instances (AWS.ec2 w))
                                  (AWS.get_or_empty resource_ids "ec2_instances")))) /\
    size (EC2.instances (AWS.ec2 w')) = size (EC2.instances (AWS.ec2 w)) /\
    counts !! "s3_deleted"
      = Some (Z.of_nat (size (S3.buckets (AWS.s3 w)))
              - Z.of_nat (size (S3.buckets (AWS.s3 w'))))%Z /\
    counts !! "rds_deleted"
      = Some (Z.of_nat (size (RDS.instances (AWS.rds w)))
              - Z.of_nat (size (RDS.instances (AWS.rds w'))))%Z /\
    counts !! "lambda_deleted"
      = Some (Z.of_nat (size (Lambda.functions (AWS.lambda_mgr w)))
              - Z.of_nat (size (Lambda.functions (AWS.lambda_mgr w'))))%Z.
Proof.
  destruct (destroy_characterised resource_ids amb w)
    as (oe & os & od & ol & w' & Hrun & He & Hs & Hr & Hl & _).
  eexists _, w'. split; [exact Hrun|].
  destruct (destroy_results_lookup (count_true oe) (count_true os) (count_true od)
              (count_true ol)) as (-> & -> & -> & ->).
  destruct (ec2_terminate_batch (AWS.get_or_empty resource_ids "ec2_instances") (AWS.ec2 w))
    as (m1 & He' & _ & Hlook_e).
  rewrite He in He'. injection He' as -> <-.
  destruct (s3_delete_batch (AWS.get_or_empty resource_ids "s3_buckets") (AWS.s3 w))
    as (os' & m2 & Hs' & _ & Hsize_s).
  rewrite Hs in Hs'. injection Hs' as <- <-.
  destruct (rds_delete_batch (AWS.get_or_empty resource_ids "rds_instances") (AWS.rds w))
    as (od' & m3 & Hr' & _ & Hsize_r).
  rewrite Hr in Hr'. injection Hr' as <- <-.
  destruct (lambda_delete_batch (AWS.get_or_empty resource_ids "lambda_functions")
              (AWS.lambda_mgr w)) as (ol' & m4 & Hl' & _ & Hsize_l).
  rewrite Hl in Hl'. injection Hl' as <- <-.
  split; [by rewrite count_true_registered|]. split.
  { apply same_keys_same_size. intros id. rewrite Hlook_e.
    case_bool_decide; [|done]. by rewrite fmap_is_Some. }
  split; [f_equal; lia|]. split; f_equal; lia.
Qed.

(** X22. Destroying the same identifiers a second time changes no
    registry: the second call deletes no bucket, no database instance and no
    function and reports zero for the three, while it reports the compute
    instances of the list as terminated once more, with the count of the
    first call. *)
Theorem destroy_twice_changes_nothing_more (resource_ids : gmap string (list string))
    (amb : Ambient) (w : AWS.AWSAutomation) :
  exists counts1 w1 counts2 w2,
    AWS.destroy_infrastructure resource_ids (amb, w) = Return counts1 (amb, w1) /\
    AWS.destroy_infrastructure resource_ids (amb, w1) = Return counts2 (amb, w2) /\
    EC2.instances (AWS.ec2 w2) = EC2.instances (AWS.ec2 w1) /\
    S3.buckets (AWS.s3 w2) = S3.buckets (AWS.s3 w1) /\
    RDS.instances (AWS.rds w2) = RDS.instances (AWS.rds w1) /\
    Lambda.functions (AWS.lambda_mgr w2) = Lambda.functions (AWS.lambda_mgr w1) /\
    counts2 !! "ec2_terminated" = counts1 !! "ec2_terminated" /\
    counts2 !! "s3_deleted" = Some 0%Z /\
    counts2 !! "rds_deleted" = Some 0%Z /\
    counts2 !! "lambda_deleted" = Some 0%Z.
Proof.
  destruct (destroy_characterised resource_ids amb w)
    as (oe & os & od & ol & w1 & Hrun1 & He1 & Hs1 & Hr1 & Hl1 & _).
  destruct (destroy_characterised resource_ids amb w1)
    as (oe' & os' & od' & ol' & w2 & Hrun2 & He2 & Hs2 & Hr2 & Hl2 & _).
  eexists _, w1, _, w2. split; [exact Hrun1|]. split; [exact Hrun2|].
  destruct (destroy_results_lookup (count_true oe) (count_true os) (count_true od)
              (count_true ol)) as (-> & _).
  destruct (destroy_results_lookup (count_true oe') (count_true os') (count_true od')
              (count_true ol')) as (-> & -> & -> & ->).
  (* the compute manager *)
  destruct (ec2_terminate_batch (AWS.get_or_empty resource_ids "ec2_instances") (AWS.ec2 w))
    as (e1 & He & _ & Hlook_e1).
  rewrite He1 in He. injection He as -> <-.
  destruct (ec2_terminate_batch (AWS.get_or_empty resource_ids "ec2_instances")
              (AWS.ec2 w1)) as (e2 & He & _ & Hlook_e2).
  rewrite He2 in He. injection He as -> <-.
  (* the storage manager *)
  destruct (s3_delete_batch (AWS.get_or_empty resource_ids "s3_buckets") (AWS.s3 w))
    as (x & s1 & Hs & Hlook_s1 & _).
  rewrite Hs1 in Hs. injection Hs as <- <-.
  destruct (s3_delete_batch (AWS.get_or_empty resource_ids "s3_buckets") (AWS.s3 w1))
    as (x & s2 & Hs & Hlook_s2 & Hsize_s).
  rewrite Hs2 in Hs. injection Hs as <- <-.
  (* the database manager *)
  destruct (rds_delete_batch (AWS.get_or_empty resource_ids "rds_instances") (AWS.rds w))
    as (x & r1 & Hr & Hlook_r1 & _).
  rewrite Hr1 in Hr. injection Hr as <- <-.
  destruct (rds_delete_batch (AWS.get_or_empty resource_ids "rds_instances") (AWS.rds w1))
    as (x & r2 & Hr & Hlook_r2 & Hsize_r).
  rewrite Hr2 in Hr. injection Hr as <- <-.
  (* the function manager *)
  destruct (lambda_delete_batch (AWS.get_or_empty resource_ids "lambda_functions")
              (AWS.lambda_mgr w)) as (x & l1 & Hl & Hlook_l1 & _).
  rewrite Hl1 in Hl. injection Hl as <- <-.
  destruct (lambda_delete_batch (AWS.get_or_empty resource_ids "lambda_functions")
              (AWS.lambda_mgr w1)) as (x & l2 & Hl & Hlook_l2 & Hsize_l).
  rewrite Hl2 in Hl. injection Hl as <- <-.
  assert (EC2.instances (AWS.ec2 w2) = EC2.instances (AWS.ec2 w1)) as Hsame_e.
  { apply map_eq. intros id. rewrite Hlook_e2, Hlook_e1.
    case_bool_decide; [|done]. by destruct (EC2.instances (AWS.ec2 w) !! id). }
  assert (S3.buckets (AWS.s3 w2) = S3.buckets (AWS.s3 w1)) as Hsame_s.
  { apply map_eq. intros name. rewrite Hlook_s2. case_bool_decide as Hin; [|done].
    unfold survivor at 1. rewrite Hlook_s1, bool_decide_eq_true_2 by done.
    unfold survivor. destruct (S3.buckets (AWS.s3 w) !! name) as [b|]; [|done].
    destruct (bool_decide (S3.objects b = [])) eqn:D; [done|]. by rewrite D. }
  assert (RDS.instances (AWS.rds w2) = RDS.instances (AWS.rds w1)) as Hsame_r.
  { apply map_eq. intros id. rewrite Hlook_r2, Hlook_r1. by case_bool_decide. }
  assert (Lambda.functions (AWS.lambda_mgr w2) = Lambda.functions (AWS.lambda_mgr w1))
    as Hsame_l.
  { apply map_eq. intros name. rewrite Hlook_l2, Hlook_l1. by case_bool_decide. }
  split; [exact Hsame_e|]. split; [exact Hsame_s|]. split; [exact Hsame_r|].
  split; [exact Hsame_l|]. split.
  { do 2 f_equal. apply map_ext. intros id. apply bool_decide_ext.
    rewrite Hlook_e1. case_bool_decide; [|done]. by rewrite fmap_is_Some. }
  rewrite Hsame_s in Hsize_s. rewrite Hsame_r in Hsize_r. rewrite Hsame_l in Hsize_l.
  split; [f_equal; lia|]. split; f_equal; lia.
Qed.

(* ===================================================================== *)
(** * The status report *)
(* ===================================================================== *)

Lemma status_eval (amb : Ambient) (w : AWS.AWSAutomation) :
  AWS.get_infrastructure_status (amb, w)
  = Return (AWS.mkStatus (values (EC2.instances (AWS.ec2 w)))
                         (values (S3.buckets (AWS.s3 w)))
                         (values (RDS.instances (AWS.rds w)))
                         (values (Lambda.functions (AWS.lambda_mgr w)))) (amb, w).
Proof.
  unfold AWS.get_infrastructure_status, bind, AWS.on_ec2, AWS.on_s3, AWS.on_rds,
    AWS.on_lambda, on_snd, EC2.list_instances, S3.list_buckets, RDS.list_instances,
    Lambda.list_functions, get_state, ret.
  cbn. by rewrite automation_eta.
Qed.

(** X23. [get_infrastructure_status] changes nothing and reports every
    registry in full: each of its four lists holds exactly the records of
    one registry, one per registered identifier, terminated instances and
    stopped databases included. *)
Theorem status_is_a_snapshot (amb : Ambient) (w : AWS.AWSAutomation) :
  exists report,
    AWS.get_infrastructure_status (amb, w) = Return report (amb, w) /\
    (length (AWS.ec2_instances report) = size (EC2.instances (AWS.ec2 w)) /\
     forall info, info ∈ AWS.ec2_instances report <->
                  exists id, EC2.instances (AWS.ec2 w) !! id = Some info) /\
    (length (AWS.s3_buckets report) = size (S3.buckets (AWS.s3 w)) /\
     forall b, b ∈ AWS.s3_buckets report <->
               exists name, S3.buckets (AWS.s3 w) !! name = Some b) /\
    (length (AWS.rds_instances report) = size (RDS.instances (AWS.rds w)) /\
     forall info, info ∈ AWS.rds_instances report <->
                  exists id, RDS.instances (AWS.rds w) !! id = Some info) /\
    (length (AWS.lambda_functions report) = size (Lambda.functions (AWS.lambda_mgr w)) /\
     forall f, f ∈ AWS.lambda_functions report <->
               exists name, Lambda.functions (AWS.lambda_mgr w) !! name = Some f).
Proof.
  eexists. split.
  - apply status_eval.
  - cbn [AWS.ec2_instances AWS.s3_buckets AWS.rds_instances AWS.lambda_functions].
    repeat split; try apply values_length; by apply values_elem.
Qed.

(* ===================================================================== *)
(** * Nothing to provision, nothing to destroy *)
(* ===================================================================== *)

(** X24. A configuration whose four keys are absent or hold empty lists
    provisions nothing: [provision_infrastructure] returns the four empty
    lists and changes nothing.  A dictionary whose four lists are absent or
    empty destroys nothing, whatever other keys it holds:
    [destroy_infrastructure] returns four zero counts and changes nothing. *)
Theorem empty_batches_change_nothing (cfg : AWS.infrastructure_config)
    (resource_ids : gmap string (list string)) (amb : Ambient) (w : AWS.AWSAutomation) :
  default [] (AWS.cfg_ec2 cfg) = [] ->
  default [] (AWS.cfg_s3 cfg) = [] ->
  default [] (AWS.cfg_rds cfg) = [] ->
  default [] (AWS.cfg_lambda cfg) = [] ->
  AWS.get_or_empty resource_ids "ec2_instances" = [] ->
  AWS.get_or_empty resource_ids "s3_buckets" = [] ->
  AWS.get_or_empty resource_ids "rds_instances" = [] ->
  AWS.get_or_empty resource_ids "lambda_functions" = [] ->
  AWS.provision_infrastructure cfg (amb, w)
    = Return (provision_results [] [] [] []) (amb, w) /\
  AWS.destroy_infrastructure resource_ids (amb, w)
    = Return (destroy_results 0 0 0 0) (amb, w).
Proof.
  intros He Hs Hr Hl De Ds Dr Dl. split.
  - rewrite (provision_eval cfg amb w [] [] [] [] amb amb amb amb
               (AWS.ec2 w) (AWS.s3 w) (AWS.rds w) (AWS.lambda_mgr w)).
    + by rewrite automation_eta.
    + by rewrite He.
    + by rewrite Hs.
    + by rewrite Hr.
    + by rewrite Hl.
  - rewrite (destroy_eval resource_ids amb w [] [] [] []
               (AWS.ec2 w) (AWS.s3 w) (AWS.rds w) (AWS.lambda_mgr w)).
    + by rewrite automation_eta.
    + by rewrite De.
    + by rewrite Ds.
    + by rewrite Dr.
    + by rewrite Dl.
Qed.

Lemma empty_batches_change_nothing_witness :
  AWS.provision_infrastructure (AWS.mkConfig None (Some []) None (Some []))
    (sample_ambient, sample_world)
    = Return (provision_results [] [] [] []) (sample_ambient, sample_world) /\
  AWS.destroy_infrastructure (<["s3_buckets" := []]> (<["unknown_key" := ["x"]]> ∅))
    (sample_ambient, sample_world)
    = Return (destroy_results 0 0 0 0) (sample_ambient, sample_world).
Proof.
  exact (empty_batches_change_nothing (AWS.mkConfig None (Some []) None (Some []))
           (<["s3_buckets" := []]> (<["unknown_key" := ["x"]]> ∅))
           sample_ambient sample_world eq_refl eq_refl eq_refl eq_refl
           eq_refl eq_refl eq_refl eq_refl).
Defined.

(* ===================================================================== *)
(** * Well-formed registries *)
(* ===================================================================== *)

(** Closes a goal [x ∈ [a; b; ...]] for a listed [x]. *)
Ltac listed := apply elem_of_cons; first [left; reflexivity | right; listed].

(** Unfolds a call down to the method of the manager, lifted or not. *)
Ltac run_outer :=
  unfold run, bind, AWS.on_ec2, AWS.on_s3, AWS.on_rds, AWS.on_lambda; cbn [fst snd].

Lemma map_each_invariant {S A B : Type} (f : A -> Py S B) (I : S -> Prop) :
  (forall x s, I s -> exists b s', f x s = Return b s' /\ I s') ->
  forall xs s, I s -> exists bs s', map_each f xs s = Return bs s' /\ I s'.
Proof.
  intros Hstep xs. induction xs as [|x xs IH]; intros s Hs.
  - by exists [], s.
  - destruct (Hstep x s Hs) as (b & s1 & Hrun & Hs1).
    destruct (IH s1 Hs1) as (bs & s' & Hruns & Hs').
    exists (b :: bs), s'. cbn [map_each]. unfold bind at 1. rewrite Hrun.
    unfold bind at 1. by rewrite Hruns.
Qed.

(** ** The compute manager *)

Lemma ec2_create_keeps (a : EC2.create_args) (amb : Ambient) (m : EC2.EC2Manager) :
  map_Forall ec2_record_ok (EC2.instances m) ->
  exists id st',
    EC2.create_instance a (amb, m) = Return id st' /\
    map_Forall ec2_record_ok (EC2.instances (snd st')).
Proof.
  intros Hok. destruct (ec2_create_eval a amb m) as (new & amb' & -> & Hrec).
  eexists _, _. split; [reflexivity|]. cbn [snd EC2.instances ec2_with].
  apply map_Forall_insert_2; [|exact Hok]. split; [reflexivity|].
  destruct Hrec as (_ & _ & _ & _ & _ & ->). listed.
Qed.

Lemma ec2_set_state_keeps (m : EC2.EC2Manager) (id s : string) (info : EC2.Instance) :
  map_Forall ec2_record_ok (EC2.instances m) ->
  EC2.instances m !! id = Some info ->
  s ∈ ["running"; "stopped"; "terminated"] ->
  map_Forall ec2_record_ok
    (EC2.instances (ec2_with (<[id := EC2.set_state s info]> (EC2.instances m)) m)).
Proof.
  intros Hok Hinfo Hs. cbn [EC2.instances ec2_with].
  apply map_Forall_insert_2; [|exact Hok]. destruct (Hok _ _ Hinfo) as [Hid _].
  by split.
Qed.

Lemma ec2_terminate_keeps (id : string) (m : EC2.EC2Manager) :
  map_Forall ec2_record_ok (EC2.instances m) ->
  exists ok m',
    EC2.terminate_instance id m = Return ok m' /\
    map_Forall ec2_record_ok (EC2.instances m').
Proof.
  intros Hok. rewrite ec2_terminate_eval.
  destruct (EC2.instances m !! id) as [info|] eqn:E; eexists _, _;
    (split; [reflexivity|]); [|exact Hok].
  apply ec2_set_state_keeps; [done..|listed].
Qed.

Lemma ec2_calls_keep (c : call) (st : Ambient * AWS.AWSAutomation) (a : answer)
    (st' : Ambient * AWS.AWSAutomation) :
  service_of c = Ec2Service ->
  run c st = Return a st' ->
  map_Forall ec2_record_ok (EC2.instances (AWS.ec2 (snd st))) ->
  map_Forall ec2_record_ok (EC2.instances (AWS.ec2 (snd st'))).
Proof.
  destruct st as [amb w]. cbn [snd]. intros Hservice Hrun Hok. revert Hrun.
  destruct c; try discriminate Hservice; run_outer; unfold on_snd; cbn [fst snd].
  - destruct (ec2_create_keeps a0 amb (AWS.ec2 w) Hok) as (id & [amb' m'] & -> & Hok').
    by intros [= <- <-].
  - destruct (ec2_terminate_keeps instance_id (AWS.ec2 w) Hok) as (ok & m' & -> & Hok').
    by intros [= <- <-].
  - rewrite ec2_stop_eval.
    destruct (EC2.instances (AWS.ec2 w) !! instance_id) as [info|] eqn:E;
      [destruct (String.eqb (EC2.state info) "running")|];
      intros [= <- <-]; cbn [snd AWS.ec2]; try exact Hok.
    apply ec2_set_state_keeps; [done..|listed].
  - rewrite ec2_start_eval.
    destruct (EC2.instances (AWS.ec2 w) !! instance_id) as [info|] eqn:E;
      [destruct (String.eqb (EC2.state info) "stopped")|];
      intros [= <- <-]; cbn [snd AWS.ec2]; try exact Hok.
    apply ec2_set_state_keeps; [done..|listed].
  - unfold EC2.get_instance_info. py_unfold. by intros [= <- <-].
  - unfold EC2.list_instances. py_unfold.
    destruct state as [s|]; [destruct (truthy_str s)|]; by intros [= <- <-].
  - rewrite ec2_tag_eval.
    destruct (EC2.instances (AWS.ec2 w) !! instance_id) as [info|] eqn:E;
      intros [= <- <-]; cbn [snd AWS.ec2 EC2.instances ec2_with]; [|exact Hok].
    apply map_Forall_insert_2; [|exact Hok]. exact (Hok _ _ E).
Qed.

(** ** The storage manager *)

Lemma s3_create_keeps (a : S3.create_args) (amb : Ambient) (m : S3.S3Manager) :
  map_Forall s3_record_ok (S3.buckets m) ->
  exists name st',
    S3.create_bucket a (amb, m) = Return name st' /\
    map_Forall s3_record_ok (S3.buckets (snd st')).
Proof.
  intros Hok. destruct (s3_create_eval a amb m) as [Hold Hnew].
  destruct (S3.buckets m !! S3.arg_bucket_name a) as [b|].
  - rewrite (Hold b eq_refl). by eexists _, _.
  - destruct (Hnew eq_refl) as (b & amb' & -> & Hrec). eexists _, _.
    split; [reflexivity|]. cbn [snd S3.buckets s3_with].
    apply map_Forall_insert_2; [|exact Hok].
    destruct Hrec as (Hname & _ & _ & _ & _ & _ & Hobjs & Hsize).
    split; [exact Hname|]. unfold bucket_sound. rewrite Hobjs, Hsize.
    split; [apply NoDup_nil_2|]. split; [apply Forall_nil_2 | done].
Qed.

Lemma s3_delete_bucket_keeps (name : string) (force : bool) (m : S3.S3Manager) :
  map_Forall s3_record_ok (S3.buckets m) ->
  exists ok m',
    S3.delete_bucket name force m = Return ok m' /\
    map_Forall s3_record_ok (S3.buckets m').
Proof.
  intros Hok. rewrite s3_delete_bucket_eval.
  destruct (S3.buckets m !! name) as [b|];
    [destruct (negb (bool_decide (S3.objects b = [])) && negb force)|];
    eexists _, _; (split; [reflexivity|]); try exact Hok.
  cbn [S3.buckets]. by apply map_Forall_delete.
Qed.

(** An object call keeps the buckets well formed. *)
Lemma object_call_keeps (name : string) (c : object_call) (amb : Ambient)
    (m : S3.S3Manager) :
  map_Forall s3_record_ok (S3.buckets m) ->
  exists ok st',
    run_object_call name c (amb, m) = Return ok st' /\
    map_Forall s3_record_ok (S3.buckets (snd st')).
Proof.
  intros Hok. destruct (S3.buckets m !! name) as [b|] eqn:E.
  - destruct (object_call_step name c amb m b E)
      as (ok & amb' & b' & Hrun & Hsame & Hsound).
    eexists _, _. split; [exact Hrun|]. cbn [snd S3.buckets s3_with].
    apply map_Forall_insert_2; [|exact Hok]. destruct (Hok _ _ E) as [Hname Hb].
    split; [|by apply Hsound]. destruct Hsame as (-> & _). exact Hname.
  - destruct c as [key body md|key]; cbn [run_object_call].
    + pose proof (s3_put_object_eval name key body md amb m) as Hput.
      rewrite E in Hput. rewrite Hput. by eexists _, _.
    + unfold on_snd. cbn [fst snd]. rewrite s3_delete_object_eval, E. by eexists _, _.
Qed.

Lemma s3_calls_keep (c : call) (st : Ambient * AWS.AWSAutomation) (a : answer)
    (st' : Ambient * AWS.AWSAutomation) :
  service_of c = S3Service ->
  run c st = Return a st' ->
  map_Forall s3_record_ok (S3.buckets (AWS.s3 (snd st))) ->
  map_Forall s3_record_ok (S3.buckets (AWS.s3 (snd st'))).
Proof.
  destruct st as [amb w]. cbn [snd]. intros Hservice Hrun Hok. revert Hrun.
  destruct c; try discriminate Hservice; run_outer.
  - destruct (s3_create_keeps a0 amb (AWS.s3 w) Hok) as (name & [amb' m'] & -> & Hok').
    by intros [= <- <-].
  - unfold on_snd. cbn [fst snd].
    destruct (s3_delete_bucket_keeps bucket_name force (AWS.s3 w) Hok)
      as (ok & m' & -> & Hok').
    by intros [= <- <-].
  - destruct (object_call_keeps bucket_name (PutObject key body metadata) amb (AWS.s3 w) Hok)
      as (ok & [amb' m'] & Hrun & Hok').
    cbn [run_object_call] in Hrun. rewrite Hrun. by intros [= <- <-].
  - destruct (object_call_keeps bucket_name (DeleteObject key) amb (AWS.s3 w) Hok)
      as (ok & [amb' m'] & Hrun & Hok').
    cbn [run_object_call] in Hrun. rewrite Hrun. by intros [= <- <-].
  - unfold on_snd, S3.list_buckets. py_unfold. by intros [= <- <-].
  - unfold on_snd. cbn [fst snd].
    match goal with
    | |- context [S3.list_objects ?n ?p ?m] =>
        destruct (list_objects_prefix_eval n p m) as (objs & ->)
    end. by intros [= <- <-].
  - unfold on_snd, S3.get_bucket_info. py_unfold. by intros [= <- <-].
  - unfold on_snd, S3.enable_versioning, S3.setitem. py_unfold. cbn [fst snd].
    destruct (S3.buckets (AWS.s3 w) !! bucket_name) as [b|] eqn:E; cbn;
      intros [= <- <-]; cbn [snd AWS.s3 S3.buckets]; [|exact Hok].
    apply map_Forall_insert_2; [|exact Hok]. exact (Hok _ _ E).
Qed.

(** ** The database manager *)

Lemma rds_create_keeps (a : RDS.create_args) (amb : Ambient) (m : RDS.RDSManager) :
  map_Forall rds_record_ok (RDS.instances m) ->
  exists id st',
    RDS.create_instance a (amb, m) = Return id st' /\
    map_Forall rds_record_ok (RDS.instances (snd st')).
Proof.
  intros Hok. destruct (rds_create_eval a amb m) as [Hold Hnew].
  destruct (RDS.instances m !! RDS.arg_db_instance_identifier a) as [i|].
  - rewrite (Hold i eq_refl). by eexists _, _.
  - destruct (Hnew eq_refl) as (i & amb' & -> & Hrec). eexists _, _.
    split; [reflexivity|]. cbn [snd RDS.instances rds_with].
    apply map_Forall_insert_2; [|exact Hok].
    destruct Hrec as (Hid & Hengine & _ & _ & _ & _ & _ & _ & _ & _ & Hstatus & Hport).
    split; [exact Hid|]. split; [rewrite Hstatus; listed|]. by rewrite Hport, Hengine.
Qed.

Lemma rds_delete_keeps (id : string) (skip : bool) (snapshot : option string)
    (m : RDS.RDSManager) :
  map_Forall rds_record_ok (RDS.instances m) ->
  exists ok m',
    RDS.delete_instance id skip snapshot m = Return ok m' /\
    map_Forall rds_record_ok (RDS.instances m').
Proof.
  intros Hok. rewrite rds_delete_eval.
  destruct (RDS.instances m !! id) as [i|]; eexists _, _; (split; [reflexivity|]);
    [|exact Hok].
  cbn [RDS.instances rds_with]. by apply map_Forall_delete.
Qed.

Lemma rds_set_status_keeps (m : RDS.RDSManager) (id s : string) (info : RDS.DBInstance) :
  map_Forall rds_record_ok (RDS.instances m) ->
  RDS.instances m !! id = Some info ->
  s ∈ ["available"; "stopped"] ->
  map_Forall rds_record_ok
    (RDS.instances (rds_with (<[id := RDS.set_status s info]> (RDS.instances m)) m)).
Proof.
  intros Hok Hinfo Hs. cbn [RDS.instances rds_with].
  apply map_Forall_insert_2; [|exact Hok]. destruct (Hok _ _ Hinfo) as (Hid & _ & Hport).
  by repeat split.
Qed.

Lemma rds_calls_keep (c : call) (st : Ambient * AWS.AWSAutomation) (a : answer)
    (st' : Ambient * AWS.AWSAutomation) :
  service_of c = RdsService ->
  run c st = Return a st' ->
  map_Forall rds_record_ok (RDS.instances (AWS.rds (snd st))) ->
  map_Forall rds_record_ok (RDS.instances (AWS.rds (snd st'))).
Proof.
  destruct st as [amb w]. cbn [snd]. intros Hservice Hrun Hok. revert Hrun.
  destruct c; try discriminate Hservice; run_outer; unfold on_snd; cbn [fst snd].
  - destruct (rds_create_keeps a0 amb (AWS.rds w) Hok) as (id & [amb' m'] & -> & Hok').
    by intros [= <- <-].
  - destruct (rds_delete_keeps id skip_final_snapshot final_snapshot_identifier
                (AWS.rds w) Hok) as (ok & m' & -> & Hok').
    by intros [= <- <-].
  - rewrite rds_stop_eval.
    destruct (RDS.instances (AWS.rds w) !! id) as [info|] eqn:E;
      [destruct (String.eqb (RDS.status info) "available")|];
      intros [= <- <-]; cbn [snd AWS.rds]; try exact Hok.
    apply rds_set_status_keeps; [done..|listed].
  - rewrite rds_start_eval.
    destruct (RDS.instances (AWS.rds w) !! id) as [info|] eqn:E;
      [destruct (String.eqb (RDS.status info) "stopped")|];
      intros [= <- <-]; cbn [snd AWS.rds]; try exact Hok.
    apply rds_set_status_keeps; [done..|listed].
  - unfold RDS.create_snapshot. py_unfold.
    destruct (RDS.instances (AWS.rds w) !! id); by intros [= <- <-].
  - unfold RDS.get_instance_info. py_unfold. by intros [= <- <-].
  - unfold RDS.list_instances. py_unfold.
    destruct engine as [e|]; [destruct (truthy_str e)|]; by intros [= <- <-].
  - rewrite rds_modify_eval.
    destruct (RDS.instances (AWS.rds w) !! id) as [info|] eqn:E;
      intros [= <- <-]; cbn [snd AWS.rds RDS.instances rds_with]; [|exact Hok].
    apply map_Forall_insert_2; [|exact Hok]. pose proof (Hok _ _ E) as Hinfo.
    destruct instance_class as [cls|]; [destruct (truthy_str cls)|];
      (destruct allocated_storage as [n|]; [destruct (truthy_int n)|]);
      destruct backup_retention_period as [k|]; exact Hinfo.
Qed.

(** ** The function manager *)

Lemma len_code_or_nonneg (code : option string) (otherwise : Z) :
  (0 <= otherwise)%Z -> (0 <= Lambda.len_code_or code otherwise)%Z.
Proof.
  intros Hle. unfold Lambda.len_code_or.
  destruct code as [c|]; [destruct (truthy_str c)|]; lia.
Qed.

Lemma lambda_create_keeps (a : Lambda.create_args) (amb : Ambient)
    (m : Lambda.LambdaManager) :
  map_Forall lambda_record_ok (Lambda.functions m) ->
  exists name st',
    Lambda.create_function a (amb, m) = Return name st' /\
    map_Forall lambda_record_ok (Lambda.functions (snd st')).
Proof.
  intros Hok. destruct (lambda_create_eval a amb m) as [Hold Hnew].
  destruct (Lambda.functions m !! Lambda.arg_function_name a) as [f|].
  - rewrite (Hold f eq_refl). by eexists _, _.
  - destruct (Hnew eq_refl) as (f & amb' & -> & Hrec). eexists _, _.
    split; [reflexivity|]. cbn [snd Lambda.functions lambda_with].
    apply map_Forall_insert_2; [|exact Hok].
    destruct Hrec as (Hname & Harn & _ & _ & _ & _ & _ & _ & _ & _ & Hsize & Hversion
                      & Hstate & Hcount).
    split; [exact Hname|]. split; [exact Harn|]. split; [exact Hversion|].
    split; [exact Hstate|]. split; [lia|]. rewrite Hsize. by apply len_code_or_nonneg.
Qed.

Lemma lambda_delete_keeps (name : string) (m : Lambda.LambdaManager) :
  map_Forall lambda_record_ok (Lambda.functions m) ->
  exists ok m',
    Lambda.delete_function name m = Return ok m' /\
    map_Forall lambda_record_ok (Lambda.functions m').
Proof.
  intros Hok. rewrite lambda_delete_eval.
  destruct (Lambda.functions m !! name) as [f|]; eexists _, _; (split; [reflexivity|]);
    [|exact Hok].
  cbn [Lambda.functions]. by apply map_Forall_delete.
Qed.

Lemma lambda_calls_keep (c : call) (st : Ambient * AWS.AWSAutomation) (a : answer)
    (st' : Ambient * AWS.AWSAutomation) :
  service_of c = LambdaService ->
  run c st = Return a st' ->
  map_Forall lambda_record_ok (Lambda.functions (AWS.lambda_mgr (snd st))) ->
  map_Forall lambda_record_ok (Lambda.functions (AWS.lambda_mgr (snd st'))).
Proof.
  destruct st as [amb w]. cbn [snd]. intros Hservice Hrun Hok. revert Hrun.
  destruct c; try discriminate Hservice; run_outer.
  - destruct (lambda_create_keeps a0 amb (AWS.lambda_mgr w) Hok)
      as (name & [amb' m'] & -> & Hok').
    by intros [= <- <-].
  - unfold on_snd. cbn [fst snd].
    destruct (lambda_delete_keeps function_name (AWS.lambda_mgr w) Hok)
      as (ok & m' & -> & Hok').
    by intros [= <- <-].
  - unfold on_snd. cbn [fst snd]. rewrite lambda_invoke_eval.
    destruct (Lambda.functions (AWS.lambda_mgr w) !! function_name) as [f|] eqn:E;
      intros [= <- <-]; cbn [snd AWS.lambda_mgr Lambda.functions lambda_with];
      [|exact Hok].
    apply map_Forall_insert_2; [|exact Hok].
    destruct (Hok _ _ E) as (? & ? & ? & ? & ? & ?).
    repeat split; try done. cbn [Lambda.invocations Lambda.set_invocations]. lia.
  - destruct (Lambda.functions (AWS.lambda_mgr w) !! function_name) as [f|] eqn:E.
    + destruct (lambda_update_code_exact function_name code amb (AWS.lambda_mgr w) f E)
        as (digest & -> & _).
      intros [= <- <-]. cbn [snd AWS.lambda_mgr Lambda.functions lambda_with].
      apply map_Forall_insert_2; [|exact Hok].
      destruct (Hok _ _ E) as (? & ? & ? & ? & ? & ?).
      repeat split; try done. cbn [Lambda.code_size Lambda.set_code].
      by apply len_code_or_nonneg.
    + pose proof (lambda_update_code_eval function_name code amb (AWS.lambda_mgr w))
        as Hupd.
      rewrite E in Hupd. rewrite Hupd. by intros [= <- <-].
  - rewrite lambda_update_configuration_exact.
    destruct (Lambda.functions (AWS.lambda_mgr w) !! function_name) as [f|] eqn:E;
      intros [= <- <-]; cbn [snd AWS.lambda_mgr Lambda.functions lambda_with];
      [|exact Hok].
    apply map_Forall_insert_2; [|exact Hok]. exact (Hok _ _ E).
  - unfold on_snd, Lambda.get_function_info. py_unfold. by intros [= <- <-].
  - unfold on_snd, Lambda.list_functions. py_unfold. by intros [= <- <-].
  - unfold on_snd, Lambda.add_permission. py_unfold. cbn [fst snd].
    destruct (Lambda.functions (AWS.lambda_mgr w) !! function_name); by intros [= <- <-].
Qed.

(** ** The orchestrator *)

Lemma call_keeps_well_formed (c : call) (st : Ambient * AWS.AWSAutomation) :
  well_formed (snd st) ->
  exists a st', run c st = Return a st' /\ well_formed (snd st').
Proof.
  intros (He & Hs & Hr & Hl).
  destruct (every_call_signals c st) as (a & st' & Hrun & _).
  exists a, st'. split; [exact Hrun|].
  destruct (call_frame c st a st' Hrun) as (_ & Fe & Fs & Fr & Fl).
  unfold well_formed. destruct (service_of c) eqn:Hservice.
  - rewrite Fs, Fr, Fl by done. split; [|by split].
    by apply (ec2_calls_keep c st a st').
  - rewrite Fe, Fr, Fl by done. split; [done|]. split; [|by split].
    by apply (s3_calls_keep c st a st').
  - rewrite Fe, Fs, Fl by done. split; [done|]. split; [done|]. split; [|done].
    by apply (rds_calls_keep c st a st').
  - rewrite Fe, Fs, Fr by done. split; [done|]. split; [done|]. split; [done|].
    by apply (lambda_calls_keep c st a st').
Qed.

Lemma provision_keeps_well_formed (cfg : AWS.infrastructure_config)
    (st : Ambient * AWS.AWSAutomation) :
  well_formed (snd st) ->
  exists ids st',
    AWS.provision_infrastructure cfg st = Return ids st' /\ well_formed (snd st').
Proof.
  destruct st as [amb w]. cbn [snd]. intros (He & Hs & Hr & Hl).
  destruct (provision_characterised cfg amb w)
    as (e & s & r & l & amb1 & amb2 & amb3 & amb4 & w' & Hprov & Re & Rs & Rr & Rl & _).
  eexists _, _. split; [exact Hprov|]. cbn [snd].
  destruct (map_each_invariant EC2.create_instance_kw
              (fun st => map_Forall ec2_record_ok (EC2.instances (snd st))))
    with (xs := default [] (AWS.cfg_ec2 cfg)) (s := (amb, AWS.ec2 w))
    as (x & st1 & Hrun & He'); [|exact He|].
  { intros c [amb0 m0] H0. apply ec2_create_keeps, H0. }
  rewrite Re in Hrun. injection Hrun as <- <-.
  destruct (map_each_invariant S3.create_bucket_kw
              (fun st => map_Forall s3_record_ok (S3.buckets (snd st))))
    with (xs := default [] (AWS.cfg_s3 cfg)) (s := (amb1, AWS.s3 w))
    as (x & st2 & Hrun & Hs'); [|exact Hs|].
  { intros c [amb0 m0] H0. apply s3_create_keeps, H0. }
  rewrite Rs in Hrun. injection Hrun as <- <-.
  destruct (map_each_invariant RDS.create_instance_kw
              (fun st => map_Forall rds_record_ok (RDS.instances (snd st))))
    with (xs := default [] (AWS.cfg_rds cfg)) (s := (amb2, AWS.rds w))
    as (x & st3 & Hrun & Hr'); [|exact Hr|].
  { intros c [amb0 m0] H0. apply rds_create_keeps, H0. }
  rewrite Rr in Hrun. injection Hrun as <- <-.
  destruct (map_each_invariant Lambda.create_function_kw
              (fun st => map_Forall lambda_record_ok (Lambda.functions (snd st))))
    with (xs := default [] (AWS.cfg_lambda cfg)) (s := (amb3, AWS.lambda_mgr w))
    as (x & st4 & Hrun & Hl'); [|exact Hl|].
  { intros c [amb0 m0] H0. apply lambda_create_keeps, H0. }
  rewrite Rl in Hrun. injection Hrun as <- <-.
  exact (conj He' (conj Hs' (conj Hr' Hl'))).
Qed.

Lemma destroy_keeps_well_formed (resource_ids : gmap string (list string))
    (st : Ambient * AWS.AWSAutomation) :
  well_formed (snd st) ->
  exists counts st',
    AWS.destroy_infrastructure resource_ids st = Return counts st' /\
    well_formed (snd st').
Proof.
  destruct st as [amb w]. cbn [snd]. intros (He & Hs & Hr & Hl).
  destruct (destroy_characterised resource_ids amb w)
    as (oe & os & od & ol & w' & Hrun & Re & Rs & Rr & Rl & _).
  eexists _, _. split; [exact Hrun|]. cbn [snd].
  destruct (map_each_invariant EC2.terminate_instance
              (fun m => map_Forall ec2_record_ok (EC2.instances m))
              ec2_terminate_keeps
              (AWS.get_or_empty resource_ids "ec2_instances") (AWS.ec2 w) He)
    as (x & m1 & Hbatch & He').
  rewrite Re in Hbatch. injection Hbatch as <- <-.
  destruct (map_each_invariant (fun name => S3.delete_bucket name false)
              (fun m => map_Forall s3_record_ok (S3.buckets m))
              (fun name => s3_delete_bucket_keeps name false)
              (AWS.get_or_empty resource_ids "s3_buckets") (AWS.s3 w) Hs)
    as (x & m2 & Hbatch & Hs').
  rewrite Rs in Hbatch. injection Hbatch as <- <-.
  destruct (map_each_invariant (fun id => RDS.delete_instance id true None)
              (fun m => map_Forall rds_record_ok (RDS.instances m))
              (fun id => rds_delete_keeps id true None)
              (AWS.get_or_empty resource_ids "rds_instances") (AWS.rds w) Hr)
    as (x & m3 & Hbatch & Hr').
  rewrite Rr in Hbatch. injection Hbatch as <- <-.
  destruct (map_each_invariant Lambda.delete_function
              (fun m => map_Forall lambda_record_ok (Lambda.functions m))
              lambda_delete_keeps
              (AWS.get_or_empty resource_ids "lambda_functions") (AWS.lambda_mgr w) Hl)
    as (x & m4 & Hbatch & Hl').
  rewrite Rl in Hbatch. injection Hbatch as <- <-.
  exact (conj He' (conj Hs' (conj Hr' Hl'))).
Qed.

(** X25. Every registry stays well formed, whatever the orchestrator is
    asked: after any sequence of manager calls, provisionings, destructions
    and status reports, which runs to its end without raising, every record
    is still filed under its own identifier; every compute instance is
    running, stopped or terminated and every database instance available
    or stopped, on the port of its engine; every bucket has pairwise
    distinct keys, no negative object size and a recorded size that is not
    below the sum of the sizes; every function is the active latest version
    with counters that are not negative. *)
Theorem well_formedness_is_kept (requests : list request)
    (st : Ambient * AWS.AWSAutomation) :
  well_formed (snd st) ->
  exists st',
    map_each serve requests st = Return (replicate (length requests) tt) st' /\
    well_formed (snd st').
Proof.
  revert st. induction requests as [|r requests IH]; intros st Hst.
  - by exists st.
  - assert (exists st1, serve r st = Return tt st1 /\ well_formed (snd st1))
      as (st1 & Hrun & Hst1).
    { destruct r as [c|cfg|resource_ids|]; unfold serve, bind.
      - destruct (call_keeps_well_formed c st Hst) as (a & st1 & -> & Hst1).
        by exists st1.
      - destruct (provision_keeps_well_formed cfg st Hst) as (a & st1 & -> & Hst1).
        by exists st1.
      - destruct (destroy_keeps_well_formed resource_ids st Hst) as (a & st1 & -> & Hst1).
        by exists st1.
      - destruct st as [amb w]. rewrite status_eval. by exists (amb, w). }
    destruct (IH st1 Hst1) as (st' & Hruns & Hst').
    exists st'. cbn [map_each length replicate]. unfold bind at 1. rewrite Hrun.
    unfold bind at 1. by rewrite Hruns.
Qed.

Lemma well_formedness_is_kept_witness :
  well_formed (snd (sample_ambient, AWS.init true)) /\
  exists st',
    map_each serve sample_session (sample_ambient, AWS.init true)
      = Return (replicate (length sample_session) tt) st' /\
    well_formed (snd st').
Proof.
  assert (well_formed (snd (sample_ambient, AWS.init true))) as Hinit
    by (split; [|split; [|split]]; apply map_Forall_empty).
  split; [exact Hinit|].
  exact (well_formedness_is_kept sample_session (sample_ambient, AWS.init true) Hinit).
Defined.

(* ===================================================================== *)
(** * The life of a bucket *)
(* ===================================================================== *)

Lemma bucket_settings_kept_refl (b : S3.Bucket) : bucket_settings_kept b b.
Proof. by repeat split. Qed.

Lemma bucket_settings_kept_trans (b1 b2 b3 : S3.Bucket) :
  bucket_settings_kept b3 b2 -> bucket_settings_kept b2 b1 -> bucket_settings_kept b3 b1.
Proof.
  intros (? & ? & ? & ? & ? & H32) (? & ? & ? & ? & ? & H21).
  repeat split; try congruence. intros Hv. by apply H32, H21.
Qed.

(** What one call does to a registered bucket: unless the call is
    [delete_bucket] on it, the bucket stays registered with the settings it
    had. *)
Lemma s3_call_effect (c : call) (st : Ambient * AWS.AWSAutomation) :
  exists a st',
    run c st = Return a st' /\
    forall name b,
      S3.buckets (AWS.s3 (snd st)) !! name = Some b ->
      is_bucket_removal name c = false ->
      exists b',
        S3.buckets (AWS.s3 (snd st')) !! name = Some b' /\
        bucket_settings_kept b' b /\
        (updates_in_place c = false -> S3.tags b' = S3.tags b).
Proof.
  destruct (every_call_signals c st) as (a & st' & Hrun & _).
  exists a, st'. split; [exact Hrun|]. intros name b Hb Hkeep.
  destruct (decide (service_of c = S3Service)) as [Hs3|Hother].
  - destruct st as [amb w]. cbn [snd] in Hb. revert Hrun.
    destruct c; try discriminate Hs3; run_outer.
    + (* create_bucket *)
      destruct (s3_create_eval a0 amb (AWS.s3 w)) as [Hold Hnew].
      destruct (S3.buckets (AWS.s3 w) !! S3.arg_bucket_name a0) as [old|] eqn:E.
      * rewrite (Hold old eq_refl). intros [= <- <-]. cbn [snd AWS.s3].
        exists b. split; [exact Hb | split; [apply bucket_settings_kept_refl | done]].
      * destruct (Hnew eq_refl) as (new & amb' & -> & _). intros [= <- <-].
        cbn [snd AWS.s3 S3.buckets s3_with]. exists b.
        split; [|split; [apply bucket_settings_kept_refl | done]].
        rewrite lookup_insert_ne; [exact Hb|]. intros Heq. congruence.
    + (* delete_bucket *)
      unfold on_snd. cbn [fst snd]. rewrite s3_delete_bucket_eval.
      cbn [is_bucket_removal] in Hkeep. apply String.eqb_neq in Hkeep.
      destruct (S3.buckets (AWS.s3 w) !! bucket_name) as [target|];
        [destruct (negb (bool_decide (S3.objects target = [])) && negb force)|];
        intros [= <- <-]; cbn [snd AWS.s3 S3.buckets]; exists b;
        (split; [|split; [apply bucket_settings_kept_refl | done]]); try exact Hb.
      by rewrite lookup_delete_ne.
    + (* put_object *)
      destruct (S3.buckets (AWS.s3 w) !! bucket_name) as [target|] eqn:E.
      * destruct (object_call_step bucket_name (PutObject key body metadata) amb
                    (AWS.s3 w) target E) as (ok & amb' & b' & Hstep & Hsame & _).
        cbn [run_object_call] in Hstep. rewrite Hstep. intros [= <- <-].
        cbn [snd AWS.s3 S3.buckets s3_with].
        destruct (decide (bucket_name = name)) as [->|Hne].
        -- rewrite lookup_insert_eq. exists b'. split; [reflexivity|].
           assert (target = b) as -> by congruence.
           destruct Hsame as (? & ? & ? & Hv & ? & ? & ?).
           split; [|done]. repeat split; try done. intros Hb1. by rewrite Hv.
        -- rewrite lookup_insert_ne by done. exists b.
           split; [exact Hb | split; [apply bucket_settings_kept_refl | done]].
      * pose proof (s3_put_object_eval bucket_name key body metadata amb (AWS.s3 w))
          as Hput.
        rewrite E in Hput. rewrite Hput. intros [= <- <-]. cbn [snd AWS.s3].
        exists b. split; [exact Hb | split; [apply bucket_settings_kept_refl | done]].
    + (* delete_object *)
      destruct (S3.buckets (AWS.s3 w) !! bucket_name) as [target|] eqn:E.
      * destruct (object_call_step bucket_name (DeleteObject key) amb
                    (AWS.s3 w) target E) as (ok & amb' & b' & Hstep & Hsame & _).
        cbn [run_object_call] in Hstep. rewrite Hstep. intros [= <- <-].
        cbn [snd AWS.s3 S3.buckets s3_with].
        destruct (decide (bucket_name = name)) as [->|Hne].
        -- rewrite lookup_insert_eq. exists b'. split; [reflexivity|].
           assert (target = b) as -> by congruence.
           destruct Hsame as (? & ? & ? & Hv & ? & ? & ?).
           split; [|done]. repeat split; try done. intros Hb1. by rewrite Hv.
        -- rewrite lookup_insert_ne by done. exists b.
           split; [exact Hb | split; [apply bucket_settings_kept_refl | done]].
      * unfold on_snd. cbn [fst snd]. rewrite s3_delete_object_eval, E.
        intros [= <- <-]. cbn [snd AWS.s3].
        exists b. split; [exact Hb | split; [apply bucket_settings_kept_refl | done]].
    + (* list_buckets *)
      unfold on_snd, S3.list_buckets. py_unfold. intros [= <- <-]. cbn [snd AWS.s3].
      exists b. split; [exact Hb | split; [apply bucket_settings_kept_refl | done]].
    + (* list_objects *)
      unfold on_snd. cbn [fst snd].
      match goal with
      | |- context [S3.list_objects ?n ?p ?m] =>
          destruct (list_objects_prefix_eval n p m) as (objs & ->)
      end. intros [= <- <-]. cbn [snd AWS.s3].
      exists b. split; [exact Hb | split; [apply bucket_settings_kept_refl | done]].
    + (* get_bucket_info *)
      unfold on_snd, S3.get_bucket_info. py_unfold. intros [= <- <-]. cbn [snd AWS.s3].
      exists b. split; [exact Hb | split; [apply bucket_settings_kept_refl | done]].
    + (* enable_versioning *)
      unfold on_snd, S3.enable_versioning, S3.setitem. py_unfold. cbn [fst snd].
      destruct (S3.buckets (AWS.s3 w) !! bucket_name) as [target|] eqn:E; cbn;
        intros [= <- <-]; cbn [snd AWS.s3 S3.buckets];
        [|exists b; split; [exact Hb | split; [apply bucket_settings_kept_refl | done]]].
      destruct (decide (bucket_name = name)) as [->|Hne].
      * rewrite lookup_insert_eq. eexists. split; [reflexivity|].
        assert (target = b) as -> by congruence. split; [by repeat split | done].
      * rewrite lookup_insert_ne by done. exists b.
        split; [exact Hb | split; [apply bucket_settings_kept_refl | done]].
  - destruct (call_frame c st a st' Hrun) as (_ & _ & Hsame & _).
    rewrite (Hsame Hother). exists b. split; [exact Hb | split; [apply bucket_settings_kept_refl | done]].
Qed.

(** X26. A bucket lives until [delete_bucket] is called on it, and its
    settings are permanent: after any sequence of manager calls with no
    [delete_bucket] on the bucket, the bucket is still registered with the
    name, region, access control list, encryption flag and creation date it
    was created with, and versioning, once enabled, is still enabled.  Its
    tags are the same too when the sequence holds no [tag_instance]: that
    call updates a tags dictionary in place, and a bucket created with the
    same dictionary object as an instance shares it. *)
Theorem bucket_settings_are_permanent (script : list call) (name : string)
    (b : S3.Bucket) (st : Ambient * AWS.AWSAutomation) :
  S3.buckets (AWS.s3 (snd st)) !! name = Some b ->
  Forall (fun c => is_bucket_removal name c = false) script ->
  exists answers st' b',
    map_each run script st = Return answers st' /\
    S3.buckets (AWS.s3 (snd st')) !! name = Some b' /\
    bucket_settings_kept b' b /\
    (Forall (fun c => updates_in_place c = false) script -> S3.tags b' = S3.tags b).
Proof.
  intros Hb Hscript.
  set (quiet := Forall (fun c => updates_in_place c = false) script).
  destruct (call_script_invariant
              (fun c => is_bucket_removal name c = false /\
                        (quiet -> updates_in_place c = false))
              (fun w => exists b', S3.buckets (AWS.s3 w) !! name = Some b' /\
                                   bucket_settings_kept b' b /\
                                   (quiet -> S3.tags b' = S3.tags b)))
    with (script := script) (st := st)
    as (answers & st' & Hrun & _ & b' & Hb' & Hkept & Htags).
  - intros c st0 [Hc Hquiet] (b0 & Hb0 & Hkept0 & Htags0).
    destruct (s3_call_effect c st0) as (a & st1 & Hrun & Heffect).
    exists a, st1. split; [exact Hrun|].
    destruct (Heffect name b0 Hb0 Hc) as (b1 & Hb1 & Hkept1 & Htags1).
    exists b1. split; [exact Hb1|].
    split; [by apply bucket_settings_kept_trans with b0|].
    intros Hq. rewrite (Htags1 (Hquiet Hq)). by apply Htags0.
  - apply Forall_forall. intros c Hin. split.
    + by apply (proj1 (Forall_forall _ _) Hscript).
    + intros Hq. by apply (proj1 (Forall_forall _ _) Hq).
  - exists b. split; [exact Hb|]. split; [apply bucket_settings_kept_refl | done].
  - by exists answers, st', b'.
Qed.

Lemma bucket_settings_are_permanent_witness :
  exists b,
    S3.buckets (AWS.s3 (snd (sample_ambient, sample_world))) !! "test-bucket" = Some b /\
    Forall (fun c => is_bucket_removal "test-bucket" c = false) bucket_traffic /\
    Forall (fun c => updates_in_place c = false) bucket_traffic /\
    exists answers st' b',
      map_each run bucket_traffic (sample_ambient, sample_world) = Return answers st' /\
      S3.buckets (AWS.s3 (snd st')) !! "test-bucket" = Some b' /\
      bucket_settings_kept b' b /\
      S3.tags b' = S3.tags b.
Proof.
  eassert (S3.buckets (AWS.s3 (snd (sample_ambient, sample_world))) !! "test-bucket"
           = Some _) as Hb by (vm_compute; reflexivity).
  assert (Forall (fun c => is_bucket_removal "test-bucket" c = false) bucket_traffic)
    as Hscript by (repeat constructor).
  assert (Forall (fun c => updates_in_place c = false) bucket_traffic)
    as Hquiet by (repeat constructor).
  eexists. split; [exact Hb|]. split; [exact Hscript|]. split; [exact Hquiet|].
  destruct (bucket_settings_are_permanent bucket_traffic "test-bucket" _
              (sample_ambient, sample_world) Hb Hscript)
    as (answers & st' & b' & Hrun & Hb' & Hkept & Htags).
  exists answers, st', b'. split; [exact Hrun|]. split; [exact Hb'|].
  split; [exact Hkept | exact (Htags Hquiet)].
Defined.
